(** * Binance MCP server: response shaping, validation and dispatch

    A shallow embedding of [binance_mcp.py].  Python values that come back
    from the provider are modelled by [json]; Python [str] is a list of
    Unicode code points, so that [len] and slicing count what Python counts;
    Python [float] is IEEE binary64, taken from the Standard Library's
    [SpecFloat]; a Python exception is a value of [exn] carried by the
    [result] monad.  What belongs to the Python runtime and not to the
    repository (decimal parsing and printing of floats, [json.dumps],
    [datetime], the Unicode case tables, the text of built-in exceptions) is
    the interface [PyRuntime]. *)

From Stdlib Require Import String Ascii.
From Stdlib Require Import ZArith NArith List Bool Lia.
From Stdlib Require Import Floats.SpecFloat.
From Stdlib Require Import Numbers.DecimalString.
Import ListNotations.

Set Warnings "-register-all".

Local Open Scope Z_scope.
Local Open Scope list_scope.

(** ** Python strings *)

Module PyStr.

(** A Python [str]: the sequence of its code points. *)
Definition pystr := list N.

Fixpoint of_string (s : string) : pystr :=
  match s with
  | EmptyString => []
  | String a s' => N_of_ascii a :: of_string s'
  end.

Definition nl : pystr := [10%N].

(** [len(s)] *)
Definition len {A} (l : list A) : Z := Z.of_nat (length l).

Fixpoint eqb (a b : pystr) : bool :=
  match a, b with
  | [], [] => true
  | x :: a', y :: b' => N.eqb x y && eqb a' b'
  | _, _ => false
  end.

(** [sep.join(parts)] *)
Fixpoint join (sep : pystr) (parts : list pystr) : pystr :=
  match parts with
  | [] => []
  | [p] => p
  | p :: rest => p ++ sep ++ join sep rest
  end.

Fixpoint prefixb (p s : pystr) : bool :=
  match p, s with
  | [], _ => true
  | x :: p', y :: s' => N.eqb x y && prefixb p' s'
  | _ :: _, [] => false
  end.

(** [sub in s] *)
Fixpoint contains (sub s : pystr) : bool :=
  prefixb sub s ||
  match s with
  | [] => false
  | _ :: s' => contains sub s'
  end.

(** [s.replace(old, "")] for a non-empty [old]: the occurrences are removed
    from left to right, never overlapping.  [skip] counts the characters of
    a match still to drop. *)
Fixpoint remove_from (old : pystr) (skip : nat) (s : pystr) : pystr :=
  match s with
  | [] => []
  | c :: s' =>
      match skip with
      | S k => remove_from old k s'
      | O => if prefixb old s
             then remove_from old (Nat.pred (length old)) s'
             else c :: remove_from old O s'
      end
  end.

Definition remove (old s : pystr) : pystr := remove_from old O s.

(** [str(n)] for an [int]. *)
Definition of_Z (z : Z) : pystr := of_string (NilEmpty.string_of_int (Z.to_int z)).

(** Thousands separators, as [f"{n:,}"] puts them: a comma before every
    group of three digits counted from the right. *)
Fixpoint group3 (rev_digits : pystr) (k : nat) : pystr :=
  match rev_digits with
  | [] => []
  | d :: rest =>
      match k, rest with
      | 2%nat, _ :: _ => d :: 44%N :: group3 rest 0
      | _, _ => d :: group3 rest (S k)
      end
  end.

(** [f"{n:,}"] for an [int]. *)
Definition of_Z_comma (z : Z) : pystr :=
  let digits := of_Z (Z.abs z) in
  (if z <? 0 then [45%N] else []) ++ rev (group3 (rev digits) 0).

(** [str.isspace] on one code point, the table of CPython's
    [_PyUnicode_IsWhitespace]. *)
Definition is_space (c : N) : bool :=
  ((9 <=? c) && (c <=? 13) || (28 <=? c) && (c <=? 32)
   || (c =? 133) || (c =? 160) || (c =? 5760)
   || (8192 <=? c) && (c <=? 8202)
   || (c =? 8232) || (c =? 8233) || (c =? 8239) || (c =? 8287)
   || (c =? 12288))%N.

Fixpoint lstrip (s : pystr) : pystr :=
  match s with
  | [] => []
  | c :: s' => if is_space c then lstrip s' else s
  end.

Definition rstrip (s : pystr) : pystr := rev (lstrip (rev s)).

(** [s.strip()] *)
Definition strip (s : pystr) : pystr := rstrip (lstrip s).

Definition is_ascii_lower (c : N) : bool := ((97 <=? c) && (c <=? 122))%N.
Definition is_ascii_upper (c : N) : bool := ((65 <=? c) && (c <=? 90))%N.

End PyStr.
Import PyStr.

(** String literals of the source are written [u "..."]. *)
Definition u : string -> pystr := PyStr.of_string.

(** ** Exceptions and the error monad *)

(** What [datetime.fromtimestamp] raises: [ValueError], [OverflowError] or
    [OSError]. *)
Inductive time_error :=
| TimeValueError
| TimeOverflowError
| TimeOSError.

(** Exceptions the Python runtime raises on its own. *)
Inductive builtin_error :=
| KeyError (key : pystr)
| IndexError
| TypeError
| ValueErrorRT
| AttributeError
| ZeroDivisionError
| OverflowError
| TimeError (k : time_error)
| JSONDecodeError.

(** What pydantic reports for one field of an input model: the message of the
    [ValueError] a [field_validator] raised, or one of its own checks. *)
Inductive field_error :=
| ValidatorRaised (msg : pystr)
| LiteralError
| TooShort
| TooLong
| NotGreaterEqual
| NotLessEqual.

(** Everything [except Exception] catches in this program. *)
Inductive exn :=
| Exception (msg : pystr)
| ValueError (msg : pystr)
| Builtin (k : builtin_error)
| ValidationError (errors : list (pystr * field_error)).

Inductive result (A : Type) :=
| Ok (a : A)
| Raise (e : exn).
Arguments Ok {A} a.
Arguments Raise {A} e.

Definition bind {A B} (m : result A) (k : A -> result B) : result B :=
  match m with
  | Ok a => k a
  | Raise e => Raise e
  end.

Declare Scope py_scope.
Delimit Scope py_scope with py.
Notation "x <- m ;; k" := (bind m (fun x => k))
  (at level 61, m at next level, right associativity) : py_scope.
Notation "' p <- m ;; k" := (bind m (fun x => match x with p => k end))
  (at level 61, p pattern, m at next level, right associativity) : py_scope.
Local Open Scope py_scope.

(** [for x in xs: ...] with a body that may raise: the first exception
    stops the loop. *)
Fixpoint mapM {A B} (f : A -> result B) (xs : list A) : result (list B) :=
  match xs with
  | [] => Ok []
  | x :: xs' => y <- f x ;; ys <- mapM f xs' ;; Ok (y :: ys)
  end.

Definition is_ok {A} (r : result A) : bool :=
  match r with Ok _ => true | Raise _ => false end.

(** ** Floats *)

(** Python's [float] is IEEE 754 binary64. *)
Definition float := spec_float.
Definition prec := 53.
Definition emax := 1024.

Definition fzero : float := S754_zero false.
Definition fadd : float -> float -> float := SFadd prec emax.
Definition fsub : float -> float -> float := SFsub prec emax.
Definition fmul : float -> float -> float := SFmul prec emax.
Definition fquot : float -> float -> float := SFdiv prec emax.
Definition flt : float -> float -> bool := SFltb.
Definition fle : float -> float -> bool := SFleb.
Definition feq : float -> float -> bool := SFeqb.

(** The float nearest to an integer (ties to even). *)
Definition float_of_Z_round (z : Z) : float := binary_normalize prec emax z 0 false.

(** [float(n)] for an [int]: an integer beyond the range of binary64 raises. *)
Definition float_of_Z (z : Z) : result float :=
  match float_of_Z_round z with
  | S754_infinity _ => Raise (Builtin OverflowError)
  | f => Ok f
  end.

Definition f100 : float := float_of_Z_round 100.
Definition f1000 : float := float_of_Z_round 1000.

(** [x / y] on floats: Python raises where IEEE would give an infinity
    or a NaN. *)
Definition py_truediv (x y : float) : result float :=
  if feq y fzero then Raise (Builtin ZeroDivisionError) else Ok (fquot x y).

(** ** Provider data *)

(** What [response.json()] can return. A [dict] keeps its insertion order
    and has no two equal keys. *)
Inductive json :=
| JNull
| JBool (b : bool)
| JInt (z : Z)
| JFloat (f : float)
| JStr (s : pystr)
| JList (l : list json)
| JDict (d : list (pystr * json)).

Fixpoint assoc (k : pystr) (d : list (pystr * json)) : option json :=
  match d with
  | [] => None
  | (k', v) :: d' => if PyStr.eqb k k' then Some v else assoc k d'
  end.

(** [obj.get(key, default)]: only a [dict] has [get]. *)
Definition py_get (obj : json) (key : pystr) (default : json) : result json :=
  match obj with
  | JDict d => Ok (match assoc key d with Some v => v | None => default end)
  | _ => Raise (Builtin AttributeError)
  end.

(** [obj[key]] with a string key. *)
Definition py_getitem_key (obj : json) (key : pystr) : result json :=
  match obj with
  | JDict d => match assoc key d with
               | Some v => Ok v
               | None => Raise (Builtin (KeyError key))
               end
  | _ => Raise (Builtin TypeError)
  end.

(** [key in obj] with a string key. *)
Definition py_contains_key (key : pystr) (obj : json) : result bool :=
  match obj with
  | JDict d => Ok (match assoc key d with Some _ => true | None => false end)
  | JList l =>
      Ok (existsb (fun x => match x with JStr s => PyStr.eqb s key | _ => false end) l)
  | JStr s => Ok (contains key s)
  | _ => Raise (Builtin TypeError)
  end.

(** [bool(obj)] *)
Definition truthy (obj : json) : bool :=
  match obj with
  | JNull => false
  | JBool b => b
  | JInt z => negb (z =? 0)
  | JFloat f => negb (feq f fzero)
  | JStr s => match s with [] => false | _ => true end
  | JList l => match l with [] => false | _ => true end
  | JDict d => match d with [] => false | _ => true end
  end.

(** [obj == "text"] *)
Definition eq_str (obj : json) (text : pystr) : bool :=
  match obj with
  | JStr s => PyStr.eqb s text
  | _ => false
  end.

(** [isinstance(obj, list)] *)
Definition is_list (obj : json) : bool :=
  match obj with JList _ => true | _ => false end.

(** ** The Python runtime *)

(** A format specification [{x:+,.Nf}]. *)
Record float_format := FloatFormat {
  fmt_plus : bool;
  fmt_comma : bool;
  fmt_decimals : Z
}.

(** What the program takes from the interpreter and its libraries. *)
Class PyRuntime := {
  (** the full upper-case mapping of a code point outside ASCII *)
  unicode_upper : N -> pystr;
  (** [s.lower()] *)
  str_lower : pystr -> pystr;
  (** [float(s)] on a string; [None] where Python raises [ValueError] *)
  float_of_str : pystr -> option float;
  (** [format(x, spec)] with a fixed-point specification *)
  format_float : float_format -> float -> pystr;
  (** [sum] over floats; the [int] 0 of an empty sum prints and compares as
      the float 0.0 *)
  float_sum : list float -> float;
  (** [str(x)] where [x] is a float, a list or a dict *)
  repr : json -> pystr;
  (** [json.dumps(x, indent=2)] *)
  json_dumps : json -> pystr;
  (** [datetime.fromtimestamp(x).strftime("%Y-%m-%d %H:%M:%S UTC")] *)
  strftime_local : float -> pystr + time_error;
  (** [str(e)] on an exception the runtime raised *)
  error_text : builtin_error -> pystr;
  (** pydantic's text for one failed field *)
  field_error_text : pystr -> field_error -> pystr
}.

Section Program.

Context {RT : PyRuntime}.

(** [s.upper()] maps every code point on its own. *)
Definition upper_cp (c : N) : pystr :=
  if is_ascii_lower c then [(c - 32)%N]
  else if (c <? 128)%N then [c]
  else unicode_upper c.

Definition str_upper (s : pystr) : pystr := flat_map upper_cp s.

(** [str(e)] *)
Definition str_exn (e : exn) : pystr :=
  match e with
  | Exception msg => msg
  | ValueError msg => msg
  | Builtin k => error_text k
  | ValidationError errors =>
      join nl (map (fun '(field, fe) => field_error_text field fe) errors)
  end.

(** [str(x)], as an f-string interpolates a value. *)
Definition py_str (x : json) : pystr :=
  match x with
  | JStr s => s
  | JInt z => of_Z z
  | JNull => u "None"
  | JBool true => u "True"
  | JBool false => u "False"
  | _ => repr x
  end.

(** [float(x)] *)
Definition py_float (x : json) : result float :=
  match x with
  | JFloat f => Ok f
  | JInt z => float_of_Z z
  | JBool b => Ok (float_of_Z_round (if b then 1 else 0))
  | JStr s => match float_of_str s with
              | Some f => Ok f
              | None => Raise (Builtin ValueErrorRT)
              end
  | _ => Raise (Builtin TypeError)
  end.

(** [x / 1000.0] on a number out of JSON. *)
Definition py_div_1000 (x : json) : result float :=
  match x with
  | JFloat f => py_truediv f f1000
  | JInt z => f <- float_of_Z z ;; py_truediv f f1000
  | JBool b => py_truediv (float_of_Z_round (if b then 1 else 0)) f1000
  | _ => Raise (Builtin TypeError)
  end.

(** [x[i]] with an integer index [i >= 0]. *)
Definition py_index (x : json) (i : nat) : result json :=
  match x with
  | JList l => match nth_error l i with
               | Some v => Ok v
               | None => Raise (Builtin IndexError)
               end
  | JStr s => match nth_error s i with
              | Some c => Ok (JStr [c])
              | None => Raise (Builtin IndexError)
              end
  | JDict d => Raise (Builtin (KeyError (of_Z (Z.of_nat i))))
  | _ => Raise (Builtin TypeError)
  end.

Definition fmt (plus comma : bool) (decimals : Z) (x : float) : pystr :=
  format_float (FloatFormat plus comma decimals) x.

(** ** Input models *)

Definition CHARACTER_LIMIT : Z := 25000.

Definition VALID_INTERVALS : list pystr :=
  [u "1s"; u "1m"; u "3m"; u "5m"; u "15m"; u "30m";
   u "1h"; u "2h"; u "4h"; u "6h"; u "8h"; u "12h";
   u "1d"; u "3d"; u "1w"; u "1M"].

(** [v in xs] for strings. *)
Definition str_in (v : pystr) (xs : list pystr) : bool := existsb (PyStr.eqb v) xs.

(** [v in xs] for integers. *)
Definition int_in (v : Z) (xs : list Z) : bool := existsb (Z.eqb v) xs.

(** [TickerInput.normalize_symbols], [PriceInput.normalize_symbols] *)
Definition normalize_symbols (v : list pystr) : list pystr :=
  map (fun s => strip (str_upper s)) v.

(** [OrderBookInput.normalize_symbol], and the same validator of
    [KlinesInput] and [RecentTradesInput] *)
Definition normalize_symbol (v : pystr) : pystr := strip (str_upper v).

(** [SearchSymbolsInput.uppercase_assets] *)
Definition uppercase_assets (v : option pystr) : option pystr :=
  match v with
  | Some (c :: s) => Some (strip (str_upper (c :: s)))
  | _ => None
  end.

(** [ExchangeInfoInput.normalize_symbols] *)
Definition normalize_symbols_opt (v : option (list pystr)) : option (list pystr) :=
  match v with
  | Some (s :: l) => Some (map (fun s => strip (str_upper s)) (s :: l))
  | _ => None
  end.

Definition valid_limits : list Z := [5; 10; 20; 50; 100; 500; 1000; 5000].

Definition invalid_limit_message (v : Z) : pystr :=
  u "Invalid limit " ++ of_Z v ++ u ". Valid limits: "
    ++ join (u ", ") (map of_Z valid_limits).

(** [OrderBookInput.validate_limit] *)
Definition validate_limit (v : Z) : result Z :=
  if negb (int_in v valid_limits)
  then Raise (ValueError (invalid_limit_message v))
  else Ok v.

Definition invalid_interval_message (v : pystr) : pystr :=
  u "Invalid interval '" ++ v ++ u "'. Valid intervals: "
    ++ join (u ", ") VALID_INTERVALS.

(** [KlinesInput.validate_interval] *)
Definition validate_interval (v : pystr) : result pystr :=
  if negb (str_in v VALID_INTERVALS)
  then Raise (ValueError (invalid_interval_message v))
  else Ok v.

(** ** Truncation policy *)

Definition warning_sign : pystr := [9888%N; 65039%N].

(** The notice of the list branch of [truncate_response]. *)
Definition items_truncation_msg (truncated_count n : Z) : pystr :=
  nl ++ nl ++ warning_sign ++ u " Response truncated: Showing "
    ++ of_Z truncated_count ++ u " of " ++ of_Z n ++ u " items" ++ nl ++ nl
    ++ u "The full response exceeds the " ++ of_Z_comma CHARACTER_LIMIT
    ++ u " character limit." ++ nl ++ nl
    ++ u "To get more specific results:" ++ nl
    ++ u "- Request fewer items" ++ nl
    ++ u "- Use filters to narrow down results" ++ nl
    ++ u "- Request data in multiple smaller queries".

(** The notice of the last branch of [truncate_response]. *)
Definition hard_truncation_msg : pystr :=
  nl ++ nl ++ warning_sign ++ u " Response truncated at "
    ++ of_Z_comma CHARACTER_LIMIT ++ u " characters" ++ nl ++ nl
    ++ u "The full response was too large. Try using filters to get more specific data.".

(** [bool(item_limit)] for [item_limit: int = None]. *)
Definition item_limit_set (item_limit : option Z) : bool :=
  match item_limit with
  | Some n => negb (n =? 0)
  | None => false
  end.

(** [truncate_response(data, format_func, item_limit)]: the formatted string,
    [was_truncated] and the notice. *)
Definition truncate_response (data : json) (format_func : json -> result pystr)
    (item_limit : option Z) : result (pystr * bool * option pystr) :=
  full_result <- format_func data ;;
  if len full_result <=? CHARACTER_LIMIT then Ok (full_result, false, None)
  else
    match data with
    | JList l =>
        if item_limit_set item_limit then
          let truncated_count := Z.max 1 (len l / 2) in
          let truncated_data := firstn (Z.to_nat truncated_count) l in
          truncated_result <- format_func (JList truncated_data) ;;
          let truncation_msg := items_truncation_msg truncated_count (len l) in
          Ok (truncated_result ++ truncation_msg, true, Some truncation_msg)
        else
          let truncated := firstn (Z.to_nat CHARACTER_LIMIT) full_result in
          Ok (truncated ++ hard_truncation_msg, true, Some hard_truncation_msg)
    | _ =>
        let truncated := firstn (Z.to_nat CHARACTER_LIMIT) full_result in
        Ok (truncated ++ hard_truncation_msg, true, Some hard_truncation_msg)
    end.

(** The notice [binance_get_exchange_info] puts after its own cut. *)
Definition exchange_info_truncation_msg : pystr :=
  nl ++ nl ++ warning_sign
    ++ u " Response truncated. Use symbols parameter for specific pairs.".

(** The last step of the markdown branch of [binance_get_exchange_info]:
    [if len(result) > CHARACTER_LIMIT: result = result[:CHARACTER_LIMIT] + ...]. *)
Definition exchange_info_check_too_large (result : pystr) : pystr :=
  if len result >? CHARACTER_LIMIT
  then firstn (Z.to_nat CHARACTER_LIMIT) result ++ exchange_info_truncation_msg
  else result.

(** ** Generic operations on provider data *)

(** [len(x)] *)
Definition py_len (x : json) : result Z :=
  match x with
  | JList l => Ok (len l)
  | JStr s => Ok (len s)
  | JDict d => Ok (len d)
  | _ => Raise (Builtin TypeError)
  end.

(** What [for item in x] goes through. *)
Definition py_iter (x : json) : result (list json) :=
  match x with
  | JList l => Ok l
  | JStr s => Ok (map (fun c => JStr [c]) s)
  | JDict d => Ok (map (fun kv => JStr (fst kv)) d)
  | _ => Raise (Builtin TypeError)
  end.

(** [x[:n]]; a [dict] refuses a slice. *)
Definition py_slice_to (n : nat) (x : json) : result json :=
  match x with
  | JList l => Ok (JList (firstn n l))
  | JStr s => Ok (JStr (firstn n s))
  | _ => Raise (Builtin TypeError)
  end.

(** [x[-1]] *)
Definition py_last (x : json) : result json :=
  match x with
  | JList l => match rev l with
               | v :: _ => Ok v
               | [] => Raise (Builtin IndexError)
               end
  | JStr s => match rev s with
              | c :: _ => Ok (JStr [c])
              | [] => Raise (Builtin IndexError)
              end
  | JDict d => Raise (Builtin (KeyError (u "-1")))
  | _ => Raise (Builtin TypeError)
  end.

(** [(a, b) = x] *)
Definition py_unpack2 (x : json) : result (json * json) :=
  items <- py_iter x ;;
  match items with
  | [a; b] => Ok (a, b)
  | _ => Raise (Builtin ValueErrorRT)
  end.

(** [x.replace(old, "")]: only a [str] has [replace]. *)
Definition py_remove (old : pystr) (x : json) : result json :=
  match x with
  | JStr s => Ok (JStr (remove old s))
  | _ => Raise (Builtin AttributeError)
  end.

(** ** Formatting functions *)

(** [format_timestamp] *)
Definition format_timestamp (timestamp_ms : json) : result pystr :=
  seconds <- py_div_1000 timestamp_ms ;;
  match strftime_local seconds with
  | inl text => Ok text
  | inr k => Raise (Builtin (TimeError k))
  end.

Definition f1e9 : float := float_of_Z_round 1000000000.
Definition f1e6 : float := float_of_Z_round 1000000.

(** [format_number]: whatever goes wrong, the bare [except] returns
    [str(value)]. *)
Definition format_number (value : json) (decimals : Z) : pystr :=
  let attempt :=
    num <- py_float value ;;
    if fle f1e9 num then
      q <- py_truediv num f1e9 ;; Ok (u "$" ++ fmt false false 2 q ++ u "B")
    else if fle f1e6 num then
      q <- py_truediv num f1e6 ;; Ok (u "$" ++ fmt false false 2 q ++ u "M")
    else if fle f1000 num then
      q <- py_truediv num f1000 ;; Ok (u "$" ++ fmt false false 2 q ++ u "K")
    else Ok (u "$" ++ fmt false true decimals num)
  in
  match attempt with
  | Ok s => s
  | Raise _ => py_str value
  end.

Definition chart_up : pystr := [128200%N].
Definition chart_down : pystr := [128201%N].
Definition arrow_right : pystr := [10145%N; 65039%N].
Definition check_mark : pystr := [9989%N].
Definition pause_sign : pystr := [9208%N; 65039%N].
Definition red_circle : pystr := [128308%N].
Definition green_circle : pystr := [128994%N].

(** The indicator of a change: up, down or flat by its strict sign. *)
Definition direction (change : float) : pystr :=
  if flt fzero change then chart_up
  else if flt change fzero then chart_down
  else arrow_right.

(** [f"- **label**: ${float(x):,.2f}" if x != "N/A" else "- **label**: N/A"] *)
Definition dollars_or_na (label : pystr) (x : json) : result pystr :=
  if negb (eq_str x (u "N/A"))
  then v <- py_float x ;; Ok (u "- **" ++ label ++ u "**: $" ++ fmt false true 2 v)
  else Ok (u "- **" ++ label ++ u "**: N/A").

(** The lines of [format_ticker_markdown] that only [FULL] shows. *)
Definition ticker_full_lines (ticker symbol : json) : result (list pystr) :=
  change <- py_get ticker (u "priceChange") (JStr (u "0")) ;;
  change_pct <- py_get ticker (u "priceChangePercent") (JStr (u "0")) ;;
  change_float <- py_float change ;;
  let emoji := direction change_float in
  pct <- py_float change_pct ;;
  let l_change := u "- **24h Change**: " ++ emoji ++ u " " ++ fmt false false 2 pct
                    ++ u "% ($" ++ fmt false true 2 change_float ++ u ")" in
  high <- py_get ticker (u "highPrice") (JStr (u "N/A")) ;;
  low <- py_get ticker (u "lowPrice") (JStr (u "N/A")) ;;
  l_high <- dollars_or_na (u "24h High") high ;;
  l_low <- dollars_or_na (u "24h Low") low ;;
  volume <- py_get ticker (u "volume") (JStr (u "N/A")) ;;
  quote_volume <- py_get ticker (u "quoteVolume") (JStr (u "N/A")) ;;
  l_volume <-
    (if negb (eq_str volume (u "N/A")) then
       s1 <- py_remove (u "USDT") symbol ;;
       s2 <- py_remove (u "BUSD") s1 ;;
       s3 <- py_remove (u "BTC") s2 ;;
       base_asset <- py_remove (u "ETH") s3 ;;
       v <- py_float volume ;;
       Ok [u "- **24h Volume**: " ++ fmt false true 2 v ++ u " " ++ py_str base_asset]
     else Ok []) ;;
  let l_quote :=
    if negb (eq_str quote_volume (u "N/A"))
    then [u "- **24h Quote Volume**: " ++ format_number quote_volume 2]
    else [] in
  has_avg <- py_contains_key (u "weightedAvgPrice") ticker ;;
  l_avg <-
    (if has_avg then
       w <- py_getitem_key ticker (u "weightedAvgPrice") ;;
       v <- py_float w ;;
       Ok [u "- **Weighted Avg Price**: $" ++ fmt false true 2 v]
     else Ok []) ;;
  has_bid <- py_contains_key (u "bidPrice") ticker ;;
  l_bid <-
    (if has_bid then
       p <- py_getitem_key ticker (u "bidPrice") ;;
       pv <- py_float p ;;
       q <- py_get ticker (u "bidQty") (JInt 0) ;;
       qv <- py_float q ;;
       Ok [u "- **Best Bid**: $" ++ fmt false true 2 pv
             ++ u " (Qty: " ++ fmt false true 4 qv ++ u ")"]
     else Ok []) ;;
  has_ask <- py_contains_key (u "askPrice") ticker ;;
  l_ask <-
    (if has_ask then
       p <- py_getitem_key ticker (u "askPrice") ;;
       pv <- py_float p ;;
       q <- py_get ticker (u "askQty") (JInt 0) ;;
       qv <- py_float q ;;
       Ok [u "- **Best Ask**: $" ++ fmt false true 2 pv
             ++ u " (Qty: " ++ fmt false true 4 qv ++ u ")"]
     else Ok []) ;;
  Ok ([l_change; l_high; l_low] ++ l_volume ++ l_quote ++ l_avg ++ l_bid ++ l_ask).

(** The body of the loop of [format_ticker_markdown]. *)
Definition ticker_lines (ticker_type : pystr) (ticker : json) : result (list pystr) :=
  symbol <- py_get ticker (u "symbol") (JStr (u "Unknown")) ;;
  let l_head := u "## " ++ py_str symbol ++ nl in
  price_default <- py_get ticker (u "price") (JStr (u "N/A")) ;;
  price <- py_get ticker (u "lastPrice") price_default ;;
  l_price <- dollars_or_na (u "Current Price") price ;;
  l_full <- (if PyStr.eqb ticker_type (u "FULL")
             then ticker_full_lines ticker symbol else Ok []) ;;
  close_time <- py_get ticker (u "closeTime") JNull ;;
  l_time <- (if truthy close_time
             then t <- format_timestamp close_time ;; Ok [u "- **Last Updated**: " ++ t]
             else Ok []) ;;
  Ok ([l_head; l_price] ++ l_full ++ l_time ++ [[]]).

(** [format_ticker_markdown] *)
Definition format_ticker_markdown (tickers : json) (ticker_type : pystr) : result pystr :=
  if negb (truthy tickers) then Ok (u "No ticker data found.")
  else
    items <- py_iter tickers ;;
    blocks <- mapM (ticker_lines ticker_type) items ;;
    Ok (join nl ((u "# Binance Ticker Information" ++ nl) :: concat blocks)).

(** The body of the loop of [format_symbols_markdown]. *)
Definition symbol_lines (sym : json) : result (list pystr) :=
  symbol <- py_get sym (u "symbol") (JStr (u "Unknown")) ;;
  status <- py_get sym (u "status") (JStr (u "Unknown")) ;;
  base <- py_get sym (u "baseAsset") (JStr []) ;;
  quote <- py_get sym (u "quoteAsset") (JStr []) ;;
  let status_emoji := if eq_str status (u "TRADING") then check_mark else pause_sign in
  spot <- py_get sym (u "isSpotTradingAllowed") JNull ;;
  margin <- py_get sym (u "isMarginTradingAllowed") JNull ;;
  oco <- py_get sym (u "ocoAllowed") JNull ;;
  oto <- py_get sym (u "otoAllowed") JNull ;;
  let features :=
    (if truthy spot then [u "Spot"] else [])
      ++ (if truthy margin then [u "Margin"] else [])
      ++ (if truthy oco then [u "OCO"] else [])
      ++ (if truthy oto then [u "OTO"] else []) in
  Ok ([u "## " ++ py_str symbol ++ u " " ++ status_emoji;
       u "- **Base Asset**: " ++ py_str base;
       u "- **Quote Asset**: " ++ py_str quote;
       u "- **Status**: " ++ py_str status]
      ++ match features with
         | [] => []
         | _ => [u "- **Supported**: " ++ join (u ", ") features]
         end
      ++ [[]]).

(** [format_symbols_markdown] *)
Definition format_symbols_markdown (symbols : json) : result pystr :=
  if negb (truthy symbols) then Ok (u "No symbols found matching your criteria.")
  else
    n <- py_len symbols ;;
    items <- py_iter symbols ;;
    blocks <- mapM symbol_lines items ;;
    Ok (join nl ((u "# Found " ++ of_Z n ++ u " Trading Pairs" ++ nl) :: concat blocks)).

(** One row of a side of the order book:
    [for i, (price, qty) in enumerate(side[:10])]. *)
Definition order_book_row (level : json) : result pystr :=
  '(price, qty) <- py_unpack2 level ;;
  p <- py_float price ;;
  q <- py_float qty ;;
  let total := fmul p q in
  Ok (u "| $" ++ fmt false true 2 p ++ u " | " ++ fmt false true 6 q
        ++ u " | $" ++ fmt false true 2 total ++ u " |").

(** The rows of one side: at most the first ten levels. *)
Definition order_book_rows (side : json) : result (list pystr) :=
  top <- py_slice_to 10 side ;;
  levels <- py_iter top ;;
  mapM order_book_row levels.

(** What the summary of [format_order_book_markdown] computes. *)
Record spread_info := SpreadInfo {
  best_bid : float;
  best_ask : float;
  spread : float;
  spread_pct : float
}.

(** Lines 501-504 of the source: the best prices, their difference and the
    difference relative to the best bid. *)
Definition order_book_spread (bids asks : json) : result spread_info :=
  b0 <- py_index bids 0 ;;
  b00 <- py_index b0 0 ;;
  best_bid <- py_float b00 ;;
  a0 <- py_index asks 0 ;;
  a00 <- py_index a0 0 ;;
  best_ask <- py_float a00 ;;
  let spread := fsub best_ask best_bid in
  q <- py_truediv spread best_bid ;;
  Ok (SpreadInfo best_bid best_ask spread (fmul q f100)).

Definition spread_lines (s : spread_info) : list pystr :=
  [nl ++ u "## Spread Analysis";
   u "- **Best Bid**: $" ++ fmt false true 2 (best_bid s);
   u "- **Best Ask**: $" ++ fmt false true 2 (best_ask s);
   u "- **Spread**: $" ++ fmt false true 2 (spread s)
     ++ u " (" ++ fmt false false 3 (spread_pct s) ++ u "%)"].

(** The summary of [format_order_book_markdown]: [if bids and asks: ...]. *)
Definition order_book_summary (bids asks : json) : result (option spread_info) :=
  if truthy bids && truthy asks
  then s <- order_book_spread bids asks ;; Ok (Some s)
  else Ok None.

Definition order_book_note (n_bids n_asks : Z) : pystr :=
  nl ++ u "*Showing top 10 levels. Total bids: " ++ of_Z n_bids
     ++ u ", Total asks: " ++ of_Z n_asks ++ u "*".

(** The lines [format_order_book_markdown] appends to [output]. *)
Definition order_book_lines (data : json) (symbol : pystr) : result (list pystr) :=
  bids <- py_get data (u "bids") (JList []) ;;
  asks <- py_get data (u "asks") (JList []) ;;
  update_id <- py_get data (u "lastUpdateId") (JStr (u "N/A")) ;;
  bid_rows <- order_book_rows bids ;;
  ask_rows <- order_book_rows asks ;;
  summary <- order_book_summary bids asks ;;
  n_bids <- py_len bids ;;
  n_asks <- py_len asks ;;
  Ok ([u "# Order Book for " ++ symbol ++ nl;
       u "**Last Update ID**: " ++ py_str update_id ++ nl;
       u "## Top Bids (Buy Orders)";
       u "| Price | Quantity | Total |";
       u "|-------|----------|-------|"]
      ++ bid_rows
      ++ [nl ++ u "## Top Asks (Sell Orders)";
          u "| Price | Quantity | Total |";
          u "|-------|----------|-------|"]
      ++ ask_rows
      ++ match summary with Some s => spread_lines s | None => [] end
      ++ [order_book_note n_bids n_asks]).

(** [format_order_book_markdown] *)
Definition format_order_book_markdown (data : json) (symbol : pystr) : result pystr :=
  lines <- order_book_lines data symbol ;;
  Ok (join nl lines).

(** [((new - base) / base) * 100 if base > 0 else 0], the expression behind
    the change of one candle and the overall change of the period. *)
Definition percent_change (new base : float) : result float :=
  if flt fzero base
  then q <- py_truediv (fsub new base) base ;; Ok (fmul q f100)
  else Ok fzero.

(** The body of the loop of [format_klines_markdown]. *)
Definition kline_row (kline : json) : result pystr :=
  k0 <- py_index kline 0 ;;
  open_time <- format_timestamp k0 ;;
  k1 <- py_index kline 1 ;;
  open_price <- py_float k1 ;;
  k2 <- py_index kline 2 ;;
  high <- py_float k2 ;;
  k3 <- py_index kline 3 ;;
  low <- py_float k3 ;;
  k4 <- py_index kline 4 ;;
  close <- py_float k4 ;;
  k5 <- py_index kline 5 ;;
  volume <- py_float k5 ;;
  change_pct <- percent_change close open_price ;;
  let change_emoji := direction change_pct in
  Ok (u "| " ++ open_time ++ u " | $" ++ fmt false true 2 open_price
        ++ u " | $" ++ fmt false true 2 high ++ u " | "
        ++ u "$" ++ fmt false true 2 low ++ u " | $" ++ fmt false true 2 close
        ++ u " | " ++ fmt false true 2 volume ++ u " | "
        ++ change_emoji ++ u " " ++ fmt true false 2 change_pct ++ u "% |").

(** The rows of the table: [for kline in klines[:50]]. *)
Definition kline_rows (klines : json) : result (list pystr) :=
  shown <- py_slice_to 50 klines ;;
  items <- py_iter shown ;;
  mapM kline_row items.

(** What the period summary of [format_klines_markdown] computes. *)
Record period_summary := PeriodSummary {
  first_close : float;
  last_close : float;
  overall_change : float
}.

(** Lines 544-548 of the source. *)
Definition klines_summary (klines : json) : result period_summary :=
  first_candle <- py_index klines 0 ;;
  last_candle <- py_last klines ;;
  f4 <- py_index first_candle 4 ;;
  first_close <- py_float f4 ;;
  l4 <- py_index last_candle 4 ;;
  last_close <- py_float l4 ;;
  overall_change <- percent_change last_close first_close ;;
  Ok (PeriodSummary first_close last_close overall_change).

Definition summary_lines (s : period_summary) (n : Z) : list pystr :=
  [nl ++ u "## Period Summary";
   u "- **First Close**: $" ++ fmt false true 2 (first_close s);
   u "- **Last Close**: $" ++ fmt false true 2 (last_close s);
   u "- **Overall Change**: " ++ fmt true false 2 (overall_change s) ++ u "%";
   u "- **Candles Shown**: " ++ of_Z (Z.min n 50) ++ u " of " ++ of_Z n].

Definition klines_note (n : Z) : pystr :=
  nl ++ u "*Showing first 50 of " ++ of_Z n
     ++ u " candles. Use start_time/end_time to get specific ranges.*".

(** The lines [format_klines_markdown] appends to [output] for a non-empty
    answer. *)
Definition klines_lines (klines : json) (symbol interval : pystr) : result (list pystr) :=
  rows <- kline_rows klines ;;
  n <- py_len klines ;;
  l_summary <- (if n >? 0
                then s <- klines_summary klines ;; Ok (summary_lines s n)
                else Ok []) ;;
  Ok ([u "# Candlestick Data for " ++ symbol ++ u " (" ++ interval ++ u " interval)" ++ nl;
       u "| Time | Open | High | Low | Close | Volume | Change % |";
       u "|------|------|------|-----|-------|--------|----------|"]
      ++ rows ++ l_summary
      ++ (if n >? 50 then [klines_note n] else [])).

(** [format_klines_markdown] *)
Definition format_klines_markdown (klines : json) (symbol interval : pystr) : result pystr :=
  if negb (truthy klines)
  then Ok (u "No kline data found for " ++ symbol ++ u " with interval " ++ interval ++ u ".")
  else lines <- klines_lines klines symbol interval ;; Ok (join nl lines).

(** The body of the loop of [format_trades_markdown]. *)
Definition trade_row (trade : json) : result pystr :=
  t <- py_get trade (u "time") (JInt 0) ;;
  time <- format_timestamp t ;;
  p <- py_get trade (u "price") (JInt 0) ;;
  price <- py_float p ;;
  q <- py_get trade (u "qty") (JInt 0) ;;
  qty <- py_float q ;;
  let total := fmul price qty in
  is_buyer_maker <- py_get trade (u "isBuyerMaker") (JBool false) ;;
  let side := if truthy is_buyer_maker then u "Sell" else u "Buy" in
  let side_emoji := if truthy is_buyer_maker then red_circle else green_circle in
  Ok (u "| " ++ time ++ u " | $" ++ fmt false true 2 price ++ u " | "
        ++ fmt false true 6 qty ++ u " | $" ++ fmt false true 2 total ++ u " | "
        ++ side_emoji ++ u " " ++ side ++ u " |").

(** The rows of the table: [for trade in trades[:50]]. *)
Definition trade_rows (trades : json) : result (list pystr) :=
  shown <- py_slice_to 50 trades ;;
  items <- py_iter shown ;;
  mapM trade_row items.

(** [float(t["qty"]) for t in trades if t.get("isBuyerMaker", False)], or
    with [if not ...] when [maker] is [false]. *)
Fixpoint volume_terms (maker : bool) (trades : list json) : result (list float) :=
  match trades with
  | [] => Ok []
  | t :: rest =>
      m <- py_get t (u "isBuyerMaker") (JBool false) ;;
      if Bool.eqb (truthy m) maker then
        q <- py_getitem_key t (u "qty") ;;
        v <- py_float q ;;
        vs <- volume_terms maker rest ;;
        Ok (v :: vs)
      else volume_terms maker rest
  end.

(** The summary of [format_trades_markdown]. *)
Definition trades_summary_lines (trades : json) : result (list pystr) :=
  items <- py_iter trades ;;
  buys <- volume_terms false items ;;
  let buy_volume := float_sum buys in
  sells <- volume_terms true items ;;
  let sell_volume := float_sum sells in
  let total_volume := fadd buy_volume sell_volume in
  n <- py_len trades ;;
  l_buy <- (if flt fzero total_volume then
              q <- py_truediv buy_volume total_volume ;;
              Ok (u "- **Buy Volume**: " ++ fmt false true 6 buy_volume
                    ++ u " (" ++ fmt false false 1 (fmul q f100) ++ u "%)")
            else Ok (u "- **Buy Volume**: 0")) ;;
  l_sell <- (if flt fzero total_volume then
               q <- py_truediv sell_volume total_volume ;;
               Ok (u "- **Sell Volume**: " ++ fmt false true 6 sell_volume
                     ++ u " (" ++ fmt false false 1 (fmul q f100) ++ u "%)")
             else Ok (u "- **Sell Volume**: 0")) ;;
  Ok [nl ++ u "## Trading Summary"; u "- **Total Trades**: " ++ of_Z n; l_buy; l_sell].

Definition trades_note (n : Z) : pystr :=
  nl ++ u "*Showing 50 most recent of " ++ of_Z n ++ u " trades.*".

(** The lines [format_trades_markdown] appends to [output] for a non-empty
    answer. *)
Definition trades_lines (trades : json) (symbol : pystr) : result (list pystr) :=
  rows <- trade_rows trades ;;
  l_summary <- trades_summary_lines trades ;;
  n <- py_len trades ;;
  Ok ([u "# Recent Trades for " ++ symbol ++ nl;
       u "| Time | Price | Quantity | Total | Side |";
       u "|------|-------|----------|-------|------|"]
      ++ rows ++ l_summary
      ++ (if n >? 50 then [trades_note n] else [])).

(** [format_trades_markdown] *)
Definition format_trades_markdown (trades : json) (symbol : pystr) : result pystr :=
  if negb (truthy trades)
  then Ok (u "No recent trades found for " ++ symbol ++ u ".")
  else lines <- trades_lines trades symbol ;; Ok (join nl lines).

(** The body of the loop of [format_price_markdown]. *)
Definition price_line (price_data : json) : result pystr :=
  symbol <- py_get price_data (u "symbol") (JStr (u "Unknown")) ;;
  price <- py_get price_data (u "price") (JStr (u "N/A")) ;;
  if negb (eq_str price (u "N/A"))
  then v <- py_float price ;;
       Ok (u "- **" ++ py_str symbol ++ u "**: $" ++ fmt false true 2 v)
  else Ok (u "- **" ++ py_str symbol ++ u "**: N/A").

(** [format_price_markdown] *)
Definition format_price_markdown (prices : json) : result pystr :=
  if negb (truthy prices) then Ok (u "No price data found.")
  else
    items <- py_iter prices ;;
    lines <- mapM price_line items ;;
    Ok (join nl ((u "# Current Prices" ++ nl) :: lines)).

(** ** Remote data client *)

Definition BINANCE_API_BASE : pystr := u "https://data-api.binance.vision".

(** One HTTP GET: the URL and the query parameters. *)
Record request := Request {
  req_url : pystr;
  req_params : list (pystr * json)
}.

(** What [client.get] does: an answer with its status and what
    [response.json()] gives, or one of the two failures the client handles. *)
Inductive http_outcome :=
| HttpResponse (status : Z) (body : result json)
| HttpTimeout
| HttpRequestError (cause : pystr).

(** The provider, and the requests sent to it so far. *)
Record world := World {
  provider : request -> http_outcome;
  sent : list request
}.

(** [x == n] for an integer literal [n]. *)
Definition eq_int (x : json) (n : Z) : bool :=
  match x with
  | JInt z => z =? n
  | JFloat f => feq f (float_of_Z_round n)
  | JBool b => (if b then 1 else 0) =? n
  | _ => false
  end.

(** [x.lower()]: only a [str] has [lower]. *)
Definition py_lower (x : json) : result pystr :=
  match x with
  | JStr s => Ok (str_lower s)
  | _ => Raise (Builtin AttributeError)
  end.

Definition rate_limit_message (msg : json) : pystr :=
  u "Rate limit exceeded (HTTP 429)" ++ nl ++ nl
    ++ u "Binance rate limit: 6000 request weight per minute" ++ nl
    ++ u "Message: " ++ py_str msg ++ nl ++ nl
    ++ u "Action: Wait 60 seconds before making more requests." ++ nl
    ++ u "Tip: Use multiple symbols in one request instead of separate requests.".

Definition invalid_symbol_message (error_msg : json) : pystr :=
  u "Invalid symbol error: " ++ py_str error_msg ++ nl ++ nl
    ++ u "To find valid trading pairs, use the 'binance_search_symbols' tool:" ++ nl
    ++ u "- Search by base asset: binance_search_symbols(base_asset='BTC')" ++ nl
    ++ u "- Search by quote asset: binance_search_symbols(quote_asset='USDT')" ++ nl
    ++ u "- Search by keyword: binance_search_symbols(search_term='DOGE')".

Definition api_error_message (status : Z) (error_code error_msg : json) : pystr :=
  u "API Error (HTTP " ++ of_Z status ++ u ", Code " ++ py_str error_code ++ u "): "
    ++ py_str error_msg ++ nl ++ nl
    ++ u "Please check your parameters and try again.".

Definition server_error_message (status : Z) : pystr :=
  u "Binance server error (HTTP " ++ of_Z status ++ u ")" ++ nl ++ nl
    ++ u "This is a temporary issue on Binance's side." ++ nl
    ++ u "Action: Please retry your request in a few moments.".

Definition timeout_message : pystr :=
  u "Request timeout after 10.0 seconds" ++ nl ++ nl
    ++ u "This could be due to network issues or high API load." ++ nl
    ++ u "Action: Please try again.".

Definition network_error_message (cause : pystr) : pystr :=
  u "Network error: " ++ cause ++ nl ++ nl
    ++ u "Please check your internet connection and try again.".

(** The status dispatch of [make_api_request]. *)
Definition handle_response (status : Z) (body : result json) : result json :=
  if status =? 200 then body
  else if status =? 429 then
    error_data <- body ;;
    msg <- py_get error_data (u "msg") (JStr (u "Unknown error")) ;;
    Raise (Exception (rate_limit_message msg))
  else if (400 <=? status) && (status <? 500) then
    error_data <- body ;;
    error_code <- py_get error_data (u "code") (JStr (u "Unknown")) ;;
    error_msg <- py_get error_data (u "msg") (JStr (u "Unknown error")) ;;
    lowered <- py_lower error_msg ;;
    if contains (u "symbol") lowered || eq_int error_code (-1121)
    then Raise (Exception (invalid_symbol_message error_msg))
    else Raise (Exception (api_error_message status error_code error_msg))
  else if 500 <=? status then Raise (Exception (server_error_message status))
  else Raise (Exception (u "Unexpected HTTP status code: " ++ of_Z status)).

Definition is_null (x : json) : bool :=
  match x with JNull => true | _ => false end.

(** [make_api_request(endpoint, params)]: one GET, recorded in the world. *)
Definition make_api_request (endpoint : pystr) (params : list (pystr * json))
    (w : world) : result json * world :=
  let url := BINANCE_API_BASE ++ endpoint in
  let params := filter (fun kv => negb (is_null (snd kv))) params in
  let req := Request url params in
  let w' := World (provider w) (sent w ++ [req]) in
  match provider w req with
  | HttpResponse status body => (handle_response status body, w')
  | HttpTimeout => (Raise (Exception timeout_message), w')
  | HttpRequestError cause => (Raise (Exception (network_error_message cause)), w')
  end.

(** ** Input models, as pydantic builds them *)

Definition check_literal (allowed : list pystr) (v : pystr) : option field_error :=
  if str_in v allowed then None else Some LiteralError.

Definition check_length (lo hi : Z) {A} (v : list A) : option field_error :=
  if len v <? lo then Some TooShort
  else if len v >? hi then Some TooLong
  else None.

Definition check_range (lo hi : Z) (v : Z) : option field_error :=
  if v <? lo then Some NotGreaterEqual
  else if v >? hi then Some NotLessEqual
  else None.

(** A [field_validator] that raised [ValueError]. *)
Definition check_validator {A} (r : result A) : option field_error :=
  match r with
  | Ok _ => None
  | Raise e => Some (ValidatorRaised (str_exn e))
  end.

(** pydantic checks every field and reports all the failures at once. *)
Definition model_validate {A} (checks : list (pystr * option field_error)) (model : A)
    : result A :=
  let errors :=
    flat_map (fun '(field, e) => match e with
                                 | Some fe => [(field, fe)]
                                 | None => []
                                 end) checks in
  match errors with
  | [] => Ok model
  | _ => Raise (ValidationError errors)
  end.

Definition formats : list pystr := [u "markdown"; u "json"].

Record TickerInput := {
  ticker_response_format : pystr;
  ticker_symbols : list pystr;
  ticker_type : pystr
}.

Definition TickerInput_validate (raw : TickerInput) : result TickerInput :=
  model_validate
    [(u "response_format", check_literal formats (ticker_response_format raw));
     (u "symbols", check_length 1 100 (ticker_symbols raw));
     (u "type", check_literal [u "FULL"; u "MINI"] (ticker_type raw))]
    {| ticker_response_format := ticker_response_format raw;
       ticker_symbols := normalize_symbols (ticker_symbols raw);
       ticker_type := ticker_type raw |}.

Record OrderBookInput := {
  book_response_format : pystr;
  book_symbol : pystr;
  book_limit : Z
}.

Definition OrderBookInput_validate (raw : OrderBookInput) : result OrderBookInput :=
  model_validate
    [(u "response_format", check_literal formats (book_response_format raw));
     (u "limit", check_validator (validate_limit (book_limit raw)))]
    {| book_response_format := book_response_format raw;
       book_symbol := normalize_symbol (book_symbol raw);
       book_limit := book_limit raw |}.

Record SearchSymbolsInput := {
  search_response_format : pystr;
  search_base_asset : option pystr;
  search_quote_asset : option pystr;
  search_term : option pystr;
  search_status : pystr
}.

Definition SearchSymbolsInput_validate (raw : SearchSymbolsInput) : result SearchSymbolsInput :=
  model_validate
    [(u "response_format", check_literal formats (search_response_format raw));
     (u "status", check_literal [u "TRADING"; u "ALL"] (search_status raw))]
    {| search_response_format := search_response_format raw;
       search_base_asset := uppercase_assets (search_base_asset raw);
       search_quote_asset := uppercase_assets (search_quote_asset raw);
       search_term := uppercase_assets (search_term raw);
       search_status := search_status raw |}.

Record KlinesInput := {
  klines_response_format : pystr;
  klines_symbol : pystr;
  klines_interval : pystr;
  klines_limit : Z;
  klines_start_time : option Z;
  klines_end_time : option Z
}.

Definition KlinesInput_validate (raw : KlinesInput) : result KlinesInput :=
  model_validate
    [(u "response_format", check_literal formats (klines_response_format raw));
     (u "interval", check_validator (validate_interval (klines_interval raw)));
     (u "limit", check_range 1 1000 (klines_limit raw))]
    {| klines_response_format := klines_response_format raw;
       klines_symbol := normalize_symbol (klines_symbol raw);
       klines_interval := klines_interval raw;
       klines_limit := klines_limit raw;
       klines_start_time := klines_start_time raw;
       klines_end_time := klines_end_time raw |}.

Record RecentTradesInput := {
  trades_response_format : pystr;
  trades_symbol : pystr;
  trades_limit : Z
}.

Definition RecentTradesInput_validate (raw : RecentTradesInput) : result RecentTradesInput :=
  model_validate
    [(u "response_format", check_literal formats (trades_response_format raw));
     (u "limit", check_range 1 1000 (trades_limit raw))]
    {| trades_response_format := trades_response_format raw;
       trades_symbol := normalize_symbol (trades_symbol raw);
       trades_limit := trades_limit raw |}.

Record ExchangeInfoInput := {
  info_response_format : pystr;
  info_symbols : option (list pystr)
}.

Definition ExchangeInfoInput_validate (raw : ExchangeInfoInput) : result ExchangeInfoInput :=
  model_validate
    [(u "response_format", check_literal formats (info_response_format raw))]
    {| info_response_format := info_response_format raw;
       info_symbols := normalize_symbols_opt (info_symbols raw) |}.

Record PriceInput := {
  price_response_format : pystr;
  price_symbols : list pystr
}.

Definition PriceInput_validate (raw : PriceInput) : result PriceInput :=
  model_validate
    [(u "response_format", check_literal formats (price_response_format raw));
     (u "symbols", check_length 1 100 (price_symbols raw))]
    {| price_response_format := price_response_format raw;
       price_symbols := normalize_symbols (price_symbols raw) |}.

(** ** Tools *)

(** [try: ... except Exception as e: return f"{prefix}{str(e)}"] around the
    whole body of a tool. *)
Definition catch_all (prefix : pystr) (body : result pystr * world) : pystr * world :=
  match fst body with
  | Ok text => (text, snd body)
  | Raise e => (prefix ++ str_exn e, snd body)
  end.

(** ['["' + '","'.join(symbols) + '"]'] *)
Definition symbols_param (symbols : list pystr) : pystr :=
  u "[" ++ [34%N] ++ join ([34%N] ++ u "," ++ [34%N]) symbols ++ [34%N] ++ u "]".

(** [if not isinstance(data, list): data = [data]] *)
Definition ensure_list (data : json) : json :=
  if negb (is_list data) then JList [data] else data.

Definition is_json (response_format : pystr) : bool := PyStr.eqb response_format (u "json").

Definition ticker_body (params : TickerInput) (w : world) : result pystr * world :=
  let api_params := [(u "symbols", JStr (symbols_param (ticker_symbols params)));
                     (u "type", JStr (ticker_type params))] in
  let '(response, w') := make_api_request (u "/api/v3/ticker/24hr") api_params w in
  (data <- response ;;
   let data := ensure_list data in
   n <- py_len data ;;
   if is_json (ticker_response_format params) then
     Ok (json_dumps (JDict [(u "data", data); (u "count", JInt n);
                            (u "type", JStr (ticker_type params))]))
   else
     '(formatted, _, _) <-
        truncate_response data (fun d => format_ticker_markdown d (ticker_type params))
          (Some n) ;;
     Ok formatted,
   w').

(** [binance_get_ticker] *)
Definition binance_get_ticker (params : TickerInput) (w : world) : pystr * world :=
  catch_all (u "Error fetching ticker data: ") (ticker_body params w).

Definition order_book_body (params : OrderBookInput) (w : world) : result pystr * world :=
  let api_params := [(u "symbol", JStr (book_symbol params));
                     (u "limit", JInt (book_limit params))] in
  let '(response, w') := make_api_request (u "/api/v3/depth") api_params w in
  (data <- response ;;
   if is_json (book_response_format params) then Ok (json_dumps data)
   else format_order_book_markdown data (book_symbol params),
   w').

(** [binance_get_order_book] *)
Definition binance_get_order_book (params : OrderBookInput) (w : world) : pystr * world :=
  catch_all (u "Error fetching order book: ") (order_book_body params w).

Definition price_body (params : PriceInput) (w : world) : result pystr * world :=
  let api_params := [(u "symbols", JStr (symbols_param (price_symbols params)))] in
  let '(response, w') := make_api_request (u "/api/v3/ticker/price") api_params w in
  (data <- response ;;
   let data := ensure_list data in
   n <- py_len data ;;
   if is_json (price_response_format params) then
     Ok (json_dumps (JDict [(u "prices", data); (u "count", JInt n)]))
   else format_price_markdown data,
   w').

(** [binance_get_price] *)
Definition binance_get_price (params : PriceInput) (w : world) : pystr * world :=
  catch_all (u "Error fetching prices: ") (price_body params w).

(** What the markdown branch of [binance_get_best_price] computes for one
    ticker. *)
Record best_price_info := BestPriceInfo {
  bp_bid_price : float;
  bp_bid_qty : float;
  bp_ask_price : float;
  bp_ask_qty : float;
  bp_spread : float;
  bp_spread_pct : float
}.

(** Lines 1252-1258 of the source. *)
Definition best_price_values (ticker : json) : result best_price_info :=
  b <- py_get ticker (u "bidPrice") (JInt 0) ;;
  bid_price <- py_float b ;;
  bq <- py_get ticker (u "bidQty") (JInt 0) ;;
  bid_qty <- py_float bq ;;
  a <- py_get ticker (u "askPrice") (JInt 0) ;;
  ask_price <- py_float a ;;
  aq <- py_get ticker (u "askQty") (JInt 0) ;;
  ask_qty <- py_float aq ;;
  let spread := fsub ask_price bid_price in
  spread_pct <- (if flt fzero bid_price
                 then q <- py_truediv spread bid_price ;; Ok (fmul q f100)
                 else Ok fzero) ;;
  Ok (BestPriceInfo bid_price bid_qty ask_price ask_qty spread spread_pct).

(** The body of the loop of the markdown branch of [binance_get_best_price]. *)
Definition best_price_lines (ticker : json) : result (list pystr) :=
  symbol <- py_get ticker (u "symbol") (JStr (u "Unknown")) ;;
  v <- best_price_values ticker ;;
  Ok [u "## " ++ py_str symbol;
      u "- **Best Bid**: $" ++ fmt false true 2 (bp_bid_price v)
        ++ u " (Qty: " ++ fmt false true 6 (bp_bid_qty v) ++ u ")";
      u "- **Best Ask**: $" ++ fmt false true 2 (bp_ask_price v)
        ++ u " (Qty: " ++ fmt false true 6 (bp_ask_qty v) ++ u ")";
      u "- **Spread**: $" ++ fmt false true 2 (bp_spread v)
        ++ u " (" ++ fmt false false 3 (bp_spread_pct v) ++ u "%)";
      []].

Definition best_price_markdown (data : json) : result pystr :=
  items <- py_iter data ;;
  blocks <- mapM best_price_lines items ;;
  Ok (join nl ((u "# Best Bid/Ask Prices" ++ nl) :: concat blocks)).

Definition best_price_body (params : PriceInput) (w : world) : result pystr * world :=
  let api_params := [(u "symbols", JStr (symbols_param (price_symbols params)))] in
  let '(response, w') := make_api_request (u "/api/v3/ticker/bookTicker") api_params w in
  (data <- response ;;
   let data := ensure_list data in
   n <- py_len data ;;
   if is_json (price_response_format params) then
     Ok (json_dumps (JDict [(u "tickers", data); (u "count", JInt n)]))
   else best_price_markdown data,
   w').

(** [binance_get_best_price] *)
Definition binance_get_best_price (params : PriceInput) (w : world) : pystr * world :=
  catch_all (u "Error fetching best prices: ") (best_price_body params w).

(** [bool(v)] for an optional string field. *)
Definition opt_set (v : option pystr) : bool :=
  match v with
  | Some (_ :: _) => true
  | _ => false
  end.

Definition opt_json (v : option pystr) : json :=
  match v with
  | Some s => JStr s
  | None => JNull
  end.

(** The filters of [binance_search_symbols]: [true] when [sym] is kept. *)
Definition symbol_matches (params : SearchSymbolsInput) (sym : json) : result bool :=
  skip_status <-
    (if PyStr.eqb (search_status params) (u "TRADING")
     then s <- py_get sym (u "status") JNull ;; Ok (negb (eq_str s (u "TRADING")))
     else Ok false) ;;
  if skip_status then Ok false else
  skip_base <-
    (if opt_set (search_base_asset params)
     then b <- py_get sym (u "baseAsset") JNull ;;
          Ok (negb (eq_str b (match search_base_asset params with Some s => s | None => [] end)))
     else Ok false) ;;
  if skip_base then Ok false else
  skip_quote <-
    (if opt_set (search_quote_asset params)
     then q <- py_get sym (u "quoteAsset") JNull ;;
          Ok (negb (eq_str q (match search_quote_asset params with Some s => s | None => [] end)))
     else Ok false) ;;
  if skip_quote then Ok false else
  match search_term params with
  | Some (c :: term) =>
      symbol_name <- py_get sym (u "symbol") (JStr []) ;;
      found <- py_contains_key (c :: term) symbol_name ;;
      Ok found
  | _ => Ok true
  end.

(** [for sym in symbols: ... filtered_symbols.append(sym)] *)
Fixpoint filter_symbols (params : SearchSymbolsInput) (symbols : list json)
    : result (list json) :=
  match symbols with
  | [] => Ok []
  | sym :: rest =>
      keep <- symbol_matches params sym ;;
      kept <- filter_symbols params rest ;;
      Ok (if keep then sym :: kept else kept)
  end.

Definition search_json (params : SearchSymbolsInput) (filtered : list json) : pystr :=
  let result :=
    json_dumps (JDict [(u "symbols", JList filtered);
                       (u "count", JInt (len filtered));
                       (u "filters",
                        JDict [(u "base_asset", opt_json (search_base_asset params));
                               (u "quote_asset", opt_json (search_quote_asset params));
                               (u "search_term", opt_json (search_term params));
                               (u "status", JStr (search_status params))])]) in
  if len result >? CHARACTER_LIMIT then
    let truncated_count := Z.max 10 (len filtered / 2) in
    let truncated_data := firstn (Z.to_nat truncated_count) filtered in
    json_dumps (JDict [(u "symbols", JList truncated_data);
                       (u "count", JInt truncated_count);
                       (u "total_matches", JInt (len filtered));
                       (u "truncated", JBool true);
                       (u "message",
                        JStr (u "Showing " ++ of_Z truncated_count ++ u " of "
                                ++ of_Z (len filtered)
                                ++ u " results. Add more specific filters."))])
  else result.

Definition search_body (params : SearchSymbolsInput) (w : world) : result pystr * world :=
  let '(response, w') := make_api_request (u "/api/v3/exchangeInfo") [] w in
  (data <- response ;;
   symbols <- py_get data (u "symbols") (JList []) ;;
   items <- py_iter symbols ;;
   filtered <- filter_symbols params items ;;
   if is_json (search_response_format params) then Ok (search_json params filtered)
   else
     '(formatted, _, _) <-
        truncate_response (JList filtered) format_symbols_markdown (Some (len filtered)) ;;
     Ok formatted,
   w').

(** [binance_search_symbols] *)
Definition binance_search_symbols (params : SearchSymbolsInput) (w : world) : pystr * world :=
  catch_all (u "Error searching symbols: ") (search_body params w).

Definition opt_int_param (name : pystr) (v : option Z) : list (pystr * json) :=
  match v with
  | Some z => if z =? 0 then [] else [(name, JInt z)]
  | None => []
  end.

(** The dict the json branch of [binance_get_klines] builds from one row. *)
Definition kline_dict (kline : json) : result json :=
  k0 <- py_index kline 0 ;;
  k1 <- py_index kline 1 ;;
  k2 <- py_index kline 2 ;;
  k3 <- py_index kline 3 ;;
  k4 <- py_index kline 4 ;;
  k5 <- py_index kline 5 ;;
  k6 <- py_index kline 6 ;;
  k7 <- py_index kline 7 ;;
  k8 <- py_index kline 8 ;;
  k9 <- py_index kline 9 ;;
  k10 <- py_index kline 10 ;;
  Ok (JDict [(u "openTime", k0); (u "open", k1); (u "high", k2); (u "low", k3);
             (u "close", k4); (u "volume", k5); (u "closeTime", k6);
             (u "quoteVolume", k7); (u "trades", k8);
             (u "takerBuyBaseVolume", k9); (u "takerBuyQuoteVolume", k10)]).

Definition klines_body (params : KlinesInput) (w : world) : result pystr * world :=
  let api_params := [(u "symbol", JStr (klines_symbol params));
                     (u "interval", JStr (klines_interval params));
                     (u "limit", JInt (klines_limit params))]
                    ++ opt_int_param (u "startTime") (klines_start_time params)
                    ++ opt_int_param (u "endTime") (klines_end_time params) in
  let '(response, w') := make_api_request (u "/api/v3/klines") api_params w in
  (data <- response ;;
   if is_json (klines_response_format params) then
     items <- py_iter data ;;
     formatted_klines <- mapM kline_dict items ;;
     Ok (json_dumps (JDict [(u "symbol", JStr (klines_symbol params));
                            (u "interval", JStr (klines_interval params));
                            (u "klines", JList formatted_klines);
                            (u "count", JInt (len formatted_klines))]))
   else format_klines_markdown data (klines_symbol params) (klines_interval params),
   w').

(** [binance_get_klines] *)
Definition binance_get_klines (params : KlinesInput) (w : world) : pystr * world :=
  catch_all (u "Error fetching klines: ") (klines_body params w).

Definition recent_trades_body (params : RecentTradesInput) (w : world)
    : result pystr * world :=
  let api_params := [(u "symbol", JStr (trades_symbol params));
                     (u "limit", JInt (trades_limit params))] in
  let '(response, w') := make_api_request (u "/api/v3/trades") api_params w in
  (data <- response ;;
   if is_json (trades_response_format params) then
     n <- py_len data ;;
     Ok (json_dumps (JDict [(u "symbol", JStr (trades_symbol params));
                            (u "trades", data); (u "count", JInt n)]))
   else format_trades_markdown data (trades_symbol params),
   w').

(** [binance_get_recent_trades] *)
Definition binance_get_recent_trades (params : RecentTradesInput) (w : world)
    : pystr * world :=
  catch_all (u "Error fetching recent trades: ") (recent_trades_body params w).

(** [bool(params.symbols)] for the optional list of [ExchangeInfoInput]. *)
Definition symbols_set (v : option (list pystr)) : bool :=
  match v with
  | Some (_ :: _) => true
  | _ => false
  end.

(** The json branch of [binance_get_exchange_info]. *)
Definition exchange_info_json (data : json) : result pystr :=
  let result := json_dumps data in
  if len result >? CHARACTER_LIMIT then
    timezone <- py_get data (u "timezone") JNull ;;
    server_time <- py_get data (u "serverTime") JNull ;;
    rate_limits <- py_get data (u "rateLimits") (JList []) ;;
    symbols <- py_get data (u "symbols") (JList []) ;;
    first50 <- py_slice_to 50 symbols ;;
    Ok (json_dumps
          (JDict [(u "timezone", timezone);
                  (u "serverTime", server_time);
                  (u "rateLimits", rate_limits);
                  (u "symbols", first50);
                  (u "truncated", JBool true);
                  (u "message",
                   JStr (u "Response truncated. Specify symbols parameter for specific pairs."))]))
  else Ok result.

Definition rate_limit_line (limit : json) : result pystr :=
  limit_type <- py_get limit (u "rateLimitType") (JStr (u "Unknown")) ;;
  interval <- py_get limit (u "interval") (JStr []) ;;
  interval_num <- py_get limit (u "intervalNum") (JStr []) ;;
  limit_val <- py_get limit (u "limit") (JStr []) ;;
  Ok (u "- **" ++ py_str limit_type ++ u "**: " ++ py_str limit_val ++ u " per "
        ++ py_str interval_num ++ u " " ++ py_str interval).

(** The lines the markdown branch of [binance_get_exchange_info] appends
    to [output]. *)
Definition exchange_info_lines (params : ExchangeInfoInput) (data : json)
    : result (list pystr) :=
  timezone <- py_get data (u "timezone") (JStr (u "N/A")) ;;
  server_time <- py_get data (u "serverTime") (JInt 0) ;;
  time <- format_timestamp server_time ;;
  rate_limits <- py_get data (u "rateLimits") (JList []) ;;
  l_limits <-
    (if truthy rate_limits then
       items <- py_iter rate_limits ;;
       lines <- mapM rate_limit_line items ;;
       Ok ([u "## Rate Limits"] ++ lines ++ [[]])
     else Ok []) ;;
  symbols <- py_get data (u "symbols") (JList []) ;;
  n <- py_len symbols ;;
  l_symbols <-
    (if symbols_set (info_symbols params) then
       formatted <- format_symbols_markdown symbols ;; Ok [formatted]
     else if n >? 100 then
       Ok [u "*Too many symbols to display (" ++ of_Z n ++ u " total).*";
           u "*Use 'symbols' parameter to get details for specific pairs.*";
           nl ++ u "Example: binance_get_exchange_info(symbols=['BTCUSDT', 'ETHUSDT'])"]
     else
       first50 <- py_slice_to 50 symbols ;;
       formatted <- format_symbols_markdown first50 ;;
       Ok ([formatted]
             ++ (if n >? 50
                 then [nl ++ u "*Showing first 50 of " ++ of_Z n ++ u " symbols.*"]
                 else []))) ;;
  Ok ([u "# Binance Exchange Information" ++ nl;
       u "## General Information";
       u "- **Timezone**: " ++ py_str timezone;
       u "- **Server Time**: " ++ time ++ nl]
      ++ l_limits
      ++ [u "## Trading Pairs (" ++ of_Z n ++ u " total)" ++ nl]
      ++ l_symbols).

(** The markdown branch of [binance_get_exchange_info]. *)
Definition exchange_info_markdown (params : ExchangeInfoInput) (data : json)
    : result pystr :=
  lines <- exchange_info_lines params data ;;
  Ok (exchange_info_check_too_large (join nl lines)).

Definition exchange_info_body (params : ExchangeInfoInput) (w : world)
    : result pystr * world :=
  let api_params :=
    if symbols_set (info_symbols params)
    then [(u "symbols",
           JStr (symbols_param (match info_symbols params with Some l => l | None => [] end)))]
    else [] in
  let '(response, w') := make_api_request (u "/api/v3/exchangeInfo") api_params w in
  (data <- response ;;
   if is_json (info_response_format params) then exchange_info_json data
   else exchange_info_markdown params data,
   w').

(** [binance_get_exchange_info] *)
Definition binance_get_exchange_info (params : ExchangeInfoInput) (w : world)
    : pystr * world :=
  catch_all (u "Error fetching exchange info: ") (exchange_info_body params w).

(** ** Invocation *)

(** What the caller of a tool gets: the string the tool returned, or the
    exception that left it. *)
Inductive outcome :=
| Returned (text : pystr)
| Raised (e : exn).

(** A tool is declared as [async def tool(params: Model) -> str]: the model is
    built from the caller's arguments first, and the tool runs on it. *)
Definition invoke {Raw Model} (validate : Raw -> result Model)
    (tool : Model -> world -> pystr * world) (raw : Raw) (w : world) : outcome * world :=
  match validate raw with
  | Ok params => let '(text, w') := tool params w in (Returned text, w')
  | Raise e => (Raised e, w)
  end.

Definition invoke_get_ticker := invoke TickerInput_validate binance_get_ticker.
Definition invoke_search_symbols := invoke SearchSymbolsInput_validate binance_search_symbols.
Definition invoke_get_order_book := invoke OrderBookInput_validate binance_get_order_book.
Definition invoke_get_klines := invoke KlinesInput_validate binance_get_klines.
Definition invoke_get_recent_trades :=
  invoke RecentTradesInput_validate binance_get_recent_trades.
Definition invoke_get_exchange_info :=
  invoke ExchangeInfoInput_validate binance_get_exchange_info.
Definition invoke_get_price := invoke PriceInput_validate binance_get_price.
Definition invoke_get_best_price := invoke PriceInput_validate binance_get_best_price.

(** ** Vocabulary of the statements *)

(** A string that does not begin with white space. *)
Definition lstripped (s : pystr) : Prop :=
  match s with
  | [] => True
  | c :: _ => is_space c = false
  end.

(** The case tables outside ASCII are stable: what [upper] produces is
    already upper case. *)
Definition upper_stable : Prop :=
  forall c d : N, (128 <= c)%N -> In d (unicode_upper c) -> upper_cp d = [d].

(** Two strings equal up to letter case, as Python compares them without
    regard to case: [x.lower() == y.lower()]. *)
Definition equal_ignoring_case (x y : pystr) : Prop := str_lower x = str_lower y.

(** Two code points that are the same, or the two cases of one ASCII
    letter. *)
Definition ascii_case_variant (a b : N) : Prop :=
  a = b
  \/ (is_ascii_lower a = true /\ b = (a - 32)%N)
  \/ (is_ascii_lower b = true /\ a = (b - 32)%N).

(** Two strings that differ at most in the case of ASCII letters. *)
Definition equal_up_to_ascii_case (x y : pystr) : Prop := Forall2 ascii_case_variant x y.

(** How every notice of the program begins. *)
Definition notice_marker : pystr := nl ++ nl ++ warning_sign ++ u " Response truncated".

(** The defaults of the [get] calls of each renderer. *)
Definition trade_defaults : list (pystr * json) :=
  [(u "time", JInt 0); (u "price", JInt 0); (u "isBuyerMaker", JBool false)].

Definition price_defaults : list (pystr * json) :=
  [(u "symbol", JStr (u "Unknown")); (u "price", JStr (u "N/A"))].

Definition best_price_defaults : list (pystr * json) :=
  [(u "symbol", JStr (u "Unknown")); (u "bidPrice", JInt 0); (u "bidQty", JInt 0);
   (u "askPrice", JInt 0); (u "askQty", JInt 0)].

Definition symbol_defaults : list (pystr * json) :=
  [(u "symbol", JStr (u "Unknown")); (u "status", JStr (u "Unknown"));
   (u "baseAsset", JStr []); (u "quoteAsset", JStr []);
   (u "isSpotTradingAllowed", JNull); (u "isMarginTradingAllowed", JNull);
   (u "ocoAllowed", JNull); (u "otoAllowed", JNull)].

Definition ticker_defaults : list (pystr * json) :=
  [(u "symbol", JStr (u "Unknown")); (u "price", JStr (u "N/A"));
   (u "priceChange", JStr (u "0")); (u "priceChangePercent", JStr (u "0"));
   (u "highPrice", JStr (u "N/A")); (u "lowPrice", JStr (u "N/A"));
   (u "volume", JStr (u "N/A")); (u "quoteVolume", JStr (u "N/A"));
   (u "bidQty", JInt 0); (u "askQty", JInt 0); (u "closeTime", JNull)].

Definition order_book_defaults : list (pystr * json) :=
  [(u "bids", JList []); (u "asks", JList []); (u "lastUpdateId", JStr (u "N/A"))].

(** What [try: body / except Exception as e: return prefix + str(e)] gives. *)
Definition guarded (prefix : pystr) (body : result pystr * world) (out : pystr * world)
    : Prop :=
  snd out = snd body
  /\ match fst body with
     | Ok text => fst out = text
     | Raise e => fst out = prefix ++ str_exn e
     end.


(** A world that is [w] after one GET to [endpoint]. *)
Definition one_request_to (endpoint : pystr) (w w' : world) : Prop :=
  provider w' = provider w
  /\ exists params, sent w' = sent w ++ [Request (BINANCE_API_BASE ++ endpoint) params].


(** What an invocation leaves behind: nothing when the caller got an
    exception, one GET to [endpoint] when the caller got a string. *)
Definition sends_at_most_one (endpoint : pystr) (w : world) (result : outcome * world)
    : Prop :=
  match fst result with
  | Raised _ => snd result = w
  | Returned _ => one_request_to endpoint w (snd result)
  end.


(** What [make_api_request] makes of an answer of the provider. *)
Definition answer_result (answer : http_outcome) : result json :=
  match answer with
  | HttpResponse status body => handle_response status body
  | HttpTimeout => Raise (Exception timeout_message)
  | HttpRequestError cause => Raise (Exception (network_error_message cause))
  end.

(** A computation that does not stop on a division by zero. *)
Definition no_division_error {A} (r : result A) : Prop :=
  r <> Raise (Builtin ZeroDivisionError).


(** A symbol object of the exchange information passes the filters of a
    search: each filter that is set (a status of TRADING, a non-empty base
    asset, quote asset or search term) holds of the field it reads. *)
Definition passes_filters (params : SearchSymbolsInput) (d : list (pystr * json)) : Prop :=
  (search_status params = u "TRADING" -> assoc (u "status") d = Some (JStr (u "TRADING")))
  /\ (forall b, search_base_asset params = Some b -> b <> [] ->
                assoc (u "baseAsset") d = Some (JStr b))
  /\ (forall q, search_quote_asset params = Some q -> q <> [] ->
                assoc (u "quoteAsset") d = Some (JStr q))
  /\ (forall t, search_term params = Some t -> t <> [] ->
                py_contains_key t (match assoc (u "symbol") d with
                                   | Some name => name
                                   | None => JStr []
                                   end) = Ok true).

(** The symbols the loop of [binance_search_symbols] appends. *)
Definition kept_by (params : SearchSymbolsInput) (sym : json) : bool :=
  match symbol_matches params sym with
  | Ok true => true
  | _ => false
  end.
(** A symbol without a double quote in it. *)
Definition quote_free (s : pystr) : Prop := ~ In 34%N s.

(** What a tool returns for the outcome of its body: the text, or its
    prefix followed by the text of the exception. *)
Definition reported (prefix : pystr) (r : result pystr) : pystr :=
  match r with
  | Ok text => text
  | Raise e => prefix ++ str_exn e
  end.

(** [t.get("isBuyerMaker", False)], as a truth value, for a trade object. *)
Definition buyer_is_maker (d : list (pystr * json)) : bool :=
  truthy (match assoc (u "isBuyerMaker") d with
          | Some m => m
          | None => JBool false
          end).

(** [float(t["qty"])] for a trade object. *)
Definition trade_quantity (d : list (pystr * json)) : result float :=
  q <- py_getitem_key (JDict d) (u "qty") ;; py_float q.

(** [completes defaults a b]: [b] is the object [a] with fields of
    [defaults] that [a] lacks set to their default. *)
Inductive completes (defaults : list (pystr * json)) : json -> json -> Prop :=
| completes_same (a : json) : completes defaults a a
| completes_field (d : list (pystr * json)) (k : pystr) (v : json) (b : json) :
    In (k, v) defaults -> assoc k d = None ->
    completes defaults (JDict ((k, v) :: d)) b ->
    completes defaults (JDict d) b.

End Program.

(** ** A reference runtime

    One implementation of [PyRuntime], on which the model runs: the ASCII
    case tables and the entries of the Unicode tables for U+00DF, U+1E9E and
    U+212A (any other code point outside ASCII is its own upper and lower
    case), correctly rounded decimal conversions, left-to-right summation, and UTC
    as the local time zone.  The statements about the program below hold for
    every runtime; this one evaluates them on concrete answers of the
    provider. *)

Module Ref.

Definition is_digit (c : N) : bool := ((48 <=? c) && (c <=? 57))%N.

(** The digits at the head of a string, as a number, their count, and the
    rest of the string. *)
Fixpoint take_digits (acc : Z) (count : nat) (s : pystr) : Z * nat * pystr :=
  match s with
  | c :: s' =>
      if is_digit c then take_digits (10 * acc + (Z.of_N c - 48)) (S count) s'
      else (acc, count, s)
  | [] => (acc, count, s)
  end.

Definition take_sign (s : pystr) : bool * pystr :=
  match s with
  | 45%N :: s' => (true, s')
  | 43%N :: s' => (false, s')
  | _ => (false, s)
  end.

(** The float nearest to [m * 10^e], for [m >= 0]. *)
Definition round_decimal (negative : bool) (m e : Z) : float :=
  let f :=
    if m =? 0 then S754_zero false
    else if 0 <=? e then binary_normalize prec emax (m * 10 ^ e) 0 false
    else
      let d := 10 ^ (- e) in
      let k := Z.max 0 (66 + Z.log2 d - Z.log2 m) in
      let q := (m * 2 ^ k) / d in
      let sticky := if (m * 2 ^ k) mod d =? 0 then 0 else 1 in
      binary_normalize prec emax (2 * q + sticky) (- k - 1) false in
  if negative then SFopp f else f.

Definition lower_ascii (c : N) : N := if is_ascii_upper c then (c + 32)%N else c.

(** [float(s)]: an optional sign, digits with an optional fraction, an
    optional exponent; or [inf], [infinity], [nan] in any case. *)
Definition float_of_str (s : pystr) : option float :=
  let '(negative, body) := take_sign (strip s) in
  let word := map lower_ascii body in
  if PyStr.eqb word (u "inf") || PyStr.eqb word (u "infinity")
  then Some (S754_infinity negative)
  else if PyStr.eqb word (u "nan") then Some S754_nan
  else
    let '(int_part, n_int, rest) := take_digits 0 0 body in
    let '(mantissa, n_frac, rest) :=
      match rest with
      | 46%N :: rest' => take_digits int_part 0 rest'
      | _ => (int_part, O, rest)
      end in
    if (n_int + n_frac =? 0)%nat then None
    else
      match rest with
      | [] => Some (round_decimal negative mantissa (- Z.of_nat n_frac))
      | c :: rest' =>
          if (c =? 101)%N || (c =? 69)%N then
            let '(exp_negative, digits) := take_sign rest' in
            match take_digits 0 0 digits with
            | (_, O, _) => None
            | (ex, _, []) =>
                Some (round_decimal negative mantissa
                        ((if exp_negative then - ex else ex) - Z.of_nat n_frac))
            | _ => None
            end
          else None
      end.

(** [round(m * 2^e * 10^d)], ties to even, for [m >= 0]. *)
Definition scaled_round (m e d : Z) : Z :=
  if 0 <=? e then m * 2 ^ e * 10 ^ d
  else
    let num := m * 10 ^ d in
    let den := 2 ^ (- e) in
    let q := num / den in
    let r := num mod den in
    if (2 * r >? den) || ((2 * r =? den) && Z.odd q) then q + 1 else q.

Definition pad_zeros (width : nat) (digits : pystr) : pystr :=
  repeat 48%N (width - length digits) ++ digits.

(** [format(x, "+,.Nf")] with the flags of [spec]. *)
Definition format_float (spec : float_format) (x : float) : pystr :=
  let d := Z.max 0 (fmt_decimals spec) in
  let sign (negative : bool) : pystr :=
    if negative then u "-" else if fmt_plus spec then u "+" else [] in
  let fixed (negative : bool) (m e : Z) : pystr :=
    let digits := pad_zeros (S (Z.to_nat d)) (of_Z (scaled_round m e d)) in
    let n_int := (length digits - Z.to_nat d)%nat in
    let int_digits := firstn n_int digits in
    let int_digits :=
      if fmt_comma spec then rev (group3 (rev int_digits) 0) else int_digits in
    sign negative ++ int_digits
      ++ (if d =? 0 then [] else u "." ++ skipn n_int digits) in
  match x with
  | S754_zero s => fixed s 0 0
  | S754_finite s m e => fixed s (Z.pos m) e
  | S754_infinity s => sign s ++ u "inf"
  | S754_nan => u "nan"
  end.

Definition float_sum (l : list float) : float := fold_left fadd l fzero.

(** [floor(x)] for a finite float. *)
Definition floor (x : float) : option Z :=
  match x with
  | S754_zero _ => Some 0
  | S754_finite s m e =>
      let a := if 0 <=? e then Z.pos m * 2 ^ e else Z.pos m / 2 ^ (- e) in
      let exact := if 0 <=? e then true else Z.pos m mod 2 ^ (- e) =? 0 in
      Some (if s then (if exact then - a else - a - 1) else a)
  | _ => None
  end.

(** The civil date of a day counted from 1970-01-01. *)
Definition civil_from_days (days : Z) : Z * Z * Z :=
  let z := days + 719468 in
  let era := z / 146097 in
  let doe := z - era * 146097 in
  let yoe := (doe - doe / 1460 + doe / 36524 - doe / 146096) / 365 in
  let doy := doe - (365 * yoe + yoe / 4 - yoe / 100) in
  let mp := (5 * doy + 2) / 153 in
  let day := doy - (153 * mp + 2) / 5 + 1 in
  let month := if mp <? 10 then mp + 3 else mp - 9 in
  let year := yoe + era * 400 + (if month <=? 2 then 1 else 0) in
  (year, month, day).

Definition two_digits (n : Z) : pystr := pad_zeros 2 (of_Z n).

Definition strftime_local (x : float) : pystr + time_error :=
  match x with
  | S754_nan => inr TimeValueError
  | S754_infinity _ => inr TimeOverflowError
  | _ =>
      match floor x with
      | None => inr TimeOverflowError
      | Some seconds =>
          let '(year, month, day) := civil_from_days (seconds / 86400) in
          let rest := seconds mod 86400 in
          if (year <? 1) || (year >? 9999) then inr TimeValueError
          else inl (pad_zeros 4 (of_Z year) ++ u "-" ++ two_digits month ++ u "-"
                     ++ two_digits day ++ u " " ++ two_digits (rest / 3600) ++ u ":"
                     ++ two_digits (rest mod 3600 / 60) ++ u ":"
                     ++ two_digits (rest mod 60) ++ u " UTC")
      end
  end.

(** *** Printing floats: the shortest decimal that reads back as the float *)

(** [m * 2^e >= 10^k], for [m > 0]. *)
Definition ge_pow10 (m e k : Z) : bool :=
  let num := m * 2 ^ Z.max e 0 * 10 ^ Z.max (- k) 0 in
  let den := 2 ^ Z.max (- e) 0 * 10 ^ Z.max k 0 in
  den <=? num.

(** The [k] with [10^k <= m * 2^e < 10^(k+1)]. *)
Definition decimal_exponent (m e : Z) : Z :=
  let est := ((Z.log2 m + e) * 30103) / 100000 in
  let lo := if ge_pow10 m e (est - 1) then est - 1 else est - 2 in
  let lo := if ge_pow10 m e est then est else lo in
  let lo := if ge_pow10 m e (est + 1) then est + 1 else lo in
  if ge_pow10 m e (est + 2) then est + 2 else lo.

(** [m * 2^e] rounded to [p] significant digits: the digits as a number and
    the decimal exponent of the first one. *)
Definition significant (m e : Z) (p : Z) : Z * Z :=
  let k := decimal_exponent m e in
  let shift := p - 1 - k in
  let digits :=
    if 0 <=? shift then scaled_round m e shift
    else
      let den := 10 ^ (- shift) * 2 ^ Z.max (- e) 0 in
      let num := m * 2 ^ Z.max e 0 in
      let q := num / den in
      let r := num mod den in
      if (2 * r >? den) || ((2 * r =? den) && Z.odd q) then q + 1 else q in
  if digits =? 10 ^ p then (10 ^ (p - 1), k + 1) else (digits, k).

Fixpoint shortest (x : float) (m e : Z) (p : Z) (fuel : nat) : Z * Z * Z :=
  let '(digits, k) := significant m e p in
  match fuel with
  | O => (digits, k, p)
  | S fuel' =>
      match SFcompare (round_decimal false digits (k - p + 1)) (SFabs x) with
      | Some Eq => (digits, k, p)
      | _ => shortest x m e (p + 1) fuel'
      end
  end.

Fixpoint strip_zeros (rev_digits : pystr) : pystr :=
  match rev_digits with
  | 48%N :: rest => strip_zeros rest
  | _ => rev_digits
  end.

(** [repr(x)] for a float. *)
Definition float_repr (x : float) : pystr :=
  match x with
  | S754_nan => u "nan"
  | S754_infinity s => if s then u "-inf" else u "inf"
  | S754_zero s => if s then u "-0.0" else u "0.0"
  | S754_finite s m e =>
      let '(digits, k, _) := shortest x (Z.pos m) e 1 16 in
      let ds := rev (strip_zeros (rev (of_Z digits))) in
      let n := Z.of_nat (length ds) in
      let body :=
        if (k <? -4) || (16 <=? k) then
          firstn 1 ds ++ (if n >? 1 then u "." ++ skipn 1 ds else [])
            ++ u "e" ++ (if k <? 0 then u "-" else u "+") ++ pad_zeros 2 (of_Z (Z.abs k))
        else if k <? 0 then
          u "0." ++ repeat 48%N (Z.to_nat (- k - 1)) ++ ds
        else if n <=? k + 1 then
          ds ++ repeat 48%N (Z.to_nat (k + 1 - n)) ++ u ".0"
        else
          firstn (Z.to_nat (k + 1)) ds ++ u "." ++ skipn (Z.to_nat (k + 1)) ds in
      (if s then u "-" else []) ++ body
  end.

Definition hex_digit (n : Z) : N :=
  if n <? 10 then Z.to_N (48 + n) else Z.to_N (87 + n).

Definition hex4 (n : Z) : pystr :=
  [hex_digit (n / 4096 mod 16); hex_digit (n / 256 mod 16);
   hex_digit (n / 16 mod 16); hex_digit (n mod 16)].

(** One code point inside a JSON string, as [json.dumps] escapes it. *)
Definition json_escape (c : N) : pystr :=
  let z := Z.of_N c in
  if z =? 34 then u "\" ++ [34%N]
  else if z =? 92 then u "\\"
  else if z =? 10 then u "\n"
  else if z =? 13 then u "\r"
  else if z =? 9 then u "\t"
  else if z =? 8 then u "\b"
  else if z =? 12 then u "\f"
  else if (z <? 32) || ((127 <? z) && (z <? 65536)) then u "\u" ++ hex4 z
  else if 65536 <=? z then
    let v := z - 65536 in
    u "\u" ++ hex4 (55296 + v / 1024) ++ u "\u" ++ hex4 (56320 + v mod 1024)
  else [c].

Definition json_string (s : pystr) : pystr := [34%N] ++ flat_map json_escape s ++ [34%N].

Definition json_float (x : float) : pystr :=
  match x with
  | S754_nan => u "NaN"
  | S754_infinity s => if s then u "-Infinity" else u "Infinity"
  | _ => float_repr x
  end.

Definition spaces (n : nat) : pystr := repeat 32%N n.

(** [json.dumps(x, indent=2)], at nesting depth [depth]. *)
Fixpoint dumps (depth : nat) (x : json) : pystr :=
  let inner := spaces (2 * S depth) in
  let close := nl ++ spaces (2 * depth) in
  match x with
  | JNull => u "null"
  | JBool b => if b then u "true" else u "false"
  | JInt z => of_Z z
  | JFloat f => json_float f
  | JStr s => json_string s
  | JList [] => u "[]"
  | JList l =>
      u "[" ++ nl
        ++ join (u "," ++ nl) (map (fun v => inner ++ dumps (S depth) v) l)
        ++ close ++ u "]"
  | JDict [] => u "{}"
  | JDict d =>
      u "{" ++ nl
        ++ join (u "," ++ nl)
             ((fix entries (d : list (pystr * json)) : list pystr :=
                 match d with
                 | [] => []
                 | (k, v) :: d' =>
                     (inner ++ json_string k ++ u ": " ++ dumps (S depth) v) :: entries d'
                 end) d)
        ++ close ++ u "}"
  end.

Definition json_dumps (x : json) : pystr := dumps 0 x.

Definition hex2 (n : Z) : pystr := [hex_digit (n / 16 mod 16); hex_digit (n mod 16)].

(** [repr(s)] for a string; every code point outside ASCII counts as
    printable. *)
Definition str_repr (s : pystr) : pystr :=
  let quote : N :=
    if existsb (N.eqb 39) s && negb (existsb (N.eqb 34) s) then 34%N else 39%N in
  let escape (c : N) : pystr :=
    let z := Z.of_N c in
    if (c =? quote)%N || (z =? 92) then [92%N; c]
    else if z =? 10 then u "\n"
    else if z =? 13 then u "\r"
    else if z =? 9 then u "\t"
    else if (z <? 32) || (z =? 127) then u "\x" ++ hex2 z
    else [c] in
  [quote] ++ flat_map escape s ++ [quote].

(** [repr(x)] *)
Fixpoint repr (x : json) : pystr :=
  match x with
  | JNull => u "None"
  | JBool b => if b then u "True" else u "False"
  | JInt z => of_Z z
  | JFloat f => float_repr f
  | JStr s => str_repr s
  | JList l => u "[" ++ join (u ", ") (map repr l) ++ u "]"
  | JDict d =>
      u "{"
        ++ join (u ", ")
             ((fix entries (d : list (pystr * json)) : list pystr :=
                 match d with
                 | [] => []
                 | (k, v) :: d' => (str_repr k ++ u ": " ++ repr v) :: entries d'
                 end) d)
        ++ u "}"
  end.

(** [str(e)] for the exceptions of the runtime, in the words of CPython
    3.11 where they do not depend on the operands. *)
Definition error_text (k : builtin_error) : pystr :=
  match k with
  | KeyError key => str_repr key
  | IndexError => u "list index out of range"
  | TypeError => u "unsupported operand type"
  | ValueErrorRT => u "could not convert string to float"
  | AttributeError => u "object has no attribute"
  | ZeroDivisionError => u "float division by zero"
  | OverflowError => u "int too large to convert to float"
  | TimeError TimeValueError => u "year is out of range"
  | TimeError TimeOverflowError => u "timestamp out of range for platform time_t"
  | TimeError TimeOSError => u "Value too large for defined data type"
  | JSONDecodeError => u "Expecting value: line 1 column 1 (char 0)"
  end.

Definition field_error_text (field : pystr) (e : field_error) : pystr :=
  field ++ nl ++ u "  "
    ++ match e with
       | ValidatorRaised msg => u "Value error, " ++ msg
       | LiteralError => u "Input should be one of the allowed values"
       | TooShort => u "List should have at least 1 item after validation"
       | TooLong => u "List should have at most 100 items after validation"
       | NotGreaterEqual => u "Input should be greater than or equal to 1"
       | NotLessEqual => u "Input should be less than or equal to 1000"
       end.

(** [str.upper] outside ASCII: U+00DF (sharp s) becomes SS; U+1E9E (capital
    sharp s) and U+212A (KELVIN SIGN) are upper case already. *)
Definition unicode_upper (c : N) : pystr :=
  if (c =? 223)%N then [83%N; 83%N] else [c].

(** [str.lower] on one code point: U+1E9E becomes U+00DF and U+212A becomes
    k. *)
Definition lower_cp (c : N) : N :=
  if is_ascii_upper c then (c + 32)%N
  else if (c =? 7838)%N then 223%N
  else if (c =? 8490)%N then 107%N
  else c.

Definition runtime : PyRuntime :=
  Build_PyRuntime unicode_upper (map lower_cp) float_of_str format_float
    float_sum repr json_dumps strftime_local error_text field_error_text.

End Ref.

(** ** Concrete answers of the provider *)

Module Examples.

Definition rt : PyRuntime := Ref.runtime.

(** A provider that gives the same answer to every request. *)
Definition world_of (answer : http_outcome) : world := World (fun _ => answer) [].

Definition ok_world (data : json) : world := world_of (HttpResponse 200 (Ok data)).

Definition price_btc : json :=
  JDict [(u "symbol", JStr (u "BTCUSDT")); (u "price", JStr (u "50000.12"))].

Definition price_input (format : string) : PriceInput :=
  {| price_response_format := u format; price_symbols := [u "BTCUSDT"] |}.

(** An order book whose best bid is quoted at zero. *)
Definition book_zero_bid : json :=
  JDict [(u "lastUpdateId", JInt 1);
         (u "bids", JList [JList [JStr (u "0"); JStr (u "1")]]);
         (u "asks", JList [JList [JStr (u "1"); JStr (u "1")]])].

Definition book_input (limit : Z) : OrderBookInput :=
  {| book_response_format := u "markdown"; book_symbol := u "BTCUSDT"; book_limit := limit |}.


(** A candle row without its volume, and a complete one. *)
Definition candle_short : json :=
  JList [JInt 1700000000000; JStr (u "100"); JStr (u "110"); JStr (u "90"); JStr (u "105")].

Definition candle (close : string) : json :=
  JList [JInt 1700000000000; JStr (u "100"); JStr (u "110"); JStr (u "90");
         JStr (u close); JStr (u "12.5")].

(** A trade without its quantity, and a complete one. *)
Definition trade_no_qty : json :=
  JDict [(u "time", JInt 1700000000000); (u "price", JStr (u "100.5"))].

Definition trade_full : json :=
  JDict [(u "time", JInt 1700000000000); (u "price", JStr (u "100.5"));
         (u "qty", JStr (u "0.25")); (u "isBuyerMaker", JBool true)].

(** A renderer whose text grows with the list: 13,000 characters a record. *)
Definition bulky_render (data : json) : result pystr :=
  match data with
  | JList l => Ok (repeat 97%N (Z.to_nat (13000 * len l)))
  | _ => Ok (repeat 97%N (Z.to_nat 26000))
  end.

(** The float a decimal literal denotes. *)
Definition dec (s : string) : float :=
  match Ref.float_of_str (u s) with
  | Some f => f
  | None => S754_nan
  end.

Definition klines_input : KlinesInput :=
  {| klines_response_format := u "markdown"; klines_symbol := u "BTCUSDT";
     klines_interval := u "1h"; klines_limit := 2;
     klines_start_time := None; klines_end_time := None |}.

Definition trades_input : RecentTradesInput :=
  {| trades_response_format := u "markdown"; trades_symbol := u "BTCUSDT";
     trades_limit := 1 |}.







End Examples.

(** ** Properties *)

(** *** Strings *)

Lemma pystr_eqb_eq (a b : pystr) : PyStr.eqb a b = true <-> a = b.
Proof.
  revert b; induction a as [|x a IH]; intros [|y b]; simpl; split;
    try congruence; try reflexivity.
  - intros H. apply andb_true_iff in H as [H1 H2].
    apply N.eqb_eq in H1. apply IH in H2. now subst.
  - intros H. injection H as -> ->. rewrite N.eqb_refl. now apply IH.
Qed.

Lemma pystr_eqb_refl (a : pystr) : PyStr.eqb a a = true.
Proof. now apply pystr_eqb_eq. Qed.

Example of_Z_comma_limit : of_Z_comma 25000 = u "25,000".
Proof. reflexivity. Qed.

Example of_Z_comma_million : of_Z_comma (-1234567) = u "-1,234,567".
Proof. reflexivity. Qed.

Example remove_usdt : remove (u "USDT") (u "BTCUSDT") = u "BTC".
Proof. reflexivity. Qed.

Example strip_ex : strip (u "  btc usdt  ") = u "btc usdt".
Proof. reflexivity. Qed.

(** *** The error monad *)

Lemma bind_ok {A B} (m : result A) (k : A -> result B) (b : B) :
  bind m k = Ok b -> exists a, m = Ok a /\ k a = Ok b.
Proof. destruct m as [a|e]; simpl; intros H; [eauto | discriminate]. Qed.

Lemma bind_raise {A B} (m : result A) (k : A -> result B) (e : exn) :
  bind m k = Raise e -> m = Raise e \/ exists a, m = Ok a /\ k a = Raise e.
Proof. destruct m as [a|e']; simpl; intros H; [eauto | left; congruence]. Qed.

Ltac inv_bind H :=
  let a := fresh "a" in
  let Ha := fresh "Ha" in
  apply bind_ok in H; destruct H as (a & Ha & H).


Lemma mapM_raise {A B} (f : A -> result B) (xs : list A) (x : A) :
  In x xs -> is_ok (f x) = false -> is_ok (mapM f xs) = false.
Proof.
  induction xs as [|y xs IH]; simpl; intros Hin Hx; [contradiction|].
  destruct Hin as [->|Hin].
  - destruct (f x); [discriminate | reflexivity].
  - destruct (f y); simpl; [|reflexivity].
    specialize (IH Hin Hx). destruct (mapM f xs); [discriminate | reflexivity].
Qed.

Section Properties.

Context {RT : PyRuntime}.

(** *** Depth limit *)

Lemma int_in_In (v : Z) (xs : list Z) : int_in v xs = true <-> In v xs.
Proof.
  unfold int_in. rewrite existsb_exists. split.
  - intros (x & Hx & E). apply Z.eqb_eq in E. now subst.
  - intros H. exists v. split; [assumption | apply Z.eqb_refl].
Qed.

(** C7. [validate_limit] accepts an integer exactly when it is one of 5, 10,
    20, 50, 100, 500, 1000, 5000.  Any other integer raises a [ValueError]
    whose message lists the whole accepted set, the input model is not
    built, and the tool is not entered: the caller gets the validation error
    and the world is the one before the call, with no request sent. *)
Theorem C7_depth_limit_validation (v : Z) :
  (validate_limit v = Ok v <-> In v [5; 10; 20; 50; 100; 500; 1000; 5000])
  /\ (~ In v [5; 10; 20; 50; 100; 500; 1000; 5000] ->
      let message := u "Invalid limit " ++ of_Z v
                       ++ u ". Valid limits: 5, 10, 20, 50, 100, 500, 1000, 5000" in
      validate_limit v = Raise (ValueError message)
      /\ forall (raw : OrderBookInput) (w : world),
           book_limit raw = v ->
           exists errors,
             invoke_get_order_book raw w = (Raised (ValidationError errors), w)
             /\ In (u "limit", ValidatorRaised message) errors).
Proof.
  assert (Hdec : int_in v valid_limits = true <-> In v [5; 10; 20; 50; 100; 500; 1000; 5000])
    by apply int_in_In.
  split.
  - unfold validate_limit. destruct (int_in v valid_limits) eqn:E; simpl.
    + split; [intros _; now apply Hdec | reflexivity].
    + split; [discriminate | intros H; apply Hdec in H; discriminate].
  - intros Hnot message.
    assert (E : int_in v valid_limits = false).
    { destruct (int_in v valid_limits) eqn:E; [|reflexivity].
      exfalso. apply Hnot. now apply Hdec. }
    assert (Hv : validate_limit v = Raise (ValueError message)).
    { unfold validate_limit. rewrite E. reflexivity. }
    split; [exact Hv|].
    intros raw w Hraw.
    unfold invoke_get_order_book, invoke, OrderBookInput_validate, model_validate.
    rewrite Hraw, Hv. simpl.
    destruct (check_literal formats (book_response_format raw)) as [fe|]; simpl.
    + eexists. split; [reflexivity|]. right. left. reflexivity.
    + eexists. split; [reflexivity|]. left. reflexivity.
Qed.

(** *** Symbol normalization *)

Lemma lstrip_lstripped (s : pystr) : lstripped (lstrip s).
Proof.
  induction s as [|c s IH]; simpl; [exact I|].
  destruct (is_space c) eqn:E; [exact IH | simpl; exact E].
Qed.

Lemma lstrip_id (s : pystr) : lstripped s -> lstrip s = s.
Proof. destruct s as [|c s]; simpl; [reflexivity | intros ->; reflexivity]. Qed.

Lemma lstrip_snoc (s : pystr) (c : N) :
  is_space c = false -> lstrip (s ++ [c]) = lstrip s ++ [c].
Proof.
  intros Hc. induction s as [|d s IH]; simpl.
  - now rewrite Hc.
  - destruct (is_space d); [exact IH | reflexivity].
Qed.

Lemma rstrip_lstripped (s : pystr) : lstripped s -> lstripped (rstrip s).
Proof.
  destruct s as [|c s]; [intros _; exact I|].
  simpl. intros Hc. unfold rstrip. simpl rev.
  rewrite lstrip_snoc by assumption. rewrite rev_app_distr. simpl. exact Hc.
Qed.

Lemma rstrip_idem (s : pystr) : rstrip (rstrip s) = rstrip s.
Proof.
  unfold rstrip. rewrite rev_involutive.
  rewrite (lstrip_id (lstrip (rev s))) by apply lstrip_lstripped. reflexivity.
Qed.

Lemma strip_idem (s : pystr) : strip (strip s) = strip s.
Proof.
  unfold strip.
  rewrite (lstrip_id (rstrip (lstrip s))).
  - apply rstrip_idem.
  - apply rstrip_lstripped, lstrip_lstripped.
Qed.

Lemma lstrip_In (s : pystr) (d : N) : In d (lstrip s) -> In d s.
Proof.
  induction s as [|c s IH]; simpl; [tauto|].
  destruct (is_space c); [intros H; right; now apply IH | simpl; tauto].
Qed.

Lemma strip_In (s : pystr) (d : N) : In d (strip s) -> In d s.
Proof.
  unfold strip, rstrip. intros H.
  apply in_rev, lstrip_In, in_rev, lstrip_In in H. exact H.
Qed.

Lemma upper_cp_fixed (c d : N) : upper_stable -> In d (upper_cp c) -> upper_cp d = [d].
Proof.
  intros Hst. unfold upper_cp at 1.
  destruct (is_ascii_lower c) eqn:Hl.
  - intros [<-|[]]. unfold is_ascii_lower in Hl.
    apply andb_true_iff in Hl as [H1 H2].
    apply N.leb_le in H1. apply N.leb_le in H2.
    unfold upper_cp, is_ascii_lower.
    replace (97 <=? c - 32)%N with false by (symmetry; apply N.leb_gt; lia).
    simpl. replace (c - 32 <? 128)%N with true by (symmetry; apply N.ltb_lt; lia).
    reflexivity.
  - destruct (c <? 128)%N eqn:Ha.
    + intros [<-|[]]. unfold upper_cp. now rewrite Hl, Ha.
    + apply Hst. now apply N.ltb_ge.
Qed.

Lemma str_upper_fixed (s : pystr) :
  (forall d, In d s -> upper_cp d = [d]) -> str_upper s = s.
Proof.
  induction s as [|c s IH]; simpl; intros H; [reflexivity|].
  rewrite (H c) by now left. simpl. f_equal. apply IH. intros d Hd. apply H. now right.
Qed.

Lemma normalize_symbol_idem (x : pystr) :
  upper_stable -> normalize_symbol (normalize_symbol x) = normalize_symbol x.
Proof.
  intros Hst. unfold normalize_symbol.
  rewrite (str_upper_fixed (strip (str_upper x))).
  - apply strip_idem.
  - intros d Hd. apply strip_In in Hd. unfold str_upper in Hd.
    apply in_flat_map in Hd as (c & _ & Hc). now apply (upper_cp_fixed c).
Qed.

Lemma upper_cp_ascii_lower (c : N) :
  is_ascii_lower c = true -> upper_cp c = [(c - 32)%N] /\ upper_cp (c - 32) = [(c - 32)%N].
Proof.
  intros Hl. unfold upper_cp. rewrite Hl. split; [reflexivity|].
  unfold is_ascii_lower in *. apply andb_true_iff in Hl as [H1 H2].
  apply N.leb_le in H1. apply N.leb_le in H2.
  replace (97 <=? c - 32)%N with false by (symmetry; apply N.leb_gt; lia).
  cbn [andb]. replace (c - 32 <? 128)%N with true by (symmetry; apply N.ltb_lt; lia).
  reflexivity.
Qed.

Lemma ascii_case_variant_upper (a b : N) : ascii_case_variant a b -> upper_cp a = upper_cp b.
Proof.
  intros [->|[[Hl ->]|[Hl ->]]]; [reflexivity| |];
    destruct (upper_cp_ascii_lower _ Hl) as [E1 E2]; congruence.
Qed.

Lemma ascii_case_normalize (x y : pystr) :
  equal_up_to_ascii_case x y -> normalize_symbol x = normalize_symbol y.
Proof.
  intros H. unfold normalize_symbol. f_equal.
  induction H as [|a b x y Hab _ IH]; cbn [str_upper flat_map]; [reflexivity|].
  rewrite (ascii_case_variant_upper a b Hab). unfold str_upper in IH. now rewrite IH.
Qed.

(** C5 (amended). Provided the case tables of the runtime are stable, the
    symbol validators are idempotent for every input, on one symbol and on a
    list of symbols.  Two inputs that differ at most in the case of ASCII
    letters normalize to the same symbol, so ["btcusdt"] and ["BTCUSDT"]
    both give ["BTCUSDT"]. *)
Theorem C5_normalization_idempotent (Hst : upper_stable) :
  (forall x, normalize_symbol (normalize_symbol x) = normalize_symbol x)
  /\ (forall v, normalize_symbols (normalize_symbols v) = normalize_symbols v)
  /\ (forall x y, equal_up_to_ascii_case x y -> normalize_symbol x = normalize_symbol y)
  /\ (forall v w, Forall2 equal_up_to_ascii_case v w ->
                  normalize_symbols v = normalize_symbols w)
  /\ equal_up_to_ascii_case (u "btcusdt") (u "BTCUSDT")
  /\ normalize_symbol (u "btcusdt") = u "BTCUSDT"
  /\ normalize_symbol (u "BTCUSDT") = u "BTCUSDT".
Proof.
  split; [|split; [|split; [|split; [|split; [|split]]]]].
  - intros x. now apply normalize_symbol_idem.
  - intros v. unfold normalize_symbols. rewrite map_map.
    apply map_ext. intros s. now apply (normalize_symbol_idem s).
  - exact ascii_case_normalize.
  - intros v w H. unfold normalize_symbols.
    induction H as [|x y v w Hxy _ IH]; simpl; [reflexivity|].
    f_equal; [exact (ascii_case_normalize x y Hxy) | exact IH].
  - repeat constructor; right; left; split; reflexivity.
  - reflexivity.
  - reflexivity.
Qed.

(** *** Truncation policy *)

Lemma len_app {A} (a b : list A) : len (a ++ b) = len a + len b.
Proof. unfold len. rewrite length_app. lia. Qed.

Lemma len_firstn {A} (n : Z) (l : list A) :
  0 <= n <= len l -> len (firstn (Z.to_nat n) l) = n.
Proof. unfold len. intros H. rewrite length_firstn. lia. Qed.

Lemma hard_truncation_msg_marked : prefixb notice_marker hard_truncation_msg = true.
Proof. reflexivity. Qed.

Lemma items_truncation_msg_marked (k n : Z) :
  prefixb notice_marker (items_truncation_msg k n) = true.
Proof. reflexivity. Qed.

Lemma truncate_within_budget (data : json) (format_func : json -> result pystr)
    (item_limit : option Z) (full : pystr) :
  format_func data = Ok full ->
  len full <= CHARACTER_LIMIT ->
  truncate_response data format_func item_limit = Ok (full, false, None).
Proof.
  intros Hf Hlen. unfold truncate_response. rewrite Hf. cbn [bind].
  replace (len full <=? CHARACTER_LIMIT) with true by (symmetry; now apply Z.leb_le).
  reflexivity.
Qed.

Lemma truncate_hard_cut (data : json) (format_func : json -> result pystr)
    (item_limit : option Z) (full : pystr) :
  format_func data = Ok full ->
  CHARACTER_LIMIT < len full ->
  is_list data && item_limit_set item_limit = false ->
  truncate_response data format_func item_limit
  = Ok (firstn (Z.to_nat CHARACTER_LIMIT) full ++ hard_truncation_msg, true,
        Some hard_truncation_msg).
Proof.
  intros Hf Hlen Hbranch. unfold truncate_response. rewrite Hf. cbn [bind].
  replace (len full <=? CHARACTER_LIMIT) with false by (symmetry; now apply Z.leb_gt).
  destruct data; try reflexivity.
  cbn [is_list andb] in Hbranch. rewrite Hbranch. reflexivity.
Qed.

Lemma truncate_items (l : list json) (format_func : json -> result pystr)
    (item_limit : option Z) (full body : pystr) :
  format_func (JList l) = Ok full ->
  CHARACTER_LIMIT < len full ->
  item_limit_set item_limit = true ->
  format_func (JList (firstn (Z.to_nat (Z.max 1 (len l / 2))) l)) = Ok body ->
  truncate_response (JList l) format_func item_limit
  = Ok (body ++ items_truncation_msg (Z.max 1 (len l / 2)) (len l), true,
        Some (items_truncation_msg (Z.max 1 (len l / 2)) (len l))).
Proof.
  intros Hf Hlen Hlim Hbody. unfold truncate_response. rewrite Hf. cbn [bind].
  replace (len full <=? CHARACTER_LIMIT) with false by (symmetry; now apply Z.leb_gt).
  rewrite Hlim, Hbody. cbn [bind]. reflexivity.
Qed.

(** Whatever [truncate_response] returns beyond the budget ends with a
    notice. *)
Lemma truncate_over_budget (data : json) (format_func : json -> result pystr)
    (item_limit : option Z) (full text : pystr) (truncated : bool) (notice : option pystr) :
  format_func data = Ok full ->
  CHARACTER_LIMIT < len full ->
  truncate_response data format_func item_limit = Ok (text, truncated, notice) ->
  truncated = true
  /\ exists body msg,
       notice = Some msg /\ text = body ++ msg /\ prefixb notice_marker msg = true.
Proof.
  intros Hf Hlen H.
  destruct (is_list data && item_limit_set item_limit) eqn:Hbranch.
  - apply andb_true_iff in Hbranch as [Hl Hlim].
    destruct data; try discriminate.
    unfold truncate_response in H. rewrite Hf in H. cbn [bind] in H.
    replace (len full <=? CHARACTER_LIMIT) with false in H
      by (symmetry; now apply Z.leb_gt).
    rewrite Hlim in H. inv_bind H. injection H as <- <- <-.
    split; [reflexivity|]. eexists _, _.
    split; [reflexivity|]. split; [reflexivity|]. apply items_truncation_msg_marked.
  - rewrite (truncate_hard_cut _ _ _ _ Hf Hlen Hbranch) in H.
    remember (firstn (Z.to_nat CHARACTER_LIMIT) full) as cut.
    injection H as <- <- <-.
    split; [reflexivity|]. exists cut, hard_truncation_msg.
    split; [reflexivity|]. split; [reflexivity|]. exact hard_truncation_msg_marked.
Qed.

(** C4 (amended). [truncate_response] returns the full rendering unchanged,
    with [was_truncated] false, whenever it has at most 25,000 characters.
    Beyond the budget, a non-empty list passed together with a non-zero item
    limit (every tool passes the length of the list) is cut to its first
    [max(1, n // 2)] records, rendered again, and followed by a notice that
    says how many of how many items are shown; a list passed without an
    item limit, like any other data, is cut to 25,000 characters and
    followed by the fixed notice.  A truncated answer is never shorter than
    its notice. *)
Theorem C4_truncation_policy (data : json) (format_func : json -> result pystr)
    (item_limit : option Z) (full : pystr) :
  format_func data = Ok full ->
  (len full <= CHARACTER_LIMIT ->
   truncate_response data format_func item_limit = Ok (full, false, None))
  /\ (CHARACTER_LIMIT < len full ->
      forall l body,
        data = JList l -> l <> [] -> item_limit_set item_limit = true ->
        let kept := firstn (Z.to_nat (Z.max 1 (len l / 2))) l in
        format_func (JList kept) = Ok body ->
        len kept = Z.max 1 (len l / 2)
        /\ (exists rest,
              items_truncation_msg (len kept) (len l)
              = nl ++ nl ++ warning_sign ++ u " Response truncated: Showing "
                  ++ of_Z (len kept) ++ u " of " ++ of_Z (len l) ++ u " items" ++ rest)
        /\ truncate_response data format_func item_limit
           = Ok (body ++ items_truncation_msg (len kept) (len l), true,
                 Some (items_truncation_msg (len kept) (len l))))
  /\ (CHARACTER_LIMIT < len full ->
      is_list data && item_limit_set item_limit = false ->
      truncate_response data format_func item_limit
      = Ok (firstn (Z.to_nat CHARACTER_LIMIT) full ++ hard_truncation_msg, true,
            Some hard_truncation_msg))
  /\ (forall text truncated notice,
        truncate_response data format_func item_limit = Ok (text, truncated, notice) ->
        truncated = true ->
        exists msg, notice = Some msg /\ len msg <= len text).
Proof.
  intros Hf. split; [|split; [|split]].
  - now apply truncate_within_budget.
  - intros Hlen l body -> Hne Hlim kept Hbody.
    assert (Hkept : len kept = Z.max 1 (len l / 2)).
    { subst kept. apply len_firstn.
      assert (1 <= len l) by (destruct l; [contradiction | unfold len; simpl; lia]).
      assert (len l / 2 <= len l) by (apply Z.div_le_upper_bound; lia).
      lia. }
    split; [exact Hkept|]. split; [eexists; reflexivity|].
    rewrite Hkept. exact (truncate_items _ _ _ _ _ Hf Hlen Hlim Hbody).
  - exact (truncate_hard_cut _ _ _ _ Hf).
  - intros text truncated notice H ->.
    destruct (Z_le_gt_dec (len full) CHARACTER_LIMIT) as [Hle|Hgt].
    + rewrite (truncate_within_budget _ _ _ _ Hf Hle) in H. discriminate.
    + destruct (truncate_over_budget _ _ _ _ _ _ _ Hf ltac:(lia) H)
        as (_ & body & msg & -> & -> & _).
      exists msg. split; [reflexivity|]. rewrite len_app. unfold len. lia.
Qed.

(** *** Derived figures: spread and overall change *)

(** A float above zero is not zero. *)
Lemma positive_nonzero (x : float) : flt fzero x = true -> feq x fzero = false.
Proof. destruct x as [[]|[]| |[] m e]; simpl; intros H; try discriminate; reflexivity. Qed.

Lemma py_truediv_nonzero (x y : float) :
  feq y fzero = false -> py_truediv x y = Ok (fquot x y).
Proof. unfold py_truediv. now intros ->. Qed.

Lemma py_truediv_raise (x y : float) (e : exn) :
  py_truediv x y = Raise e -> feq y fzero = true /\ e = Builtin ZeroDivisionError.
Proof.
  unfold py_truediv. destruct (feq y fzero); intros H; [|discriminate].
  injection H as <-. now split.
Qed.

(** [percent_change] is total, and it is the quotient exactly when the base
    is above zero. *)
Lemma percent_change_total (new base : float) :
  percent_change new base
  = Ok (if flt fzero base then fmul (fquot (fsub new base) base) f100 else fzero).
Proof.
  unfold percent_change. destruct (flt fzero base) eqn:E; [|reflexivity].
  rewrite py_truediv_nonzero by now apply positive_nonzero. reflexivity.
Qed.

Lemma float_of_Z_raise (z : Z) (e : exn) :
  float_of_Z z = Raise e -> e = Builtin OverflowError.
Proof.
  unfold float_of_Z. destruct (float_of_Z_round z); intros H; try discriminate.
  now injection H as <-.
Qed.

Lemma py_float_raise (x : json) (e : exn) :
  py_float x = Raise e ->
  e = Builtin OverflowError \/ e = Builtin ValueErrorRT \/ e = Builtin TypeError.
Proof.
  destruct x; simpl; intros H; try (injection H as <-; tauto); try discriminate.
  - left. now apply float_of_Z_raise with (z := z).
  - destruct (float_of_str s); [discriminate|]. injection H as <-. tauto.
Qed.

Lemma py_index_raise (x : json) (i : nat) (e : exn) :
  py_index x i = Raise e -> e <> Builtin ZeroDivisionError.
Proof.
  destruct x; simpl; intros H; try (injection H as <-; discriminate).
  - destruct (nth_error s i); [discriminate | injection H as <-; discriminate].
  - destruct (nth_error l i); [discriminate | injection H as <-; discriminate].
Qed.

Lemma py_last_raise (x : json) (e : exn) :
  py_last x = Raise e -> e <> Builtin ZeroDivisionError.
Proof.
  destruct x; simpl; intros H; try (injection H as <-; discriminate).
  - destruct (rev s); [injection H as <-; discriminate | discriminate].
  - destruct (rev l); [injection H as <-; discriminate | discriminate].
Qed.

Lemma py_float_no_division_error (x : json) (e : exn) :
  py_float x = Raise e -> e <> Builtin ZeroDivisionError.
Proof. intros H. apply py_float_raise in H as [->|[->| ->]]; discriminate. Qed.

(** The period summary never stops on a division. *)
Lemma klines_summary_no_division_error (klines : json) :
  klines_summary klines <> Raise (Builtin ZeroDivisionError).
Proof.
  unfold klines_summary. intros H.
  repeat match type of H with
         | bind ?m _ = Raise _ =>
             apply bind_raise in H as [H|(? & _ & H)];
             [ first [ now apply py_index_raise in H
                     | now apply py_last_raise in H
                     | now apply py_float_no_division_error in H
                     | rewrite percent_change_total in H; discriminate ] | ]
         end.
  discriminate.
Qed.

Lemma rev_cons_last {A} (a : A) (l : list A) :
  exists r, rev (a :: l) = last l a :: r.
Proof.
  induction l as [|x l _] using rev_ind.
  - exists []. reflexivity.
  - simpl. rewrite rev_app_distr, last_last. simpl. eexists. reflexivity.
Qed.

(** C6 (amended). For a non-empty candle list whose first and last closes
    read as numbers, the period summary is computed and its overall change is
    [(last close - first close) / first close * 100] when the first close is
    above zero, and 0 when it is not (zero, negative or not a number).  The
    summary never fails with a division error, whatever the candles. *)
Theorem C6_overall_change (first : json) (others : list json)
    (c_first c_last : json) (x_first x_last : float) :
  let klines := JList (first :: others) in
  py_index first 4 = Ok c_first ->
  py_float c_first = Ok x_first ->
  py_index (last others first) 4 = Ok c_last ->
  py_float c_last = Ok x_last ->
  klines_summary klines
  = Ok (PeriodSummary x_first x_last
          (if flt fzero x_first
           then fmul (fquot (fsub x_last x_first) x_first) f100
           else fzero))
  /\ (feq x_first fzero = true ->
      klines_summary klines = Ok (PeriodSummary x_first x_last fzero))
  /\ (forall any : json, klines_summary any <> Raise (Builtin ZeroDivisionError)).
Proof.
  intros klines H1 H2 H3 H4.
  assert (Hlast : py_last klines = Ok (last others first)).
  { unfold klines, py_last.
    destruct (rev_cons_last first others) as (r & ->). reflexivity. }
  assert (Hsum : klines_summary klines
                 = Ok (PeriodSummary x_first x_last
                         (if flt fzero x_first
                          then fmul (fquot (fsub x_last x_first) x_first) f100
                          else fzero))).
  { unfold klines_summary. rewrite Hlast. unfold klines at 1. simpl py_index at 1.
    cbn [bind]. rewrite H1. cbn [bind]. rewrite H2. cbn [bind].
    rewrite H3. cbn [bind]. rewrite H4. cbn [bind].
    rewrite percent_change_total. reflexivity. }
  split; [exact Hsum|]. split.
  - intros Hz. rewrite Hsum. f_equal. f_equal.
    destruct (flt fzero x_first) eqn:E; [|reflexivity].
    apply positive_nonzero in E. congruence.
  - apply klines_summary_no_division_error.
Qed.




(** *** Caps of the markdown tables *)







(** *** Fields read with a default *)

Ltac eval_keys :=
  repeat match goal with
         | |- context [PyStr.eqb ?a ?b] =>
             let r := eval vm_compute in (PyStr.eqb a b) in
             change (PyStr.eqb a b) with r
         end.

(** A record without [k] renders as the record with [k] set to its
    default: every lookup gives the same value on both. *)
Ltac same_lookups Hnone :=
  unfold py_get, py_contains_key, py_getitem_key;
  cbn [bind assoc]; eval_keys; cbn iota;
  repeat match type of Hnone with
         | assoc ?k ?d = None =>
             match goal with
             | |- context [assoc ?a d] => progress (change (assoc a d) with (assoc k d))
             end
         end;
  rewrite ?Hnone; reflexivity.

Ltac in_cases H :=
  repeat (destruct H as [H|H]; [injection H as <- <-|]); [..|contradiction].

Lemma trade_row_default (d : list (pystr * json)) (k : pystr) (v : json) :
  In (k, v) trade_defaults -> assoc k d = None ->
  trade_row (JDict ((k, v) :: d)) = trade_row (JDict d).
Proof.
  intros Hin Hnone. unfold trade_defaults in Hin. in_cases Hin;
    unfold trade_row; same_lookups Hnone.
Qed.

Lemma price_line_default (d : list (pystr * json)) (k : pystr) (v : json) :
  In (k, v) price_defaults -> assoc k d = None ->
  price_line (JDict ((k, v) :: d)) = price_line (JDict d).
Proof.
  intros Hin Hnone. unfold price_defaults in Hin. in_cases Hin;
    unfold price_line; same_lookups Hnone.
Qed.

Lemma best_price_lines_default (d : list (pystr * json)) (k : pystr) (v : json) :
  In (k, v) best_price_defaults -> assoc k d = None ->
  best_price_lines (JDict ((k, v) :: d)) = best_price_lines (JDict d).
Proof.
  intros Hin Hnone. unfold best_price_defaults in Hin. in_cases Hin;
    unfold best_price_lines, best_price_values; same_lookups Hnone.
Qed.

Lemma symbol_lines_default (d : list (pystr * json)) (k : pystr) (v : json) :
  In (k, v) symbol_defaults -> assoc k d = None ->
  symbol_lines (JDict ((k, v) :: d)) = symbol_lines (JDict d).
Proof.
  intros Hin Hnone. unfold symbol_defaults in Hin. in_cases Hin;
    unfold symbol_lines; same_lookups Hnone.
Qed.

Lemma ticker_lines_default (ticker_type : pystr) (d : list (pystr * json))
    (k : pystr) (v : json) :
  In (k, v) ticker_defaults -> assoc k d = None ->
  ticker_lines ticker_type (JDict ((k, v) :: d)) = ticker_lines ticker_type (JDict d).
Proof.
  intros Hin Hnone. unfold ticker_defaults in Hin. in_cases Hin;
    unfold ticker_lines, ticker_full_lines; same_lookups Hnone.
Qed.

Lemma order_book_lines_default (symbol : pystr) (d : list (pystr * json))
    (k : pystr) (v : json) :
  In (k, v) order_book_defaults -> assoc k d = None ->
  order_book_lines (JDict ((k, v) :: d)) symbol = order_book_lines (JDict d) symbol.
Proof.
  intros Hin Hnone. unfold order_book_defaults in Hin. in_cases Hin;
    unfold order_book_lines; same_lookups Hnone.
Qed.

(** A candle row is read by position: its first six entries must be there. *)
Lemma kline_row_needs_six (r : list json) (text : pystr) :
  kline_row (JList r) = Ok text -> (6 <= length r)%nat.
Proof.
  unfold kline_row. intros H.
  do 11 inv_bind H.
  match goal with
  | Hi : py_index (JList r) 5 = Ok _ |- _ =>
      unfold py_index in Hi; destruct (nth_error r 5) eqn:E; [|discriminate];
      assert (nth_error r 5 <> None) as Hn by congruence;
      apply nth_error_Some in Hn; lia
  end.
Qed.

Lemma short_candle_fails (rows : list json) (r : list json) (symbol interval : pystr) :
  In (JList r) (firstn 50 rows) -> (length r < 6)%nat ->
  exists e, format_klines_markdown (JList rows) symbol interval = Raise e.
Proof.
  intros Hin Hshort.
  assert (Hrow : is_ok (kline_row (JList r)) = false).
  { destruct (kline_row (JList r)) eqn:E; [|reflexivity].
    apply kline_row_needs_six in E. lia. }
  assert (Hrows : is_ok (mapM kline_row (firstn 50 rows)) = false)
    by exact (mapM_raise _ _ _ Hin Hrow).
  unfold format_klines_markdown.
  destruct rows as [|row rows]; [destruct Hin|].
  cbn [truthy negb]. unfold klines_lines, kline_rows.
  cbn [py_slice_to py_iter bind].
  destruct (mapM kline_row (firstn 50 (row :: rows))) as [?|e]; [discriminate|].
  exists e. reflexivity.
Qed.

(** *** Dispatch *)

Lemma catch_all_guarded (prefix : pystr) (body : result pystr * world) :
  guarded prefix body (catch_all prefix body).
Proof. unfold guarded, catch_all. destruct (fst body); simpl; auto. Qed.

Lemma make_api_request_outcome (endpoint : pystr) (params : list (pystr * json))
    (w : world) (answer : http_outcome) :
  (forall r, provider w r = answer) ->
  fst (make_api_request endpoint params w)
  = match answer with
    | HttpResponse status body => handle_response status body
    | HttpTimeout => Raise (Exception timeout_message)
    | HttpRequestError cause => Raise (Exception (network_error_message cause))
    end.
Proof.
  intros H. unfold make_api_request. rewrite H. destruct answer; reflexivity.
Qed.

Lemma make_api_request_sends_one (endpoint : pystr) (params : list (pystr * json))
    (w : world) :
  exists r, sent (snd (make_api_request endpoint params w)) = sent w ++ [r].
Proof.
  unfold make_api_request. eexists.
  destruct (provider w _); reflexivity.
Qed.

(** C9 (amended). Whatever fails inside the body of a tool, in the request
    or in the rendering, is caught there: the tool returns the text of the
    body when it succeeds and its own prefix followed by the text of the
    exception when it fails, so a tool that is entered always returns a
    string; thus a timeout gives the order-book tool its prefix followed by
    the timeout message.  Validation is not inside that boundary: the input
    model is built before the tool is entered, a validation failure reaches
    the caller as the exception it is, and no tool runs. *)
Theorem C9_dispatch_boundary :
  (forall p w, guarded (u "Error fetching ticker data: ")
                 (ticker_body p w) (binance_get_ticker p w))
  /\ (forall p w, guarded (u "Error searching symbols: ")
                    (search_body p w) (binance_search_symbols p w))
  /\ (forall p w, guarded (u "Error fetching order book: ")
                    (order_book_body p w) (binance_get_order_book p w))
  /\ (forall p w, guarded (u "Error fetching klines: ")
                    (klines_body p w) (binance_get_klines p w))
  /\ (forall p w, guarded (u "Error fetching recent trades: ")
                    (recent_trades_body p w) (binance_get_recent_trades p w))
  /\ (forall p w, guarded (u "Error fetching exchange info: ")
                    (exchange_info_body p w) (binance_get_exchange_info p w))
  /\ (forall p w, guarded (u "Error fetching prices: ")
                    (price_body p w) (binance_get_price p w))
  /\ (forall p w, guarded (u "Error fetching best prices: ")
                    (best_price_body p w) (binance_get_best_price p w))
  /\ (forall p w, (forall r, provider w r = HttpTimeout) ->
                  fst (binance_get_order_book p w)
                  = u "Error fetching order book: " ++ timeout_message)
  /\ (forall (Raw Model : Type) (validate : Raw -> result Model)
             (tool : Model -> world -> pystr * world) (raw : Raw) (w : world),
        (forall e, validate raw = Raise e -> invoke validate tool raw w = (Raised e, w))
        /\ (forall p, validate raw = Ok p ->
                      invoke validate tool raw w
                      = (Returned (fst (tool p w)), snd (tool p w)))).
Proof.
  repeat (split; [intros; apply catch_all_guarded|]).
  split.
  - intros p w H. unfold binance_get_order_book, catch_all, order_book_body.
    pose proof (make_api_request_outcome (u "/api/v3/depth")
                  [(u "symbol", JStr (book_symbol p)); (u "limit", JInt (book_limit p))]
                  w HttpTimeout H) as E.
    destruct (make_api_request _ _ w) as [response w']. simpl in E. subst response.
    reflexivity.
  - intros Raw Model validate tool raw w. unfold invoke. split.
    + intros e ->. reflexivity.
    + intros p ->. destruct (tool p w). reflexivity.
Qed.

(** *** Absent fields in the whole rendering *)

Lemma completes_render {A} (defaults : list (pystr * json)) (f : json -> A) :
  (forall d k v, In (k, v) defaults -> assoc k d = None ->
                 f (JDict ((k, v) :: d)) = f (JDict d)) ->
  forall a b, completes defaults a b -> f a = f b.
Proof.
  intros Hstep a b H. induction H as [a|d k v b Hin Hnone _ IH]; [reflexivity|].
  rewrite <- IH. symmetry. now apply Hstep.
Qed.

Lemma mapM_related {A B} (f : A -> result B) (xs ys : list A) :
  Forall2 (fun a b => f a = f b) xs ys -> mapM f xs = mapM f ys.
Proof.
  induction 1 as [|a b xs ys Hab _ IH]; cbn [mapM]; [reflexivity|].
  now rewrite Hab, IH.
Qed.

Lemma firstn_related {A} (R : A -> A -> Prop) (n : nat) (xs ys : list A) :
  Forall2 R xs ys -> Forall2 R (firstn n xs) (firstn n ys).
Proof.
  intros H. revert n. induction H as [|a b xs ys Hab _ IH]; intros [|n]; cbn [firstn];
    constructor; auto.
Qed.

Lemma related_rows (defaults : list (pystr * json)) {B} (f : json -> result B)
    (xs ys : list json) :
  (forall d k v, In (k, v) defaults -> assoc k d = None ->
                 f (JDict ((k, v) :: d)) = f (JDict d)) ->
  Forall2 (completes defaults) xs ys -> mapM f xs = mapM f ys.
Proof.
  intros Hstep H. apply mapM_related.
  eapply Forall2_impl; [|exact H]. intros a b. now apply completes_render.
Qed.

Lemma related_list (R : json -> json -> Prop) (xs ys : list json) :
  Forall2 R xs ys -> truthy (JList xs) = truthy (JList ys) /\ len xs = len ys.
Proof.
  intros H. split; [destruct H; reflexivity|].
  unfold len. now rewrite (Forall2_length H).
Qed.

Lemma trade_summary_reads_default (d : list (pystr * json)) (k : pystr) (v : json) :
  In (k, v) trade_defaults -> assoc k d = None ->
  (py_get (JDict ((k, v) :: d)) (u "isBuyerMaker") (JBool false),
   py_getitem_key (JDict ((k, v) :: d)) (u "qty"))
  = (py_get (JDict d) (u "isBuyerMaker") (JBool false), py_getitem_key (JDict d) (u "qty")).
Proof.
  intros Hin Hnone. unfold trade_defaults in Hin. in_cases Hin; same_lookups Hnone.
Qed.

Lemma volume_terms_related (maker : bool) (ts ts' : list json) :
  Forall2 (completes trade_defaults) ts ts' -> volume_terms maker ts = volume_terms maker ts'.
Proof.
  induction 1 as [|a b ts ts' Hab _ IH]; cbn [volume_terms]; [reflexivity|].
  pose proof (completes_render trade_defaults
                (fun t => (py_get t (u "isBuyerMaker") (JBool false),
                           py_getitem_key t (u "qty")))
                trade_summary_reads_default a b Hab) as E.
  pose proof (f_equal fst E) as E1. pose proof (f_equal snd E) as E2.
  cbn [fst snd] in E1, E2. now rewrite E1, E2, IH.
Qed.

Lemma trades_rendering_related (ts ts' : list json) (symbol : pystr) :
  Forall2 (completes trade_defaults) ts ts' ->
  format_trades_markdown (JList ts) symbol = format_trades_markdown (JList ts') symbol.
Proof.
  intros H. destruct (related_list _ _ _ H) as [Ht Hn].
  unfold format_trades_markdown, trades_lines, trade_rows, trades_summary_lines.
  cbn [py_slice_to py_iter py_len bind].
  rewrite Ht, Hn, (volume_terms_related false _ _ H), (volume_terms_related true _ _ H).
  rewrite (related_rows trade_defaults trade_row (firstn 50 ts) (firstn 50 ts'));
    [reflexivity | intros d k v; apply trade_row_default | now apply firstn_related].
Qed.

Lemma prices_rendering_related (ps ps' : list json) :
  Forall2 (completes price_defaults) ps ps' ->
  format_price_markdown (JList ps) = format_price_markdown (JList ps').
Proof.
  intros H. destruct (related_list _ _ _ H) as [Ht _].
  unfold format_price_markdown. cbn [py_iter bind].
  rewrite Ht, (related_rows price_defaults price_line ps ps');
    [reflexivity | intros d k v; apply price_line_default | exact H].
Qed.

Lemma best_prices_rendering_related (ts ts' : list json) :
  Forall2 (completes best_price_defaults) ts ts' ->
  best_price_markdown (JList ts) = best_price_markdown (JList ts').
Proof.
  intros H. unfold best_price_markdown. cbn [py_iter bind].
  rewrite (related_rows best_price_defaults best_price_lines ts ts');
    [reflexivity | intros d k v; apply best_price_lines_default | exact H].
Qed.

Lemma symbols_rendering_related (ss ss' : list json) :
  Forall2 (completes symbol_defaults) ss ss' ->
  format_symbols_markdown (JList ss) = format_symbols_markdown (JList ss').
Proof.
  intros H. destruct (related_list _ _ _ H) as [Ht Hn].
  unfold format_symbols_markdown. cbn [py_len py_iter bind].
  rewrite Ht, Hn, (related_rows symbol_defaults symbol_lines ss ss');
    [reflexivity | intros d k v; apply symbol_lines_default | exact H].
Qed.

Lemma tickers_rendering_related (ts ts' : list json) (ticker_type : pystr) :
  Forall2 (completes ticker_defaults) ts ts' ->
  format_ticker_markdown (JList ts) ticker_type = format_ticker_markdown (JList ts') ticker_type.
Proof.
  intros H. destruct (related_list _ _ _ H) as [Ht _].
  unfold format_ticker_markdown. cbn [py_iter bind].
  rewrite Ht, (related_rows ticker_defaults (ticker_lines ticker_type) ts ts');
    [reflexivity | intros d k v; apply ticker_lines_default | exact H].
Qed.

Lemma order_book_rendering_related (data data' : json) (symbol : pystr) :
  completes order_book_defaults data data' ->
  format_order_book_markdown data symbol = format_order_book_markdown data' symbol.
Proof.
  apply (completes_render order_book_defaults
           (fun d => format_order_book_markdown d symbol)).
  intros d k v Hin Hnone. unfold format_order_book_markdown.
  now rewrite (order_book_lines_default symbol d k v Hin Hnone).
Qed.

(** A well-formed candle row cut short stops at the first entry that is not
    there. *)
Lemma kline_row_cut (good : list json) (text : pystr) (n : nat) :
  kline_row (JList good) = Ok text -> (n < 6)%nat ->
  kline_row (JList (firstn n good)) = Raise (Builtin IndexError).
Proof.
  intros H Hn. pose proof (kline_row_needs_six _ _ H) as H6.
  destruct good as [|g0 [|g1 [|g2 [|g3 [|g4 [|g5 rest]]]]]]; cbn [length] in H6; try lia.
  unfold kline_row in H. cbn [py_index nth_error bind] in H.
  do 6 inv_bind H. clear H.
  destruct n as [|[|[|[|[|[|n]]]]]]; try lia;
    cbn [firstn]; unfold kline_row; cbn [py_index nth_error bind];
    repeat match goal with
           | Hx : ?t = Ok _ |- context [?t] => rewrite Hx; cbn [bind]
           end;
    reflexivity.
Qed.

Lemma mapM_stops {A B} (f : A -> result B) (before after : list A) (x : A)
    (ys : list B) (e : exn) :
  mapM f before = Ok ys -> f x = Raise e -> mapM f (before ++ x :: after) = Raise e.
Proof.
  revert ys. induction before as [|a before IH]; intros ys Hb Hx; cbn [app mapM].
  - now rewrite Hx.
  - cbn [mapM] in Hb. do 2 inv_bind Hb. rewrite Ha. cbn [bind].
    now rewrite (IH _ Ha0 Hx).
Qed.

Lemma cut_candle_index_error (before after good : list json) (rows : list pystr)
    (text symbol interval : pystr) (n : nat) :
  mapM kline_row before = Ok rows -> (length before < 50)%nat ->
  kline_row (JList good) = Ok text -> (n < 6)%nat ->
  format_klines_markdown (JList (before ++ JList (firstn n good) :: after)) symbol interval
  = Raise (Builtin IndexError).
Proof.
  intros Hb Hlen Hg Hn. unfold format_klines_markdown.
  replace (truthy (JList (before ++ JList (firstn n good) :: after))) with true
    by (now destruct before).
  cbn [negb]. unfold klines_lines, kline_rows. cbn [py_slice_to py_iter bind].
  rewrite firstn_app.
  replace (firstn 50 before) with before by (symmetry; apply firstn_all2; lia).
  destruct (50 - length before)%nat as [|m] eqn:E; [lia|]. cbn [firstn].
  now rewrite (mapM_stops kline_row before (firstn m after) _ rows _ Hb
                 (kline_row_cut good text n Hg Hn)).
Qed.

(** Records without any field: every default shows. *)
Lemma empty_records_render :
  format_price_markdown (JList [JDict []])
  = Ok (u "# Current Prices" ++ nl ++ nl ++ u "- **Unknown**: N/A")
  /\ format_symbols_markdown (JList [JDict []])
     = Ok (u "# Found 1 Trading Pairs" ++ nl ++ nl
             ++ u "## Unknown " ++ pause_sign ++ nl
             ++ u "- **Base Asset**: " ++ nl
             ++ u "- **Quote Asset**: " ++ nl
             ++ u "- **Status**: Unknown" ++ nl)
  /\ (forall ticker_type,
        ticker_type <> u "FULL" ->
        format_ticker_markdown (JList [JDict []]) ticker_type
        = Ok (u "# Binance Ticker Information" ++ nl ++ nl
                ++ u "## Unknown" ++ nl ++ nl
                ++ u "- **Current Price**: N/A" ++ nl))
  /\ (forall symbol,
        format_order_book_markdown (JDict []) symbol
        = Ok (u "# Order Book for " ++ symbol ++ nl ++ nl
                ++ u "**Last Update ID**: N/A" ++ nl ++ nl
                ++ u "## Top Bids (Buy Orders)" ++ nl
                ++ u "| Price | Quantity | Total |" ++ nl
                ++ u "|-------|----------|-------|" ++ nl
                ++ nl ++ u "## Top Asks (Sell Orders)" ++ nl
                ++ u "| Price | Quantity | Total |" ++ nl
                ++ u "|-------|----------|-------|" ++ nl
                ++ nl ++ u "*Showing top 10 levels. Total bids: 0, Total asks: 0*")).
Proof.
  split; [reflexivity|]. split; [reflexivity|]. split.
  - intros ticker_type Ht.
    assert (Et : PyStr.eqb ticker_type (u "FULL") = false).
    { destruct (PyStr.eqb ticker_type (u "FULL")) eqn:E; [|reflexivity].
      apply pystr_eqb_eq in E. contradiction. }
    unfold format_ticker_markdown. cbn [truthy negb py_iter bind mapM].
    unfold ticker_lines. cbn [py_get assoc bind]. rewrite Et. reflexivity.
  - intros symbol. unfold format_order_book_markdown, order_book_lines. cbn.
    repeat rewrite <- app_assoc. reflexivity.
Qed.

(** C3 (amended). A field read with [get] and a default tolerates being
    absent, in the whole rendering: trades that lack [time], [price] or
    [isBuyerMaker], price records, best-price tickers, symbol records and
    ticker records that lack a field read that way, and an order-book answer
    without [bids], [asks] or [lastUpdateId], render exactly as the same
    data with the absent fields set to their defaults, and a record without
    any field renders without failing, every default showing.  Candle rows are read
    by position, with no default: a row with fewer than six entries among
    the fifty shown makes the rendering fail; when that row is a well-formed
    row cut short and the rows before it are well formed, the failure is an
    index error, which the tool returns as an error string. *)
Theorem C3_tolerated_absence :
  (forall (ts ts' : list json) (symbol : pystr),
      Forall2 (completes trade_defaults) ts ts' ->
      format_trades_markdown (JList ts) symbol = format_trades_markdown (JList ts') symbol)
  /\ (forall ps ps' : list json,
        Forall2 (completes price_defaults) ps ps' ->
        format_price_markdown (JList ps) = format_price_markdown (JList ps'))
  /\ (forall ts ts' : list json,
        Forall2 (completes best_price_defaults) ts ts' ->
        best_price_markdown (JList ts) = best_price_markdown (JList ts'))
  /\ (forall ss ss' : list json,
        Forall2 (completes symbol_defaults) ss ss' ->
        format_symbols_markdown (JList ss) = format_symbols_markdown (JList ss'))
  /\ (forall (ts ts' : list json) (ticker_type : pystr),
        Forall2 (completes ticker_defaults) ts ts' ->
        format_ticker_markdown (JList ts) ticker_type
        = format_ticker_markdown (JList ts') ticker_type)
  /\ (forall (data data' : json) (symbol : pystr),
        completes order_book_defaults data data' ->
        format_order_book_markdown data symbol = format_order_book_markdown data' symbol)
  /\ format_price_markdown (JList [JDict []])
     = Ok (u "# Current Prices" ++ nl ++ nl ++ u "- **Unknown**: N/A")
  /\ format_symbols_markdown (JList [JDict []])
     = Ok (u "# Found 1 Trading Pairs" ++ nl ++ nl
             ++ u "## Unknown " ++ pause_sign ++ nl
             ++ u "- **Base Asset**: " ++ nl
             ++ u "- **Quote Asset**: " ++ nl
             ++ u "- **Status**: Unknown" ++ nl)
  /\ (forall ticker_type,
        ticker_type <> u "FULL" ->
        format_ticker_markdown (JList [JDict []]) ticker_type
        = Ok (u "# Binance Ticker Information" ++ nl ++ nl
                ++ u "## Unknown" ++ nl ++ nl
                ++ u "- **Current Price**: N/A" ++ nl))
  /\ (forall symbol,
        format_order_book_markdown (JDict []) symbol
        = Ok (u "# Order Book for " ++ symbol ++ nl ++ nl
                ++ u "**Last Update ID**: N/A" ++ nl ++ nl
                ++ u "## Top Bids (Buy Orders)" ++ nl
                ++ u "| Price | Quantity | Total |" ++ nl
                ++ u "|-------|----------|-------|" ++ nl
                ++ nl ++ u "## Top Asks (Sell Orders)" ++ nl
                ++ u "| Price | Quantity | Total |" ++ nl
                ++ u "|-------|----------|-------|" ++ nl
                ++ nl ++ u "*Showing top 10 levels. Total bids: 0, Total asks: 0*"))
  /\ (forall (rows r : list json) (symbol interval : pystr),
        In (JList r) (firstn 50 rows) -> (length r < 6)%nat ->
        exists e, format_klines_markdown (JList rows) symbol interval = Raise e)
  /\ (forall (before after good : list json) (rows : list pystr) (text : pystr) (n : nat),
        mapM kline_row before = Ok rows -> (length before < 50)%nat ->
        kline_row (JList good) = Ok text -> (n < 6)%nat ->
        let klines := JList (before ++ JList (firstn n good) :: after) in
        (forall symbol interval,
            format_klines_markdown klines symbol interval = Raise (Builtin IndexError))
        /\ (forall (p : KlinesInput) (w : world),
              (forall r, provider w r = HttpResponse 200 (Ok klines)) ->
              is_json (klines_response_format p) = false ->
              fst (binance_get_klines p w)
              = u "Error fetching klines: " ++ str_exn (Builtin IndexError))).
Proof.
  split; [exact trades_rendering_related|].
  split; [exact prices_rendering_related|].
  split; [exact best_prices_rendering_related|].
  split; [exact symbols_rendering_related|].
  split; [exact tickers_rendering_related|].
  split; [exact order_book_rendering_related|].
  destruct empty_records_render as (Hp & Hs & Ht & Ho).
  split; [exact Hp|]. split; [exact Hs|]. split; [exact Ht|]. split; [exact Ho|].
  split; [exact short_candle_fails|].
  intros before after good rows text n Hb Hlen Hg Hn klines.
  assert (Hfail : forall symbol interval,
             format_klines_markdown klines symbol interval = Raise (Builtin IndexError)).
  { intros symbol interval. subst klines.
    exact (cut_candle_index_error before after good rows text symbol interval n
             Hb Hlen Hg Hn). }
  split; [exact Hfail|].
  intros p w Hw Hfmt. unfold binance_get_klines, catch_all, klines_body.
  match goal with
  | |- context [make_api_request ?ep ?ps w] =>
      pose proof (make_api_request_outcome ep ps w _ Hw) as E;
      destruct (make_api_request ep ps w) as [response w']
  end.
  cbn [fst] in E. subst response. cbn [handle_response Z.eqb Pos.eqb fst snd bind].
  rewrite Hfmt, Hfail. reflexivity.
Qed.

(** *** A single object for a list of one *)

Lemma ensure_list_single (d : json) : is_list d = false -> ensure_list d = JList [d].
Proof. unfold ensure_list. now intros ->. Qed.

Lemma ensure_list_list (l : list json) : ensure_list (JList l) = JList l.
Proof. reflexivity. Qed.

(** What a tool does with an answer of the provider, in terms of its body. *)
Ltac tool_on_answer Hreq :=
  match goal with
  | |- context [make_api_request ?ep ?ps ?w] =>
      let E := fresh "E" in
      pose proof (Hreq ep ps) as E;
      destruct (make_api_request ep ps w) as [? ?];
      cbn [fst] in E; subst
  end.

(** C10. In the ticker, price and best-price tools an answer that is a
    single object is wrapped into a list of one before rendering.  For an
    answer [d] that is not a list the tool returns, in json, the dump of the
    list [[d]] with a count of 1 and, in markdown, the rendering of the list
    [[d]] (for tickers through the truncation policy with an item limit of
    1), or its error text when that rendering fails; and it returns the same
    text when the provider answers the list [[d]] itself. *)
Theorem C10_single_object_wrapped (d : json) (w1 w2 : world) :
  is_list d = false ->
  (forall r, provider w1 r = HttpResponse 200 (Ok d)) ->
  (forall r, provider w2 r = HttpResponse 200 (Ok (JList [d]))) ->
  ensure_list d = JList [d]
  /\ (forall p,
        fst (binance_get_ticker p w1)
        = (if is_json (ticker_response_format p)
           then json_dumps (JDict [(u "data", JList [d]); (u "count", JInt 1);
                                   (u "type", JStr (ticker_type p))])
           else reported (u "Error fetching ticker data: ")
                  (' (formatted, _, _) <-
                     truncate_response (JList [d])
                       (fun x => format_ticker_markdown x (ticker_type p)) (Some 1) ;;
                   Ok formatted))
        /\ fst (binance_get_ticker p w2) = fst (binance_get_ticker p w1))
  /\ (forall p,
        fst (binance_get_price p w1)
        = (if is_json (price_response_format p)
           then json_dumps (JDict [(u "prices", JList [d]); (u "count", JInt 1)])
           else reported (u "Error fetching prices: ") (format_price_markdown (JList [d])))
        /\ fst (binance_get_price p w2) = fst (binance_get_price p w1))
  /\ (forall p,
        fst (binance_get_best_price p w1)
        = (if is_json (price_response_format p)
           then json_dumps (JDict [(u "tickers", JList [d]); (u "count", JInt 1)])
           else reported (u "Error fetching best prices: ") (best_price_markdown (JList [d])))
        /\ fst (binance_get_best_price p w2) = fst (binance_get_best_price p w1)).
Proof.
  intros Hd H1 H2.
  assert (Hreq1 : forall endpoint params,
             fst (make_api_request endpoint params w1) = Ok d).
  { intros endpoint params. now rewrite (make_api_request_outcome _ _ _ _ H1). }
  assert (Hreq2 : forall endpoint params,
             fst (make_api_request endpoint params w2) = Ok (JList [d])).
  { intros endpoint params. now rewrite (make_api_request_outcome _ _ _ _ H2). }
  split; [now apply ensure_list_single|].
  split; [|split]; intros p.
  - unfold binance_get_ticker, catch_all, ticker_body.
    tool_on_answer Hreq1. tool_on_answer Hreq2. cbn [fst snd bind].
    rewrite (ensure_list_single d Hd), ensure_list_list. cbn [py_len bind].
    change (len [d]) with 1.
    destruct (is_json (ticker_response_format p)); [split; reflexivity|].
    unfold reported.
    destruct (truncate_response (JList [d]) _ (Some 1)) as [[[formatted t] n]|e];
      split; reflexivity.
  - unfold binance_get_price, catch_all, price_body.
    tool_on_answer Hreq1. tool_on_answer Hreq2. cbn [fst snd bind].
    rewrite (ensure_list_single d Hd), ensure_list_list. cbn [py_len bind].
    change (len [d]) with 1.
    destruct (is_json (price_response_format p)); [split; reflexivity|].
    unfold reported.
    destruct (format_price_markdown (JList [d])); split; reflexivity.
  - unfold binance_get_best_price, catch_all, best_price_body.
    tool_on_answer Hreq1. tool_on_answer Hreq2. cbn [fst snd bind].
    rewrite (ensure_list_single d Hd), ensure_list_list. cbn [py_len bind].
    change (len [d]) with 1.
    destruct (is_json (price_response_format p)); [split; reflexivity|].
    unfold reported.
    destruct (best_price_markdown (JList [d])); split; reflexivity.
Qed.

End Properties.

(** *** Instances on the reference runtime *)

Lemma ref_upper_stable : @upper_stable Examples.rt.
Proof.
  intros c d Hc. cbn [unicode_upper Examples.rt Ref.runtime]. unfold Ref.unicode_upper.
  destruct (c =? 223)%N eqn:E.
  - intros [<-|[<-|[]]]; reflexivity.
  - intros [<-|[]]. unfold upper_cp, is_ascii_lower.
    replace (c <=? 122)%N with false by (symmetry; apply N.leb_gt; lia).
    rewrite andb_false_r.
    replace (c <? 128)%N with false by (symmetry; apply N.ltb_ge; lia).
    cbn [unicode_upper Examples.rt Ref.runtime]. unfold Ref.unicode_upper.
    rewrite E. reflexivity.
Defined.

(** C5, counterexample. The KELVIN SIGN (U+212A) and the letter k are equal
    up to letter case, both are k in lower case, but the sign is upper case
    already while k becomes K: the two inputs normalize to different
    symbols.  So do the capital sharp s (U+1E9E), which stays, and the sharp
    s (U+00DF), which becomes SS. *)
Lemma C5_counterexample :
  @equal_ignoring_case Examples.rt [8490%N] (u "k")
  /\ @normalize_symbol Examples.rt [8490%N] = [8490%N]
  /\ @normalize_symbol Examples.rt (u "k") = u "K"
  /\ @normalize_symbol Examples.rt [8490%N] <> @normalize_symbol Examples.rt (u "k")
  /\ @equal_ignoring_case Examples.rt [7838%N] [223%N]
  /\ @normalize_symbol Examples.rt [7838%N] = [7838%N]
  /\ @normalize_symbol Examples.rt [223%N] = u "SS".
Proof.
  split; [reflexivity|]. split; [reflexivity|]. split; [reflexivity|].
  split; [intros H; vm_compute in H; discriminate H|].
  split; [reflexivity|]. split; reflexivity.
Qed.

Lemma C5_witness :
  @upper_stable Examples.rt
  /\ @normalize_symbol Examples.rt (@normalize_symbol Examples.rt (u " ethUsdt "))
     = @normalize_symbol Examples.rt (u " ethUsdt ").
Proof.
  split; [exact ref_upper_stable|].
  apply (proj1 (@C5_normalization_idempotent Examples.rt ref_upper_stable)).
Defined.

Lemma C7_witness :
  ~ In 15 [5; 10; 20; 50; 100; 500; 1000; 5000]
  /\ validate_limit 15
     = Raise (ValueError (u "Invalid limit 15. Valid limits: 5, 10, 20, 50, 100, 500, 1000, 5000")).
Proof.
  assert (H : ~ In 15 [5; 10; 20; 50; 100; 500; 1000; 5000]) by (simpl; lia).
  split; [exact H|].
  exact (proj1 (proj2 (@C7_depth_limit_validation Examples.rt 15) H)).
Defined.

(** The end-to-end scenarios of the price tool. *)
Example price_markdown_scenario :
  fst (@binance_get_price Examples.rt (Examples.price_input "markdown")
         (Examples.ok_world Examples.price_btc))
  = u "# Current Prices" ++ nl ++ nl ++ u "- **BTCUSDT**: $50,000.12".
Proof. vm_compute. reflexivity. Qed.

(** C4, counterexample. A list of two records passed without an item limit
    is not halved: the 26,000 characters of its rendering are cut to 25,000
    and followed by the fixed notice, where the specification has one
    record rendered again and a notice of 1 of 2 items. *)
Lemma C4_counterexample :
  truncate_response (JList [JNull; JNull]) Examples.bulky_render None
  = Ok (repeat 97%N (Z.to_nat 25000) ++ hard_truncation_msg, true, Some hard_truncation_msg)
  /\ truncate_response (JList [JNull; JNull]) Examples.bulky_render None
     <> Ok (repeat 97%N (Z.to_nat 13000) ++ items_truncation_msg 1 2, true,
            Some (items_truncation_msg 1 2)).
Proof.
  assert (E : truncate_response (JList [JNull; JNull]) Examples.bulky_render None
              = Ok (repeat 97%N (Z.to_nat 25000) ++ hard_truncation_msg, true,
                    Some hard_truncation_msg)) by reflexivity.
  split; [exact E|]. rewrite E. intros H.
  apply (f_equal (fun r : result (pystr * bool * option pystr) =>
                    match r with
                    | Ok (_, _, Some msg) => len msg
                    | _ => 0
                    end)) in H.
  vm_compute in H. discriminate H.
Qed.

Lemma C4_witness :
  Examples.bulky_render (JList [JNull; JNull; JNull; JNull])
  = Ok (repeat 97%N (Z.to_nat 52000))
  /\ CHARACTER_LIMIT < len (repeat 97%N (Z.to_nat 52000))
  /\ truncate_response (JList [JNull; JNull; JNull; JNull]) Examples.bulky_render (Some 4)
     = Ok (repeat 97%N (Z.to_nat 26000) ++ items_truncation_msg 2 4, true,
           Some (items_truncation_msg 2 4)).
Proof.
  assert (Hlen : CHARACTER_LIMIT < len (repeat 97%N (Z.to_nat 52000)))
    by (vm_compute; reflexivity).
  split; [reflexivity|]. split; [exact Hlen|].
  assert (Hne : [JNull; JNull; JNull; JNull] <> []) by discriminate.
  exact (proj2 (proj2
           (proj1 (proj2
              (C4_truncation_policy (JList [JNull; JNull; JNull; JNull])
                 Examples.bulky_render (Some 4) (repeat 97%N (Z.to_nat 52000)) eq_refl))
              Hlen [JNull; JNull; JNull; JNull] (repeat 97%N (Z.to_nat 26000))
              eq_refl Hne eq_refl eq_refl))).
Defined.



(** C3, counterexample. A candle row without its volume stops the rendering
    with an index error, and the tool returns the error instead of a
    table. *)
Lemma C3_counterexample :
  @format_klines_markdown Examples.rt (JList [Examples.candle_short]) (u "BTCUSDT") (u "1h")
  = Raise (Builtin IndexError)
  /\ fst (@binance_get_klines Examples.rt Examples.klines_input
            (Examples.ok_world (JList [Examples.candle_short])))
     = u "Error fetching klines: list index out of range".
Proof. repeat split; vm_compute; reflexivity. Qed.

(** A trade without its quantity is rendered in its row with the default,
    and stops the trading summary, which reads [t["qty"]]. *)
Example trade_without_qty :
  is_ok (@trade_row Examples.rt Examples.trade_no_qty) = true
  /\ @format_trades_markdown Examples.rt (JList [Examples.trade_no_qty]) (u "BTCUSDT")
     = Raise (Builtin (KeyError (u "qty")))
  /\ fst (@binance_get_recent_trades Examples.rt Examples.trades_input
            (Examples.ok_world (JList [Examples.trade_no_qty])))
     = u "Error fetching recent trades: 'qty'".
Proof. repeat split; vm_compute; reflexivity. Qed.

Lemma C3_witness :
  Forall2 (completes trade_defaults)
    [JDict [(u "time", JInt 1700000000000); (u "qty", JStr (u "0.25"))]]
    [JDict [(u "isBuyerMaker", JBool false); (u "price", JInt 0);
            (u "time", JInt 1700000000000); (u "qty", JStr (u "0.25"))]]
  /\ @format_trades_markdown Examples.rt
       (JList [JDict [(u "time", JInt 1700000000000); (u "qty", JStr (u "0.25"))]])
       (u "BTCUSDT")
     = @format_trades_markdown Examples.rt
         (JList [JDict [(u "isBuyerMaker", JBool false); (u "price", JInt 0);
                        (u "time", JInt 1700000000000); (u "qty", JStr (u "0.25"))]])
         (u "BTCUSDT")
  /\ is_ok (@format_trades_markdown Examples.rt
              (JList [JDict [(u "time", JInt 1700000000000); (u "qty", JStr (u "0.25"))]])
              (u "BTCUSDT")) = true.
Proof.
  assert (H : Forall2 (completes trade_defaults)
                [JDict [(u "time", JInt 1700000000000); (u "qty", JStr (u "0.25"))]]
                [JDict [(u "isBuyerMaker", JBool false); (u "price", JInt 0);
                        (u "time", JInt 1700000000000); (u "qty", JStr (u "0.25"))]]).
  { constructor; [|constructor].
    apply (completes_field trade_defaults _ (u "price") (JInt 0));
      [right; left; reflexivity | reflexivity |].
    apply (completes_field trade_defaults _ (u "isBuyerMaker") (JBool false));
      [right; right; left; reflexivity | reflexivity |].
    apply completes_same. }
  split; [exact H|]. split; [|vm_compute; reflexivity].
  exact (proj1 (@C3_tolerated_absence Examples.rt) _ _ (u "BTCUSDT") H).
Defined.

(** C6, counterexample. With a first close of -1 and a last close of -2 the
    summary reports an overall change of 0, where the quotient is 100. *)
Lemma C6_counterexample :
  @klines_summary Examples.rt (JList [Examples.candle "-1"; Examples.candle "-2"])
  = Ok (PeriodSummary (Examples.dec "-1") (Examples.dec "-2") fzero)
  /\ fmul (fquot (fsub (Examples.dec "-2") (Examples.dec "-1")) (Examples.dec "-1")) f100
     = Examples.dec "100"
  /\ Examples.dec "100" <> fzero.
Proof. repeat split; try (vm_compute; reflexivity). vm_compute. discriminate. Qed.

Lemma C6_witness :
  @klines_summary Examples.rt (JList [Examples.candle "105"; Examples.candle "110.25"])
  = Ok (PeriodSummary (Examples.dec "105") (Examples.dec "110.25")
          (if flt fzero (Examples.dec "105")
           then fmul (fquot (fsub (Examples.dec "110.25") (Examples.dec "105"))
                        (Examples.dec "105")) f100
           else fzero)).
Proof.
  apply (proj1 (@C6_overall_change Examples.rt (Examples.candle "105")
                  [Examples.candle "110.25"] (JStr (u "105")) (JStr (u "110.25"))
                  (Examples.dec "105") (Examples.dec "110.25")
                  eq_refl eq_refl eq_refl eq_refl)).
Defined.



(** C9, counterexample. A depth of 15 never reaches the tool: the caller
    gets the validation error itself, not a string with the prefix of the
    tool, and nothing was sent. *)
Lemma C9_counterexample :
  @invoke_get_order_book Examples.rt (Examples.book_input 15)
    (Examples.ok_world Examples.book_zero_bid)
  = (Raised (ValidationError
               [(u "limit",
                 ValidatorRaised
                   (u "Invalid limit 15. Valid limits: 5, 10, 20, 50, 100, 500, 1000, 5000"))]),
     Examples.ok_world Examples.book_zero_bid).
Proof. vm_compute. reflexivity. Qed.

Lemma C9_witness :
  (forall r, provider (Examples.world_of HttpTimeout) r = HttpTimeout)
  /\ fst (@binance_get_order_book Examples.rt (Examples.book_input 5)
            (Examples.world_of HttpTimeout))
     = u "Error fetching order book: " ++ @timeout_message.
Proof.
  assert (H : forall r, provider (Examples.world_of HttpTimeout) r = HttpTimeout)
    by reflexivity.
  split; [exact H|].
  exact (proj1 (proj2 (proj2 (proj2 (proj2 (proj2 (proj2 (proj2 (proj2
           (@C9_dispatch_boundary Examples.rt)))))))))
           (Examples.book_input 5) (Examples.world_of HttpTimeout) H).
Defined.

Lemma C10_witness :
  is_list Examples.price_btc = false
  /\ (forall r, provider (Examples.ok_world Examples.price_btc) r
                = HttpResponse 200 (Ok Examples.price_btc))
  /\ (forall r, provider (Examples.ok_world (JList [Examples.price_btc])) r
                = HttpResponse 200 (Ok (JList [Examples.price_btc])))
  /\ fst (@binance_get_price Examples.rt (Examples.price_input "markdown")
            (Examples.ok_world Examples.price_btc))
     = u "# Current Prices" ++ nl ++ nl ++ u "- **BTCUSDT**: $50,000.12"
  /\ fst (@binance_get_price Examples.rt (Examples.price_input "markdown")
            (Examples.ok_world (JList [Examples.price_btc])))
     = fst (@binance_get_price Examples.rt (Examples.price_input "markdown")
              (Examples.ok_world Examples.price_btc)).
Proof.
  split; [reflexivity|]. split; [reflexivity|]. split; [reflexivity|].
  exact (proj1 (proj2 (proj2
           (@C10_single_object_wrapped Examples.rt Examples.price_btc
              (Examples.ok_world Examples.price_btc)
              (Examples.ok_world (JList [Examples.price_btc]))
              eq_refl (fun _ => eq_refl) (fun _ => eq_refl))))
           (Examples.price_input "markdown")).
Defined.

(** ** Further properties of the program *)

Section Client.

Context {RT : PyRuntime}.

(** *** Requests *)

(** What [make_api_request] leaves in the world: the same provider and one
    more request, with the parameters that are not [None]. *)
Lemma make_api_request_world (endpoint : pystr) (params : list (pystr * json)) (w : world) :
  snd (make_api_request endpoint params w)
  = World (provider w)
      (sent w ++ [Request (BINANCE_API_BASE ++ endpoint)
                    (filter (fun kv => negb (is_null (snd kv))) params)]).
Proof. unfold make_api_request. destruct (provider w _); reflexivity. Qed.

Tactic Notation "tool_world" reference(tool) reference(body) :=
  unfold tool, catch_all, body;
  match goal with
  | |- context [make_api_request ?e ?a ?w] => destruct (make_api_request e a w)
  end;
  cbn [fst snd];
  match goal with
  | |- snd (match ?x with _ => _ end) = _ => destruct x
  end;
  reflexivity.

Lemma ticker_world (p : TickerInput) (w : world) :
  snd (binance_get_ticker p w)
  = snd (make_api_request (u "/api/v3/ticker/24hr")
           [(u "symbols", JStr (symbols_param (ticker_symbols p)));
            (u "type", JStr (ticker_type p))] w).
Proof. tool_world binance_get_ticker ticker_body. Qed.

Lemma search_world (p : SearchSymbolsInput) (w : world) :
  snd (binance_search_symbols p w) = snd (make_api_request (u "/api/v3/exchangeInfo") [] w).
Proof. tool_world binance_search_symbols search_body. Qed.

Lemma order_book_world (p : OrderBookInput) (w : world) :
  snd (binance_get_order_book p w)
  = snd (make_api_request (u "/api/v3/depth")
           [(u "symbol", JStr (book_symbol p)); (u "limit", JInt (book_limit p))] w).
Proof. tool_world binance_get_order_book order_book_body. Qed.

Lemma klines_world (p : KlinesInput) (w : world) :
  snd (binance_get_klines p w)
  = snd (make_api_request (u "/api/v3/klines")
           ([(u "symbol", JStr (klines_symbol p));
             (u "interval", JStr (klines_interval p));
             (u "limit", JInt (klines_limit p))]
            ++ opt_int_param (u "startTime") (klines_start_time p)
            ++ opt_int_param (u "endTime") (klines_end_time p)) w).
Proof. tool_world binance_get_klines klines_body. Qed.

Lemma recent_trades_world (p : RecentTradesInput) (w : world) :
  snd (binance_get_recent_trades p w)
  = snd (make_api_request (u "/api/v3/trades")
           [(u "symbol", JStr (trades_symbol p)); (u "limit", JInt (trades_limit p))] w).
Proof. tool_world binance_get_recent_trades recent_trades_body. Qed.

Lemma exchange_info_world (p : ExchangeInfoInput) (w : world) :
  snd (binance_get_exchange_info p w)
  = snd (make_api_request (u "/api/v3/exchangeInfo")
           (if symbols_set (info_symbols p)
            then [(u "symbols",
                   JStr (symbols_param
                           (match info_symbols p with Some l => l | None => [] end)))]
            else []) w).
Proof. tool_world binance_get_exchange_info exchange_info_body. Qed.

Lemma price_world (p : PriceInput) (w : world) :
  snd (binance_get_price p w)
  = snd (make_api_request (u "/api/v3/ticker/price")
           [(u "symbols", JStr (symbols_param (price_symbols p)))] w).
Proof. tool_world binance_get_price price_body. Qed.

Lemma best_price_world (p : PriceInput) (w : world) :
  snd (binance_get_best_price p w)
  = snd (make_api_request (u "/api/v3/ticker/bookTicker")
           [(u "symbols", JStr (symbols_param (price_symbols p)))] w).
Proof. tool_world binance_get_best_price best_price_body. Qed.

Lemma make_api_request_one (endpoint : pystr) (params : list (pystr * json)) (w : world) :
  one_request_to endpoint w (snd (make_api_request endpoint params w)).
Proof. rewrite make_api_request_world. split; [reflexivity | eexists; reflexivity]. Qed.

(** X1. Every tool makes exactly one request, whatever the provider answers
    and whether the tool then succeeds or fails: the requests sent after the
    call are those sent before it followed by one GET to the endpoint of the
    tool under the fixed base URL. *)
Theorem X1_one_request_per_tool (w : world) :
  (forall p, one_request_to (u "/api/v3/ticker/24hr") w (snd (binance_get_ticker p w)))
  /\ (forall p, one_request_to (u "/api/v3/exchangeInfo") w (snd (binance_search_symbols p w)))
  /\ (forall p, one_request_to (u "/api/v3/depth") w (snd (binance_get_order_book p w)))
  /\ (forall p, one_request_to (u "/api/v3/klines") w (snd (binance_get_klines p w)))
  /\ (forall p, one_request_to (u "/api/v3/trades") w (snd (binance_get_recent_trades p w)))
  /\ (forall p, one_request_to (u "/api/v3/exchangeInfo") w
                  (snd (binance_get_exchange_info p w)))
  /\ (forall p, one_request_to (u "/api/v3/ticker/price") w (snd (binance_get_price p w)))
  /\ (forall p, one_request_to (u "/api/v3/ticker/bookTicker") w
                  (snd (binance_get_best_price p w))).
Proof.
  split; [intros p; rewrite ticker_world; apply make_api_request_one|].
  split; [intros p; rewrite search_world; apply make_api_request_one|].
  split; [intros p; rewrite order_book_world; apply make_api_request_one|].
  split; [intros p; rewrite klines_world; apply make_api_request_one|].
  split; [intros p; rewrite recent_trades_world; apply make_api_request_one|].
  split; [intros p; rewrite exchange_info_world; apply make_api_request_one|].
  split; [intros p; rewrite price_world; apply make_api_request_one|].
  intros p; rewrite best_price_world; apply make_api_request_one.
Qed.

Lemma invoke_cases {Raw Model : Type} (validate : Raw -> result Model)
    (tool : Model -> world -> pystr * world) (raw : Raw) (w : world) :
  (exists e, validate raw = Raise e /\ invoke validate tool raw w = (Raised e, w))
  \/ (exists p, validate raw = Ok p
                /\ invoke validate tool raw w = (Returned (fst (tool p w)), snd (tool p w))).
Proof.
  unfold invoke. destruct (validate raw) as [p|e].
  - right. exists p. split; [reflexivity|]. destruct (tool p w). reflexivity.
  - left. exists e. split; reflexivity.
Qed.

(** X2. An invocation sends at most one request: when the input model is
    refused the caller gets the validation error and the world is untouched,
    and when it is accepted the caller gets a string and exactly one request
    went to the endpoint of the tool. *)
Theorem X2_invocation_sends_at_most_one (w : world) :
  (forall raw, sends_at_most_one (u "/api/v3/ticker/24hr") w (invoke_get_ticker raw w))
  /\ (forall raw, sends_at_most_one (u "/api/v3/exchangeInfo") w
                    (invoke_search_symbols raw w))
  /\ (forall raw, sends_at_most_one (u "/api/v3/depth") w (invoke_get_order_book raw w))
  /\ (forall raw, sends_at_most_one (u "/api/v3/klines") w (invoke_get_klines raw w))
  /\ (forall raw, sends_at_most_one (u "/api/v3/trades") w
                    (invoke_get_recent_trades raw w))
  /\ (forall raw, sends_at_most_one (u "/api/v3/exchangeInfo") w
                    (invoke_get_exchange_info raw w))
  /\ (forall raw, sends_at_most_one (u "/api/v3/ticker/price") w (invoke_get_price raw w))
  /\ (forall raw, sends_at_most_one (u "/api/v3/ticker/bookTicker") w
                    (invoke_get_best_price raw w)).
Proof.
  assert (H : forall (Raw Model : Type) (validate : Raw -> result Model)
                     (tool : Model -> world -> pystr * world) (endpoint : pystr),
             (forall p, one_request_to endpoint w (snd (tool p w))) ->
             forall raw, sends_at_most_one endpoint w (invoke validate tool raw w)).
  { intros Raw Model validate tool endpoint Htool raw. unfold sends_at_most_one.
    destruct (invoke_cases validate tool raw w) as [(e & _ & ->)|(p & _ & ->)]; cbn [fst snd].
    - reflexivity.
    - apply Htool. }
  split; [apply H; intros p; rewrite ticker_world; apply make_api_request_one|].
  split; [apply H; intros p; rewrite search_world; apply make_api_request_one|].
  split; [apply H; intros p; rewrite order_book_world; apply make_api_request_one|].
  split; [apply H; intros p; rewrite klines_world; apply make_api_request_one|].
  split; [apply H; intros p; rewrite recent_trades_world; apply make_api_request_one|].
  split; [apply H; intros p; rewrite exchange_info_world; apply make_api_request_one|].
  split; [apply H; intros p; rewrite price_world; apply make_api_request_one|].
  apply H; intros p; rewrite best_price_world; apply make_api_request_one.
Qed.

(** *** Input models *)

Lemma str_in_In (v : pystr) (xs : list pystr) : str_in v xs = true <-> In v xs.
Proof.
  unfold str_in. rewrite existsb_exists. split.
  - intros (x & Hx & E). apply pystr_eqb_eq in E. now subst.
  - intros H. exists v. split; [assumption | apply pystr_eqb_refl].
Qed.

Lemma check_literal_ok (allowed : list pystr) (v : pystr) :
  check_literal allowed v = None <-> In v allowed.
Proof.
  unfold check_literal. rewrite <- str_in_In.
  destruct (str_in v allowed); split; congruence.
Qed.

Lemma check_length_ok {A} (lo hi : Z) (v : list A) :
  check_length lo hi v = None <-> lo <= len v <= hi.
Proof.
  unfold check_length.
  destruct (len v <? lo) eqn:E1; [apply Z.ltb_lt in E1; split; [discriminate | lia]|].
  apply Z.ltb_ge in E1. rewrite Z.gtb_ltb.
  destruct (hi <? len v) eqn:E2; [apply Z.ltb_lt in E2; split; [discriminate | lia]|].
  apply Z.ltb_ge in E2. split; [lia | reflexivity].
Qed.

Lemma check_range_ok (lo hi v : Z) : check_range lo hi v = None <-> lo <= v <= hi.
Proof.
  unfold check_range.
  destruct (v <? lo) eqn:E1; [apply Z.ltb_lt in E1; split; [discriminate | lia]|].
  apply Z.ltb_ge in E1. rewrite Z.gtb_ltb.
  destruct (hi <? v) eqn:E2; [apply Z.ltb_lt in E2; split; [discriminate | lia]|].
  apply Z.ltb_ge in E2. split; [lia | reflexivity].
Qed.

Lemma validate_limit_ok (v : Z) :
  check_validator (validate_limit v) = None <-> In v valid_limits.
Proof.
  unfold validate_limit. rewrite <- int_in_In.
  destruct (int_in v valid_limits); simpl; split; congruence.
Qed.

Lemma validate_interval_ok (v : pystr) :
  check_validator (validate_interval v) = None <-> In v VALID_INTERVALS.
Proof.
  unfold validate_interval. rewrite <- str_in_In.
  destruct (str_in v VALID_INTERVALS); simpl; split; congruence.
Qed.

(** pydantic builds the model exactly when no field fails. *)
Lemma model_validate_ok {A} (checks : list (pystr * option field_error)) (model p : A) :
  model_validate checks model = Ok p
  <-> p = model /\ Forall (fun c => snd c = None) checks.
Proof.
  unfold model_validate.
  match goal with |- context [flat_map ?f checks] => set (errors := flat_map f checks) end.
  assert (H : errors = [] <-> Forall (fun c => snd c = None) checks).
  { subst errors. induction checks as [|[field [fe|]] checks IH]; simpl.
    - split; [constructor | reflexivity].
    - split; [discriminate | intros H; inversion H; discriminate].
    - rewrite IH. split; [now constructor | intros H; now inversion H]. }
  destruct errors.
  - split.
    + intros E. injection E as <-. split; [reflexivity | now apply H].
    + intros [-> _]. reflexivity.
  - split; [discriminate|]. intros [_ HF]. apply H in HF. discriminate.
Qed.

Ltac forall_checks :=
  repeat match goal with
         | |- context [Forall _ (_ :: _)] => rewrite Forall_cons_iff
         | |- context [Forall _ []] => rewrite Forall_nil_iff
         end;
  cbn [snd];
  rewrite ?check_literal_ok, ?check_length_ok, ?check_range_ok,
    ?validate_limit_ok, ?validate_interval_ok.

(** X3. An input model is built exactly when every declared constraint
    holds: the output format is [markdown] or [json]; a list of symbols has
    between 1 and 100 entries; the ticker type is [FULL] or [MINI]; the depth
    is one of the eight limits; the interval is one of the sixteen intervals,
    compared as written; the number of candles or trades lies between 1 and
    1000; the status is [TRADING] or [ALL].  The model built carries the
    symbols upper-cased and stripped, and every other field as given. *)
Theorem X3_models_accept_exactly :
  (forall raw p,
      TickerInput_validate raw = Ok p
      <-> In (ticker_response_format raw) [u "markdown"; u "json"]
          /\ 1 <= len (ticker_symbols raw) <= 100
          /\ In (ticker_type raw) [u "FULL"; u "MINI"]
          /\ p = {| ticker_response_format := ticker_response_format raw;
                    ticker_symbols := normalize_symbols (ticker_symbols raw);
                    ticker_type := ticker_type raw |})
  /\ (forall raw p,
        SearchSymbolsInput_validate raw = Ok p
        <-> In (search_response_format raw) [u "markdown"; u "json"]
            /\ In (search_status raw) [u "TRADING"; u "ALL"]
            /\ p = {| search_response_format := search_response_format raw;
                      search_base_asset := uppercase_assets (search_base_asset raw);
                      search_quote_asset := uppercase_assets (search_quote_asset raw);
                      search_term := uppercase_assets (search_term raw);
                      search_status := search_status raw |})
  /\ (forall raw p,
        OrderBookInput_validate raw = Ok p
        <-> In (book_response_format raw) [u "markdown"; u "json"]
            /\ In (book_limit raw) [5; 10; 20; 50; 100; 500; 1000; 5000]
            /\ p = {| book_response_format := book_response_format raw;
                      book_symbol := normalize_symbol (book_symbol raw);
                      book_limit := book_limit raw |})
  /\ (forall raw p,
        KlinesInput_validate raw = Ok p
        <-> In (klines_response_format raw) [u "markdown"; u "json"]
            /\ In (klines_interval raw)
                 [u "1s"; u "1m"; u "3m"; u "5m"; u "15m"; u "30m"; u "1h"; u "2h";
                  u "4h"; u "6h"; u "8h"; u "12h"; u "1d"; u "3d"; u "1w"; u "1M"]
            /\ 1 <= klines_limit raw <= 1000
            /\ p = {| klines_response_format := klines_response_format raw;
                      klines_symbol := normalize_symbol (klines_symbol raw);
                      klines_interval := klines_interval raw;
                      klines_limit := klines_limit raw;
                      klines_start_time := klines_start_time raw;
                      klines_end_time := klines_end_time raw |})
  /\ (forall raw p,
        RecentTradesInput_validate raw = Ok p
        <-> In (trades_response_format raw) [u "markdown"; u "json"]
            /\ 1 <= trades_limit raw <= 1000
            /\ p = {| trades_response_format := trades_response_format raw;
                      trades_symbol := normalize_symbol (trades_symbol raw);
                      trades_limit := trades_limit raw |})
  /\ (forall raw p,
        ExchangeInfoInput_validate raw = Ok p
        <-> In (info_response_format raw) [u "markdown"; u "json"]
            /\ p = {| info_response_format := info_response_format raw;
                      info_symbols := normalize_symbols_opt (info_symbols raw) |})
  /\ (forall raw p,
        PriceInput_validate raw = Ok p
        <-> In (price_response_format raw) [u "markdown"; u "json"]
            /\ 1 <= len (price_symbols raw) <= 100
            /\ p = {| price_response_format := price_response_format raw;
                      price_symbols := normalize_symbols (price_symbols raw) |}).
Proof.
  repeat match goal with
         | |- _ /\ _ => split
         | |- forall raw p, _ <-> _ =>
             intros raw p;
             unfold TickerInput_validate, SearchSymbolsInput_validate,
               OrderBookInput_validate, KlinesInput_validate, RecentTradesInput_validate,
               ExchangeInfoInput_validate, PriceInput_validate;
             rewrite model_validate_ok; forall_checks;
             unfold formats, valid_limits, VALID_INTERVALS; tauto
         end.
Qed.

Lemma invoke_returned {Raw Model : Type} (validate : Raw -> result Model)
    (tool : Model -> world -> pystr * world) (raw : Raw) (w w' : world) (text : pystr) :
  invoke validate tool raw w = (Returned text, w') ->
  exists p, validate raw = Ok p /\ text = fst (tool p w) /\ w' = snd (tool p w).
Proof.
  intros H. destruct (invoke_cases validate tool raw w) as [(e & _ & E)|(p & Hp & E)];
    rewrite E in H; [discriminate|].
  injection H as <- <-. eauto.
Qed.

(** X4. A request that reaches the provider carries validated values only:
    the depth request has the symbol upper-cased and stripped and a depth
    out of the eight limits; the trades request a count between 1 and 1000;
    the ticker and price requests between 1 and 100 symbols, encoded in one
    parameter. *)
Theorem X4_requests_carry_validated_input (w w' : world) (text : pystr) :
  (forall raw,
      invoke_get_order_book raw w = (Returned text, w') ->
      In (book_limit raw) [5; 10; 20; 50; 100; 500; 1000; 5000]
      /\ sent w' = sent w ++ [Request (BINANCE_API_BASE ++ u "/api/v3/depth")
                               [(u "symbol", JStr (normalize_symbol (book_symbol raw)));
                                (u "limit", JInt (book_limit raw))]])
  /\ (forall raw,
        invoke_get_recent_trades raw w = (Returned text, w') ->
        1 <= trades_limit raw <= 1000
        /\ sent w' = sent w ++ [Request (BINANCE_API_BASE ++ u "/api/v3/trades")
                                 [(u "symbol", JStr (normalize_symbol (trades_symbol raw)));
                                  (u "limit", JInt (trades_limit raw))]])
  /\ (forall raw,
        invoke_get_ticker raw w = (Returned text, w') ->
        1 <= len (ticker_symbols raw) <= 100
        /\ In (ticker_type raw) [u "FULL"; u "MINI"]
        /\ sent w' = sent w ++ [Request (BINANCE_API_BASE ++ u "/api/v3/ticker/24hr")
                                 [(u "symbols",
                                   JStr (symbols_param
                                           (normalize_symbols (ticker_symbols raw))));
                                  (u "type", JStr (ticker_type raw))]])
  /\ (forall raw,
        invoke_get_price raw w = (Returned text, w') ->
        1 <= len (price_symbols raw) <= 100
        /\ sent w' = sent w ++ [Request (BINANCE_API_BASE ++ u "/api/v3/ticker/price")
                                 [(u "symbols",
                                   JStr (symbols_param
                                           (normalize_symbols (price_symbols raw))))]]).
Proof.
  split; [|split; [|split]]; intros raw H;
    apply invoke_returned in H as (p & Hp & _ & ->).
  - unfold OrderBookInput_validate in Hp. apply model_validate_ok in Hp as [-> Hc].
    revert Hc. forall_checks. intros (_ & Hl & _).
    split; [exact Hl|]. rewrite order_book_world, make_api_request_world. reflexivity.
  - unfold RecentTradesInput_validate in Hp. apply model_validate_ok in Hp as [-> Hc].
    revert Hc. forall_checks. intros (_ & Hl & _).
    split; [exact Hl|]. rewrite recent_trades_world, make_api_request_world. reflexivity.
  - unfold TickerInput_validate in Hp. apply model_validate_ok in Hp as [-> Hc].
    revert Hc. forall_checks. intros (_ & Hl & Ht & _).
    split; [exact Hl|]. split; [exact Ht|].
    rewrite ticker_world, make_api_request_world. reflexivity.
  - unfold PriceInput_validate in Hp. apply model_validate_ok in Hp as [-> Hc].
    revert Hc. forall_checks. intros (_ & Hl & _).
    split; [exact Hl|]. rewrite price_world, make_api_request_world. reflexivity.
Qed.

(** X5. The candle request carries the validated symbol, interval and count,
    and a time bound only when it was given and is not zero: a start or end
    time of 0 is dropped like an absent one. *)
Theorem X5_klines_request (raw : KlinesInput) (w w' : world) (text : pystr) :
  invoke_get_klines raw w = (Returned text, w') ->
  exists r,
    sent w' = sent w ++ [r]
    /\ req_url r = BINANCE_API_BASE ++ u "/api/v3/klines"
    /\ assoc (u "symbol") (req_params r) = Some (JStr (normalize_symbol (klines_symbol raw)))
    /\ assoc (u "interval") (req_params r) = Some (JStr (klines_interval raw))
    /\ In (klines_interval raw) VALID_INTERVALS
    /\ assoc (u "limit") (req_params r) = Some (JInt (klines_limit raw))
    /\ 1 <= klines_limit raw <= 1000
    /\ assoc (u "startTime") (req_params r)
       = match klines_start_time raw with
         | Some z => if z =? 0 then None else Some (JInt z)
         | None => None
         end
    /\ assoc (u "endTime") (req_params r)
       = match klines_end_time raw with
         | Some z => if z =? 0 then None else Some (JInt z)
         | None => None
         end.
Proof.
  intros H. apply invoke_returned in H as (p & Hp & _ & ->).
  unfold KlinesInput_validate in Hp. apply model_validate_ok in Hp as [-> Hc].
  revert Hc. forall_checks. intros (_ & Hi & Hl & _).
  rewrite klines_world, make_api_request_world. cbn [sent klines_symbol klines_interval
    klines_limit klines_start_time klines_end_time].
  eexists. split; [reflexivity|]. cbn [req_url req_params].
  split; [reflexivity|].
  destruct (klines_start_time raw) as [s|]; destruct (klines_end_time raw) as [e|];
    cbn [opt_int_param];
    try destruct (s =? 0); try destruct (e =? 0);
    repeat (split; [first [reflexivity | assumption]|]); reflexivity.
Qed.

(** *** Error taxonomy of the client *)

Lemma prefixb_app (sub x y : pystr) : prefixb sub x = true -> prefixb sub (x ++ y) = true.
Proof.
  revert x; induction sub as [|c sub IH]; intros [|d x]; simpl; try congruence.
  intros H. apply andb_true_iff in H as [-> H]. simpl. now apply IH.
Qed.

Lemma contains_app_l (sub x y : pystr) : contains sub x = true -> contains sub (x ++ y) = true.
Proof.
  induction x as [|d x IH]; simpl.
  - rewrite orb_false_r. intros H. destruct sub; [|discriminate].
    destruct y; reflexivity.
  - intros H. apply orb_true_iff in H as [H|H].
    + apply (prefixb_app sub (d :: x) y) in H. simpl in H. rewrite H. reflexivity.
    + rewrite (IH H). apply orb_true_r.
Qed.

Lemma contains_app_r (sub x y : pystr) : contains sub y = true -> contains sub (x ++ y) = true.
Proof.
  intros H. induction x as [|d x IH]; simpl; [exact H|].
  rewrite IH. apply orb_true_r.
Qed.

Lemma contains_refl (s : pystr) : contains s s = true.
Proof.
  assert (P : forall t : pystr, prefixb t t = true).
  { induction t as [|c t IH]; simpl; [reflexivity|]. now rewrite N.eqb_refl. }
  destruct s; simpl; [reflexivity|]. rewrite N.eqb_refl, P. reflexivity.
Qed.

(** [contains sub text] for a [sub] that is one of the pieces of [text]. *)
Ltac find_piece :=
  first [ apply contains_refl
        | apply contains_app_l; first [apply contains_refl | vm_compute; reflexivity]
        | apply contains_app_r; find_piece
        | vm_compute; reflexivity ].

(** A status other than 200 never yields data. *)
Lemma handle_response_data (status : Z) (body : result json) (data : json) :
  handle_response status body = Ok data <-> status = 200 /\ body = Ok data.
Proof.
  unfold handle_response. destruct (status =? 200) eqn:E200.
  - apply Z.eqb_eq in E200. split; [now intros -> | now intros [_ ->]].
  - apply Z.eqb_neq in E200. split; [|intros [? _]; contradiction].
    destruct (status =? 429).
    + intros H. do 2 inv_bind H. discriminate.
    + destruct ((400 <=? status) && (status <? 500)).
      * intros H. do 4 inv_bind H.
        destruct (contains _ _ || eq_int _ _); discriminate.
      * destruct (500 <=? status); discriminate.
Qed.

(** [contains piece text] for a [text] that is [pre ++ piece ++ post]. *)
Ltac has_piece pre post :=
  match goal with
  | |- contains ?piece ?text = true =>
      replace text with (pre ++ piece ++ post);
      [ apply contains_app_r, contains_app_l, contains_refl
      | repeat rewrite <- app_assoc; reflexivity ]
  end.

(** X6. The client returns data for status 200 only, and then exactly what
    the body decodes to; every other status ends in an exception.  From 500
    on, and below 400, the body is not even read: the message depends on the
    status alone, and names it. *)
Theorem X6_only_200_returns_data (status : Z) (body : result json) :
  (forall data, handle_response status body = Ok data <-> status = 200 /\ body = Ok data)
  /\ (500 <= status ->
      handle_response status body = Raise (Exception (server_error_message status))
      /\ contains (u "Please retry your request") (server_error_message status) = true
      /\ contains (of_Z status) (server_error_message status) = true)
  /\ (status < 400 -> status <> 200 ->
      handle_response status body
      = Raise (Exception (u "Unexpected HTTP status code: " ++ of_Z status))).
Proof.
  split; [intros data; apply handle_response_data|]. split.
  - intros H. unfold handle_response.
    replace (status =? 200) with false by (symmetry; apply Z.eqb_neq; lia).
    replace (status =? 429) with false by (symmetry; apply Z.eqb_neq; lia).
    replace (status <? 500) with false by (symmetry; apply Z.ltb_ge; lia).
    rewrite andb_false_r.
    replace (500 <=? status) with true by (symmetry; apply Z.leb_le; lia).
    split; [reflexivity|]. split; unfold server_error_message; find_piece.
  - intros H Hne. unfold handle_response.
    replace (status =? 200) with false by (symmetry; apply Z.eqb_neq; lia).
    replace (status =? 429) with false by (symmetry; apply Z.eqb_neq; lia).
    replace (400 <=? status) with false by (symmetry; apply Z.leb_gt; lia).
    cbn [andb].
    replace (500 <=? status) with false by (symmetry; apply Z.leb_gt; lia).
    reflexivity.
Qed.

(** X7. Status 429 is the rate limit, before any other 4xx: with a body that
    is a JSON object the client raises the rate-limit message, built on the
    [msg] of the body or on ["Unknown error"] when there is none; whatever
    that message, the text names the rate limit, tells to wait 60 seconds
    and to put several symbols in one request.  With a body that cannot be
    decoded, the decoding error is what the client raises. *)
Theorem X7_rate_limit (d : list (pystr * json)) (msg : json) (e : exn) :
  handle_response 429 (Ok (JDict d))
  = Raise (Exception (rate_limit_message
                        (match assoc (u "msg") d with
                         | Some m => m
                         | None => JStr (u "Unknown error")
                         end)))
  /\ contains (u "Rate limit") (rate_limit_message msg) = true
  /\ contains (u "Message: " ++ py_str msg) (rate_limit_message msg) = true
  /\ contains (u "Wait 60 seconds") (rate_limit_message msg) = true
  /\ contains (u "Use multiple symbols in one request") (rate_limit_message msg) = true
  /\ handle_response 429 (Raise e) = Raise e.
Proof.
  split; [reflexivity|]. unfold rate_limit_message.
  split; [find_piece|]. split.
  - has_piece (u "Rate limit exceeded (HTTP 429)" ++ nl ++ nl
                 ++ u "Binance rate limit: 6000 request weight per minute" ++ nl)
      (nl ++ nl ++ u "Action: Wait 60 seconds before making more requests." ++ nl
          ++ u "Tip: Use multiple symbols in one request instead of separate requests.").
  - split; [find_piece|]. split; [find_piece | reflexivity].
Qed.

Lemma handle_response_4xx (status : Z) (body : result json) :
  400 <= status < 500 -> status <> 429 ->
  handle_response status body
  = (error_data <- body ;;
     error_code <- py_get error_data (u "code") (JStr (u "Unknown")) ;;
     error_msg <- py_get error_data (u "msg") (JStr (u "Unknown error")) ;;
     lowered <- py_lower error_msg ;;
     if contains (u "symbol") lowered || eq_int error_code (-1121)
     then Raise (Exception (invalid_symbol_message error_msg))
     else Raise (Exception (api_error_message status error_code error_msg))).
Proof.
  intros H Hne. unfold handle_response.
  replace (status =? 200) with false by (symmetry; apply Z.eqb_neq; lia).
  replace (status =? 429) with false by (symmetry; apply Z.eqb_neq; lia).
  replace (400 <=? status) with true by (symmetry; apply Z.leb_le; lia).
  replace (status <? 500) with true by (symmetry; apply Z.ltb_lt; lia).
  reflexivity.
Qed.

(** X8. Any other status from 400 to 499, with a body that is a JSON object:
    when the code is -1121, or the message in lower case mentions [symbol],
    the client raises the invalid-symbol message, which names the
    symbol-search tool; otherwise it raises the API error with the status,
    the code and the message of the provider as they came.  A message that
    is not a string cannot be lowered: the client then fails with an
    attribute error instead of a classified one. *)
Theorem X8_client_errors (status : Z) (d : list (pystr * json)) :
  400 <= status < 500 -> status <> 429 ->
  let code := match assoc (u "code") d with Some c => c | None => JStr (u "Unknown") end in
  let msg := match assoc (u "msg") d with Some m => m | None => JStr (u "Unknown error") end in
  (forall text,
      msg = JStr text ->
      handle_response status (Ok (JDict d))
      = Raise (Exception
                 (if contains (u "symbol") (str_lower text) || eq_int code (-1121)
                  then invalid_symbol_message msg
                  else api_error_message status code msg)))
  /\ ((forall text, msg <> JStr text) ->
      handle_response status (Ok (JDict d)) = Raise (Builtin AttributeError))
  /\ contains (u "binance_search_symbols") (invalid_symbol_message msg) = true
  /\ contains (py_str msg) (invalid_symbol_message msg) = true
  /\ contains (u "HTTP " ++ of_Z status ++ u ", Code " ++ py_str code ++ u "): " ++ py_str msg)
       (api_error_message status code msg) = true.
Proof.
  intros H Hne code msg. rewrite (handle_response_4xx status _ H Hne).
  cbn [bind py_get]. fold code msg.
  split; [|split; [|split; [|split]]].
  - intros text E. rewrite E. cbn [py_lower bind].
    destruct (contains (u "symbol") (str_lower text) || eq_int code (-1121)); reflexivity.
  - intros Hns. destruct msg; try reflexivity. exfalso. now apply (Hns s).
  - unfold invalid_symbol_message. find_piece.
  - unfold invalid_symbol_message.
    has_piece (u "Invalid symbol error: ")
      (nl ++ nl
          ++ u "To find valid trading pairs, use the 'binance_search_symbols' tool:" ++ nl
          ++ u "- Search by base asset: binance_search_symbols(base_asset='BTC')" ++ nl
          ++ u "- Search by quote asset: binance_search_symbols(quote_asset='USDT')" ++ nl
          ++ u "- Search by keyword: binance_search_symbols(search_term='DOGE')").
  - unfold api_error_message.
    has_piece (u "API Error (")
      (nl ++ nl ++ u "Please check your parameters and try again.").
Qed.

Lemma make_api_request_answer (endpoint : pystr) (params : list (pystr * json))
    (w : world) (answer : http_outcome) :
  (forall r, provider w r = answer) ->
  fst (make_api_request endpoint params w) = answer_result answer.
Proof. intros H. unfold make_api_request. rewrite H. destruct answer; reflexivity. Qed.

Tactic Notation "tool_failure" reference(tool) reference(body) hyp(Hw) hyp(He) :=
  intros p; unfold tool, catch_all, body;
  match goal with
  | |- context [make_api_request ?ep ?ps ?w] =>
      pose proof (make_api_request_answer ep ps w _ Hw) as Hr;
      destruct (make_api_request ep ps w) as [response w'];
      cbn [fst] in Hr; rewrite Hr, He; reflexivity
  end.

(** X9. A failure of the client never leaves a tool, and each tool reports
    it under its own heading: whenever the answer of the provider makes the
    client raise (a timeout, a transport failure, a status other than 200, a
    body that cannot be decoded), each of the eight tools returns its prefix
    followed by the text of that exception, whatever its parameters and
    format. *)
Theorem X9_tools_report_client_failures (w : world) (answer : http_outcome) (e : exn) :
  (forall r, provider w r = answer) ->
  answer_result answer = Raise e ->
  (forall p, fst (binance_get_ticker p w) = u "Error fetching ticker data: " ++ str_exn e)
  /\ (forall p, fst (binance_search_symbols p w) = u "Error searching symbols: " ++ str_exn e)
  /\ (forall p, fst (binance_get_order_book p w)
                = u "Error fetching order book: " ++ str_exn e)
  /\ (forall p, fst (binance_get_klines p w) = u "Error fetching klines: " ++ str_exn e)
  /\ (forall p, fst (binance_get_recent_trades p w)
                = u "Error fetching recent trades: " ++ str_exn e)
  /\ (forall p, fst (binance_get_exchange_info p w)
                = u "Error fetching exchange info: " ++ str_exn e)
  /\ (forall p, fst (binance_get_price p w) = u "Error fetching prices: " ++ str_exn e)
  /\ (forall p, fst (binance_get_best_price p w)
                = u "Error fetching best prices: " ++ str_exn e).
Proof.
  intros Hw He.
  split; [tool_failure binance_get_ticker ticker_body Hw He|].
  split; [tool_failure binance_search_symbols search_body Hw He|].
  split; [tool_failure binance_get_order_book order_book_body Hw He|].
  split; [tool_failure binance_get_klines klines_body Hw He|].
  split; [tool_failure binance_get_recent_trades recent_trades_body Hw He|].
  split; [tool_failure binance_get_exchange_info exchange_info_body Hw He|].
  split; [tool_failure binance_get_price price_body Hw He|].
  tool_failure binance_get_best_price best_price_body Hw He.
Qed.

(** *** The requests of the exchange-information tools *)

(** X17. The symbol search sends none of its filters: it asks for the whole
    exchange information, without parameters, and filters the answer
    itself.  The exchange-information tool sends a [symbols] parameter
    exactly when a non-empty list was given, with the symbols upper-cased
    and stripped; an empty list is sent like an absent one.  The best-price
    tool asks the book ticker for the normalized symbols. *)
Theorem X17_exchange_information_requests (w w' : world) (text : pystr) :
  (forall raw,
      invoke_search_symbols raw w = (Returned text, w') ->
      sent w' = sent w ++ [Request (BINANCE_API_BASE ++ u "/api/v3/exchangeInfo") []])
  /\ (forall raw,
        invoke_get_exchange_info raw w = (Returned text, w') ->
        sent w' = sent w ++ [Request (BINANCE_API_BASE ++ u "/api/v3/exchangeInfo")
                               match info_symbols raw with
                               | Some (s :: l) =>
                                   [(u "symbols",
                                     JStr (symbols_param (normalize_symbols (s :: l))))]
                               | _ => []
                               end])
  /\ (forall raw,
        invoke_get_best_price raw w = (Returned text, w') ->
        1 <= len (price_symbols raw) <= 100
        /\ sent w' = sent w ++ [Request (BINANCE_API_BASE ++ u "/api/v3/ticker/bookTicker")
                                 [(u "symbols",
                                   JStr (symbols_param
                                           (normalize_symbols (price_symbols raw))))]]).
Proof.
  split; [|split]; intros raw H;
    apply invoke_returned in H as (p & Hp & _ & ->).
  - rewrite search_world, make_api_request_world. reflexivity.
  - unfold ExchangeInfoInput_validate in Hp. apply model_validate_ok in Hp as [-> _].
    rewrite exchange_info_world, make_api_request_world. cbn [info_symbols sent].
    destruct (info_symbols raw) as [[|s l]|]; reflexivity.
  - unfold PriceInput_validate in Hp. apply model_validate_ok in Hp as [-> Hc].
    revert Hc. forall_checks. intros (_ & Hl & _).
    split; [exact Hl|]. rewrite best_price_world, make_api_request_world. reflexivity.
Qed.

(** *** The encoding of a list of symbols *)

Lemma join_cons (sep p : pystr) (rest : list pystr) :
  join sep (p :: rest)
  = p ++ match rest with [] => [] | _ :: _ => sep ++ join sep rest end.
Proof. destruct rest; [symmetry; apply app_nil_r | reflexivity]. Qed.

Lemma split_at_quote (p p' x x' : pystr) :
  quote_free p -> quote_free p' ->
  (x = [] \/ exists y, x = 34%N :: y) -> (x' = [] \/ exists y, x' = 34%N :: y) ->
  p ++ x = p' ++ x' -> p = p' /\ x = x'.
Proof.
  revert p'. induction p as [|c p IH]; intros [|c' p'] Hp Hp' Hx Hx' H; cbn [app] in H.
  - now split.
  - exfalso. destruct Hx as [->|[y ->]]; [discriminate|].
    injection H as <- _. apply Hp'. now left.
  - exfalso. destruct Hx' as [->|[y ->]]; [discriminate|].
    injection H as -> _. apply Hp. now left.
  - injection H as -> H.
    destruct (IH p') as [-> ->]; try assumption; [| |now split].
    + intros Hin. apply Hp. now right.
    + intros Hin. apply Hp'. now right.
Qed.

Lemma join_quote_inj (l l' : list pystr) :
  l <> [] -> l' <> [] -> Forall quote_free l -> Forall quote_free l' ->
  join [34%N; 44%N; 34%N] l = join [34%N; 44%N; 34%N] l' -> l = l'.
Proof.
  revert l'. induction l as [|p l IH]; intros [|p' l'] Hl Hl' Hq Hq' H;
    try contradiction.
  rewrite !join_cons in H.
  inversion Hq as [|? ? Hp Hrest]; subst. inversion Hq' as [|? ? Hp' Hrest']; subst.
  apply split_at_quote in H as [-> Ht]; try assumption.
  - destruct l as [|q l], l' as [|q' l']; try discriminate; [reflexivity|].
    apply app_inv_head in Ht. f_equal. apply IH; try assumption; discriminate.
  - destruct l; [now left | right; eexists; reflexivity].
  - destruct l'; [now left | right; eexists; reflexivity].
Qed.

(** X18. The [symbols] parameter is built by hand, the symbols between
    double quotes and commas, without escaping.  Two non-empty lists of
    symbols that contain no double quote are sent alike only when they are
    the same list; a symbol with a double quote in it can be sent like two
    symbols, and the empty list like the list of one empty symbol. *)
Theorem X18_symbols_parameter :
  (forall l l' : list pystr,
      l <> [] -> l' <> [] -> Forall quote_free l -> Forall quote_free l' ->
      symbols_param l = symbols_param l' -> l = l')
  /\ symbols_param [[65; 34; 44; 34; 66]%N] = symbols_param [[65%N]; [66%N]]
  /\ symbols_param [] = symbols_param [[]].
Proof.
  split; [|split; reflexivity].
  intros l l' Hl Hl' Hq Hq' H. unfold symbols_param in H.
  apply app_inv_head in H. apply app_inv_head in H. apply app_inv_tail in H.
  now apply join_quote_inj.
Qed.

(** *** Answers in JSON *)

Lemma ensure_list_items (data : json) : exists items, ensure_list data = JList items.
Proof. unfold ensure_list. destruct data; cbn [is_list negb]; eauto. Qed.

Tactic Notation "tool_json" reference(tool) reference(body) hyp(Hw) hyp(Hd) hyp(Hf) :=
  unfold tool, catch_all, body;
  match goal with
  | |- context [make_api_request ?ep ?ps ?w] =>
      pose proof (make_api_request_answer ep ps w _ Hw) as Hr;
      destruct (make_api_request ep ps w) as [response w'];
      cbn [fst] in Hr; rewrite Hr, Hd; unfold is_json; rewrite Hf, pystr_eqb_refl;
      cbn [bind fst snd]
  end.

(** X19. In the json format the tools hand over what the provider answered,
    without reading the records: for any answer with status 200, whatever
    its shape, the order-book tool returns the dump of the answer, and the
    ticker, price and best-price tools the dump of the answer as a list (a
    single object wrapped) with the number of its entries; none of them can
    return an error text.  The trades tool does the same whenever the
    answer has a length. *)
Theorem X19_json_answers (w : world) (answer : http_outcome) (data : json) :
  (forall r, provider w r = answer) ->
  answer_result answer = Ok data ->
  (forall p, book_response_format p = u "json" ->
             fst (binance_get_order_book p w) = json_dumps data)
  /\ (forall p, ticker_response_format p = u "json" ->
        exists items,
          ensure_list data = JList items
          /\ fst (binance_get_ticker p w)
             = json_dumps (JDict [(u "data", JList items); (u "count", JInt (len items));
                                  (u "type", JStr (ticker_type p))]))
  /\ (forall p, price_response_format p = u "json" ->
        exists items,
          ensure_list data = JList items
          /\ fst (binance_get_price p w)
             = json_dumps (JDict [(u "prices", JList items); (u "count", JInt (len items))])
          /\ fst (binance_get_best_price p w)
             = json_dumps (JDict [(u "tickers", JList items); (u "count", JInt (len items))]))
  /\ (forall p n, trades_response_format p = u "json" -> py_len data = Ok n ->
        fst (binance_get_recent_trades p w)
        = json_dumps (JDict [(u "symbol", JStr (trades_symbol p)); (u "trades", data);
                             (u "count", JInt n)])).
Proof.
  intros Hw Hd. split; [|split; [|split]].
  - intros p Hf. tool_json binance_get_order_book order_book_body Hw Hd Hf. reflexivity.
  - intros p Hf. destruct (ensure_list_items data) as [items E]. exists items.
    split; [exact E|].
    tool_json binance_get_ticker ticker_body Hw Hd Hf. rewrite E. reflexivity.
  - intros p Hf. destruct (ensure_list_items data) as [items E]. exists items.
    split; [exact E|]. split.
    + tool_json binance_get_price price_body Hw Hd Hf. rewrite E. reflexivity.
    + tool_json binance_get_best_price best_price_body Hw Hd Hf. rewrite E. reflexivity.
  - intros p n Hf Hn.
    tool_json binance_get_recent_trades recent_trades_body Hw Hd Hf. rewrite Hn. reflexivity.
Qed.

End Client.

Section Rendering.

Context {RT : PyRuntime}.

(** *** Interval validation *)

(** X10. [validate_interval] accepts a string exactly when it is one of the
    sixteen intervals, compared as written (["1m"] is a minute, ["1M"] a
    month, ["1H"] nothing).  Any other string raises a [ValueError] whose
    message quotes the string and lists all sixteen, the input model is not
    built and no request is sent. *)
Theorem X10_interval_validation (v : pystr) :
  (validate_interval v = Ok v <-> In v VALID_INTERVALS)
  /\ (~ In v VALID_INTERVALS ->
      let message :=
        u "Invalid interval '" ++ v
          ++ u "'. Valid intervals: 1s, 1m, 3m, 5m, 15m, 30m, 1h, 2h, 4h, 6h, 8h, 12h, 1d, 3d, 1w, 1M" in
      validate_interval v = Raise (ValueError message)
      /\ forall (raw : KlinesInput) (w : world),
           klines_interval raw = v ->
           exists errors,
             invoke_get_klines raw w = (Raised (ValidationError errors), w)
             /\ In (u "interval", ValidatorRaised message) errors).
Proof.
  split.
  - unfold validate_interval. rewrite <- str_in_In.
    destruct (str_in v VALID_INTERVALS); simpl; split; congruence.
  - intros Hnot message.
    assert (E : str_in v VALID_INTERVALS = false).
    { destruct (str_in v VALID_INTERVALS) eqn:E; [|reflexivity].
      exfalso. apply Hnot. now apply str_in_In. }
    assert (Hv : validate_interval v = Raise (ValueError message)).
    { unfold validate_interval. rewrite E. reflexivity. }
    split; [exact Hv|].
    intros raw w Hraw.
    unfold invoke_get_klines, invoke, KlinesInput_validate, model_validate.
    rewrite Hraw, Hv. cbn [check_validator str_exn flat_map app].
    destruct (check_literal formats (klines_response_format raw)) as [fe|];
      destruct (check_range 1 1000 (klines_limit raw)) as [fr|]; cbn [app];
      eexists; (split; [reflexivity|]); simpl; tauto.
Qed.

(** *** What the renderers never do *)

Lemma nde_ok {A} (a : A) : no_division_error (Ok a).
Proof. discriminate. Qed.

Lemma nde_bind {A B} (m : result A) (k : A -> result B) :
  no_division_error m -> (forall a, m = Ok a -> no_division_error (k a)) ->
  no_division_error (bind m k).
Proof.
  unfold no_division_error. intros Hm Hk H.
  apply bind_raise in H as [H|(a & Ha & H)]; [now apply Hm | now apply (Hk a)].
Qed.

Lemma nde_mapM {A B} (f : A -> result B) (xs : list A) :
  (forall x, no_division_error (f x)) -> no_division_error (mapM f xs).
Proof.
  intros Hf. induction xs as [|x xs IH]; simpl; [apply nde_ok|].
  apply nde_bind; [apply Hf|]. intros y _.
  apply nde_bind; [apply IH|]. intros ys _. apply nde_ok.
Qed.

Lemma nde_py_get (x : json) (k : pystr) (d : json) : no_division_error (py_get x k d).
Proof. destruct x; discriminate. Qed.

Lemma nde_py_float (x : json) : no_division_error (py_float x).
Proof. intros H. now apply py_float_no_division_error in H. Qed.

Lemma nde_py_index (x : json) (i : nat) : no_division_error (py_index x i).
Proof. intros H. now apply py_index_raise in H. Qed.

Lemma nde_py_len (x : json) : no_division_error (py_len x).
Proof. destruct x; discriminate. Qed.

Lemma nde_py_iter (x : json) : no_division_error (py_iter x).
Proof. destruct x; discriminate. Qed.

Lemma nde_py_slice_to (n : nat) (x : json) : no_division_error (py_slice_to n x).
Proof. destruct x; discriminate. Qed.

Lemma nde_py_remove (old : pystr) (x : json) : no_division_error (py_remove old x).
Proof. destruct x; discriminate. Qed.

Lemma nde_py_contains_key (k : pystr) (x : json) : no_division_error (py_contains_key k x).
Proof. destruct x; discriminate. Qed.

Lemma nde_py_getitem_key (x : json) (k : pystr) : no_division_error (py_getitem_key x k).
Proof. destruct x; try discriminate. simpl. destruct (assoc k d); discriminate. Qed.

Lemma nde_format_timestamp (x : json) : no_division_error (format_timestamp x).
Proof.
  unfold format_timestamp. apply nde_bind.
  - destruct x; cbn [py_div_1000]; try discriminate;
      try (rewrite py_truediv_nonzero by reflexivity; apply nde_ok).
    apply nde_bind; [intros H; apply float_of_Z_raise in H; discriminate|].
    intros f _. rewrite py_truediv_nonzero by reflexivity. apply nde_ok.
  - intros seconds _. destruct (strftime_local seconds); discriminate.
Qed.

Lemma nde_percent_change (a b : float) : no_division_error (percent_change a b).
Proof. rewrite percent_change_total. apply nde_ok. Qed.

Lemma nde_dollars_or_na (label : pystr) (x : json) : no_division_error (dollars_or_na label x).
Proof.
  unfold dollars_or_na. destruct (negb _); [|apply nde_ok].
  apply nde_bind; [apply nde_py_float|]. intros; apply nde_ok.
Qed.

Create HintDb nde.
#[local] Hint Resolve nde_ok nde_py_get nde_py_float nde_py_index nde_py_len nde_py_iter
  nde_py_slice_to nde_py_remove nde_py_contains_key nde_py_getitem_key
  nde_format_timestamp nde_percent_change nde_dollars_or_na : nde.

(** Goes through a body bind by bind. *)
Ltac nde_steps :=
  first
    [ solve [auto with nde]
    | progress cbv zeta; nde_steps
    | apply nde_bind; [nde_steps | intros ? ?; nde_steps]
    | match goal with
      | |- no_division_error (if ?c then _ else _) => destruct c; nde_steps
      | |- no_division_error (match ?x with _ => _ end) => destruct x; nde_steps
      end ].

Lemma nde_ticker_lines (ticker_type : pystr) (ticker : json) :
  no_division_error (ticker_lines ticker_type ticker).
Proof. unfold ticker_lines, ticker_full_lines. nde_steps. Qed.

Lemma nde_symbol_lines (sym : json) : no_division_error (symbol_lines sym).
Proof. unfold symbol_lines. nde_steps. Qed.

Lemma nde_kline_row (kline : json) : no_division_error (kline_row kline).
Proof. unfold kline_row. nde_steps. Qed.

Lemma nde_trade_row (trade : json) : no_division_error (trade_row trade).
Proof. unfold trade_row. nde_steps. Qed.

Lemma nde_price_line (price_data : json) : no_division_error (price_line price_data).
Proof. unfold price_line. nde_steps. Qed.

Lemma nde_volume_terms (maker : bool) (trades : list json) :
  no_division_error (volume_terms maker trades).
Proof.
  induction trades as [|t trades IH]; cbn [volume_terms]; [apply nde_ok|].
  apply nde_bind; [auto with nde|]. intros m _.
  destruct (Bool.eqb (truthy m) maker); [|exact IH].
  nde_steps.
Qed.

Lemma nde_best_price_values (ticker : json) : no_division_error (best_price_values ticker).
Proof.
  unfold best_price_values.
  do 8 (apply nde_bind; [solve [auto with nde]|intros ? ?]).
  cbv zeta. apply nde_bind; [|intros; apply nde_ok].
  match goal with
  | |- no_division_error (if flt fzero ?b then _ else _) => destruct (flt fzero b) eqn:E
  end; [|apply nde_ok].
  rewrite py_truediv_nonzero by now apply positive_nonzero. apply nde_ok.
Qed.

Lemma nde_best_price_lines (ticker : json) : no_division_error (best_price_lines ticker).
Proof.
  unfold best_price_lines.
  apply nde_bind; [auto with nde|]. intros symbol _.
  apply nde_bind; [apply nde_best_price_values|]. intros; apply nde_ok.
Qed.

Lemma nde_trades_summary_lines (trades : json) :
  no_division_error (trades_summary_lines trades).
Proof.
  unfold trades_summary_lines.
  apply nde_bind; [auto with nde|]. intros items _.
  apply nde_bind; [apply nde_volume_terms|]. intros buys _.
  apply nde_bind; [apply nde_volume_terms|]. intros sells _.
  apply nde_bind; [auto with nde|]. intros n _.
  match goal with
  | |- context [flt fzero ?t] => destruct (flt fzero t) eqn:E
  end.
  - rewrite !py_truediv_nonzero by now apply positive_nonzero. cbn [bind]. apply nde_ok.
  - cbn [bind]. apply nde_ok.
Qed.

(** X11. Of all the markdown renderers only the order book can stop on a
    division by zero: the ticker, symbol, candle, trade, price and best-price
    renderings never raise a division error, whatever the provider sent;
    every division they make is guarded or has a constant divisor. *)
Theorem X11_no_division_error :
  (forall tickers ticker_type,
      no_division_error (format_ticker_markdown tickers ticker_type))
  /\ (forall symbols, no_division_error (format_symbols_markdown symbols))
  /\ (forall klines symbol interval,
        no_division_error (format_klines_markdown klines symbol interval))
  /\ (forall trades symbol, no_division_error (format_trades_markdown trades symbol))
  /\ (forall prices, no_division_error (format_price_markdown prices))
  /\ (forall data, no_division_error (best_price_markdown data)).
Proof.
  split; [|split; [|split; [|split; [|split]]]].
  - intros tickers ticker_type. unfold format_ticker_markdown.
    destruct (negb (truthy tickers)); [apply nde_ok|].
    apply nde_bind; [auto with nde|]. intros items _.
    apply nde_bind; [apply nde_mapM, nde_ticker_lines|]. intros; apply nde_ok.
  - intros symbols. unfold format_symbols_markdown.
    destruct (negb (truthy symbols)); [apply nde_ok|].
    apply nde_bind; [auto with nde|]. intros n _.
    apply nde_bind; [auto with nde|]. intros items _.
    apply nde_bind; [apply nde_mapM, nde_symbol_lines|]. intros; apply nde_ok.
  - intros klines symbol interval. unfold format_klines_markdown.
    destruct (negb (truthy klines)); [apply nde_ok|].
    apply nde_bind; [|intros; apply nde_ok].
    unfold klines_lines, kline_rows.
    apply nde_bind.
    { apply nde_bind; [auto with nde|]. intros shown _.
      apply nde_bind; [auto with nde|]. intros items _. apply nde_mapM, nde_kline_row. }
    intros rows _. apply nde_bind; [auto with nde|]. intros n _.
    apply nde_bind; [|intros; apply nde_ok].
    destruct (n >? 0); [|apply nde_ok].
    apply nde_bind; [apply klines_summary_no_division_error|]. intros; apply nde_ok.
  - intros trades symbol. unfold format_trades_markdown.
    destruct (negb (truthy trades)); [apply nde_ok|].
    apply nde_bind; [|intros; apply nde_ok].
    unfold trades_lines, trade_rows.
    apply nde_bind.
    { apply nde_bind; [auto with nde|]. intros shown _.
      apply nde_bind; [auto with nde|]. intros items _. apply nde_mapM, nde_trade_row. }
    intros rows _. apply nde_bind; [apply nde_trades_summary_lines|]. intros ls _.
    apply nde_bind; [auto with nde|]. intros; apply nde_ok.
  - intros prices. unfold format_price_markdown.
    destruct (negb (truthy prices)); [apply nde_ok|].
    apply nde_bind; [auto with nde|]. intros items _.
    apply nde_bind; [apply nde_mapM, nde_price_line|]. intros; apply nde_ok.
  - intros data. unfold best_price_markdown.
    apply nde_bind; [auto with nde|]. intros items _.
    apply nde_bind; [apply nde_mapM, nde_best_price_lines|]. intros; apply nde_ok.
Qed.

(** *** Trades *)

Lemma volume_terms_partition (trades : list json) (buys sells : list float) :
  volume_terms false trades = Ok buys -> volume_terms true trades = Ok sells ->
  (length buys + length sells = length trades)%nat.
Proof.
  revert buys sells. induction trades as [|t trades IH]; cbn [volume_terms]; intros buys sells Hb Hs.
  - injection Hb as <-. injection Hs as <-. reflexivity.
  - inv_bind Hb. inv_bind Hs. assert (a0 = a) by congruence. subst a0.
    destruct (truthy a); cbn [Bool.eqb] in Hb, Hs.
    + do 3 inv_bind Hs. injection Hs as <-.
      match goal with
      | Hrest : volume_terms true trades = Ok ?vs |- _ =>
          specialize (IH buys vs Hb Hrest); simpl; lia
      end.
    + do 3 inv_bind Hb. injection Hb as <-.
      match goal with
      | Hrest : volume_terms false trades = Ok ?vs |- _ =>
          specialize (IH vs sells Hrest Hs); simpl; lia
      end.
Qed.

(** The side a trade is summed on reads its quantity without a default. *)
Lemma volume_terms_reads_qty (maker : bool) (trades : list json) (vs : list float)
    (d : list (pystr * json)) :
  volume_terms maker trades = Ok vs ->
  In (JDict d) trades ->
  truthy (match assoc (u "isBuyerMaker") d with Some m => m | None => JBool false end)
  = maker ->
  assoc (u "qty") d <> None.
Proof.
  revert vs. induction trades as [|t trades IH]; cbn [volume_terms]; intros vs H Hin Hm.
  - destruct Hin.
  - inv_bind H. destruct Hin as [->|Hin].
    + cbn [py_get] in Ha. injection Ha as Ea.
      assert (Et : truthy a = maker) by (subst a; exact Hm).
      rewrite Et, Bool.eqb_reflx in H. inv_bind H.
      cbn [py_getitem_key] in Ha. destruct (assoc (u "qty") d); [discriminate | discriminate].
    + destruct (Bool.eqb (truthy a) maker).
      * do 3 inv_bind H. eapply IH; eassumption.
      * eapply IH; eassumption.
Qed.

Lemma volume_terms_filter (maker : bool) (ds : list (list (pystr * json))) :
  volume_terms maker (map JDict ds)
  = mapM trade_quantity (filter (fun d => Bool.eqb (buyer_is_maker d) maker) ds).
Proof.
  induction ds as [|d ds IH]; [reflexivity|].
  cbn [map volume_terms py_get bind filter].
  change (truthy match assoc (u "isBuyerMaker") d with
                 | Some m => m
                 | None => JBool false
                 end) with (buyer_is_maker d).
  destruct (Bool.eqb (buyer_is_maker d) maker); [|exact IH].
  cbn [mapM]. rewrite <- IH. unfold trade_quantity.
  destruct (py_getitem_key (JDict d) (u "qty")) as [q|e]; cbn [bind]; [|reflexivity].
  destruct (py_float q); reflexivity.
Qed.

Lemma filter_buyers (ds : list (list (pystr * json))) :
  filter (fun d => Bool.eqb (buyer_is_maker d) false) ds
  = filter (fun d => negb (buyer_is_maker d)) ds.
Proof. apply filter_ext. intros d. now destruct (buyer_is_maker d). Qed.

Lemma filter_sellers (ds : list (list (pystr * json))) :
  filter (fun d => Bool.eqb (buyer_is_maker d) true) ds = filter buyer_is_maker ds.
Proof. apply filter_ext. intros d. now destruct (buyer_is_maker d). Qed.

(** X12. The trading summary goes through every trade returned, not only
    the 50 shown.  The buy volume is the sum of the quantities of the trades
    whose [isBuyerMaker] is false or absent, the sell volume that of the
    trades whose [isBuyerMaker] is true, each in the order of the answer,
    and the two lines of the summary show these sums and their shares of the
    total, or 0 when the total is not above zero.  Each trade is counted on
    exactly one side.  The quantity is read without a default: one trade
    object without [qty], anywhere in the answer, makes the whole rendering
    fail. *)
Theorem X12_trading_summary_reads_every_trade (trades : list json) :
  (forall (ds : list (list (pystr * json))) (lines : list pystr),
      trades = map JDict ds ->
      trades_summary_lines (JList trades) = Ok lines ->
      exists buys sells,
        mapM trade_quantity (filter (fun d => negb (buyer_is_maker d)) ds) = Ok buys
        /\ mapM trade_quantity (filter buyer_is_maker ds) = Ok sells
        /\ let total := fadd (float_sum buys) (float_sum sells) in
           if flt fzero total then
             exists buy_share sell_share,
               py_truediv (float_sum buys) total = Ok buy_share
               /\ py_truediv (float_sum sells) total = Ok sell_share
               /\ lines
                  = [nl ++ u "## Trading Summary";
                     u "- **Total Trades**: " ++ of_Z (len ds);
                     u "- **Buy Volume**: " ++ fmt false true 6 (float_sum buys)
                       ++ u " (" ++ fmt false false 1 (fmul buy_share f100) ++ u "%)";
                     u "- **Sell Volume**: " ++ fmt false true 6 (float_sum sells)
                       ++ u " (" ++ fmt false false 1 (fmul sell_share f100) ++ u "%)"]
           else
             lines = [nl ++ u "## Trading Summary";
                      u "- **Total Trades**: " ++ of_Z (len ds);
                      u "- **Buy Volume**: 0"; u "- **Sell Volume**: 0"])
  /\ (forall buys sells,
        volume_terms false trades = Ok buys -> volume_terms true trades = Ok sells ->
        (length buys + length sells = length trades)%nat)
  /\ (forall (d : list (pystr * json)) (symbol : pystr),
        In (JDict d) trades -> assoc (u "qty") d = None ->
        exists e, format_trades_markdown (JList trades) symbol = Raise e).
Proof.
  split; [|split; [apply volume_terms_partition|]].
  { intros ds lines -> H. unfold trades_summary_lines in H.
    cbn [py_iter py_len bind] in H.
    rewrite !volume_terms_filter, filter_buyers, filter_sellers in H.
    inv_bind H. rename a into buys. inv_bind H. rename a into sells.
    exists buys, sells. split; [assumption|]. split; [assumption|].
    cbv zeta in H |- *.
    replace (len (map JDict ds)) with (len ds) in H
      by (unfold len; now rewrite length_map).
    destruct (flt fzero (fadd (float_sum buys) (float_sum sells))).
    - do 2 inv_bind H. rename a into l_buy. rename a0 into l_sell.
      match goal with
      | Hb : bind (py_truediv (float_sum buys) _) _ = Ok l_buy,
        Hs : bind (py_truediv (float_sum sells) _) _ = Ok l_sell |- _ =>
          inv_bind Hb; inv_bind Hs; injection Hb as <-; injection Hs as <-
      end.
      injection H as <-. eauto.
    - cbn [bind] in H. now injection H as <-. }
  intros d symbol Hin Hnone.
  destruct (format_trades_markdown (JList trades) symbol) as [text|e] eqn:E; [|eauto].
  exfalso. unfold format_trades_markdown in E.
  destruct trades as [|t trades]; [destruct Hin|]. cbn [truthy negb] in E.
  inv_bind E. clear E. unfold trades_lines in Ha.
  inv_bind Ha. inv_bind Ha. clear Ha. unfold trades_summary_lines in Ha1.
  cbn [py_iter bind] in Ha1. inv_bind Ha1. inv_bind Ha1. clear Ha1.
  set (maker := truthy (match assoc (u "isBuyerMaker") d with
                        | Some m => m
                        | None => JBool false
                        end)).
  destruct maker eqn:Em.
  - match goal with
    | Hv : volume_terms true (t :: trades) = Ok ?vs |- _ =>
        now apply (volume_terms_reads_qty true (t :: trades) vs d Hv Hin Em)
    end.
  - match goal with
    | Hv : volume_terms false (t :: trades) = Ok ?vs |- _ =>
        now apply (volume_terms_reads_qty false (t :: trades) vs d Hv Hin Em)
    end.
Qed.

(** *** Candles as JSON *)

(** X13. The json branch of the candle tool reads eleven entries of each
    row: a row with at least eleven builds the object of the eleven named
    fields, in the order of the row, and anything after the eleventh entry
    is dropped; a row with fewer fails with an index error, although the
    markdown table needs only the first six. *)
Theorem X13_kline_dict_needs_eleven (r : list json) :
  ((11 <= length r)%nat ->
   kline_dict (JList r)
   = Ok (JDict [(u "openTime", nth 0 r JNull); (u "open", nth 1 r JNull);
                (u "high", nth 2 r JNull); (u "low", nth 3 r JNull);
                (u "close", nth 4 r JNull); (u "volume", nth 5 r JNull);
                (u "closeTime", nth 6 r JNull); (u "quoteVolume", nth 7 r JNull);
                (u "trades", nth 8 r JNull); (u "takerBuyBaseVolume", nth 9 r JNull);
                (u "takerBuyQuoteVolume", nth 10 r JNull)]))
  /\ ((length r < 11)%nat -> kline_dict (JList r) = Raise (Builtin IndexError)).
Proof.
  split; intros H;
    do 11 (destruct r as [|? r]; [simpl in H; first [lia | reflexivity]|]);
    first [reflexivity | simpl in H; lia].
Qed.

(** *** The filters of the symbol search *)

Lemma eq_str_get (d : list (pystr * json)) (key x : pystr) :
  eq_str (match assoc key d with Some v => v | None => JNull end) x = true
  <-> assoc key d = Some (JStr x).
Proof.
  destruct (assoc key d) as [[| | | |s| |]|]; cbn [eq_str]; split; intros H;
    try discriminate.
  - apply pystr_eqb_eq in H. now subst.
  - injection H as ->. apply pystr_eqb_refl.
Qed.

(** One filter of the loop: [if c and sym.get(key) != x: continue]. *)
Lemma filter_stage (c : bool) (v : json) (x : pystr) (k : result bool) :
  (skip <- (if c then s <- Ok v ;; Ok (negb (eq_str s x)) else Ok false) ;;
   if skip then Ok false else k) = Ok true
  <-> (c = true -> eq_str v x = true) /\ k = Ok true.
Proof.
  destruct c; cbn [bind]; [destruct (eq_str v x); cbn [negb]|]; split.
  - intros H. split; [reflexivity | exact H].
  - intros [_ H]. exact H.
  - discriminate.
  - intros [H _]. discriminate (H eq_refl).
  - intros H. split; [discriminate | exact H].
  - intros [_ H]. exact H.
Qed.

Lemma opt_set_spec (v : option pystr) :
  opt_set v = true <-> exists s, v = Some s /\ s <> [].
Proof.
  destruct v as [[|c s]|]; cbn [opt_set]; split; try discriminate.
  - intros (s & E & Hs). injection E as <-. now destruct Hs.
  - intros _. eexists. split; [reflexivity | discriminate].
  - reflexivity.
  - intros (s & E & _). discriminate.
Qed.

Lemma symbol_matches_dict (params : SearchSymbolsInput) (d : list (pystr * json)) :
  symbol_matches params (JDict d) = Ok true <-> passes_filters params d.
Proof.
  unfold symbol_matches, passes_filters. cbn [py_get].
  rewrite filter_stage, filter_stage, filter_stage.
  rewrite !eq_str_get.
  assert (Hterm :
    match search_term params with
    | Some (c :: term) =>
        symbol_name <- Ok (match assoc (u "symbol") d with
                           | Some v => v
                           | None => JStr []
                           end) ;;
        found <- py_contains_key (c :: term) symbol_name ;; Ok found
    | _ => Ok true
    end = Ok true
    <-> (forall t, search_term params = Some t -> t <> [] ->
                   py_contains_key t (match assoc (u "symbol") d with
                                      | Some name => name
                                      | None => JStr []
                                      end) = Ok true)).
  { destruct (search_term params) as [[|c term]|]; cbn [bind].
    - split; [|reflexivity]. intros _ t E Ht. injection E as <-. now destruct Ht.
    - split.
      + intros H t E _. injection E as <-.
        destruct (py_contains_key _ _) as [[|]|]; cbn [bind] in H; congruence.
      + intros H. rewrite (H _ eq_refl) by discriminate. reflexivity.
    - split; [|reflexivity]. intros _ t E. discriminate. }
  rewrite Hterm. clear Hterm.
  assert (Hopt : forall (v : option pystr) (key : pystr),
    (opt_set v = true ->
     assoc key d = Some (JStr (match v with Some s => s | None => [] end)))
    <-> (forall b, v = Some b -> b <> [] -> assoc key d = Some (JStr b))).
  { intros v key. rewrite opt_set_spec. split.
    - intros H b -> Hb. apply H. eauto.
    - intros H (s & -> & Hs). now apply H. }
  rewrite !Hopt. rewrite pystr_eqb_eq. tauto.
Qed.

Lemma filter_symbols_filter (params : SearchSymbolsInput) (items kept : list json) :
  filter_symbols params items = Ok kept -> kept = filter (kept_by params) items.
Proof.
  revert kept. induction items as [|sym items IH]; cbn [filter_symbols filter]; intros kept H.
  - now injection H as <-.
  - do 2 inv_bind H. injection H as <-. unfold kept_by.
    match goal with Hs : symbol_matches params sym = Ok _ |- _ => rewrite Hs end.
    match goal with Hr : filter_symbols params items = Ok ?l |- _ => rewrite (IH l Hr) end.
    now destruct a.
Qed.

Lemma symbol_matches_returns (params : SearchSymbolsInput) (d : list (pystr * json)) :
  (forall v, assoc (u "symbol") d = Some v -> exists name, v = JStr name) ->
  exists keep, symbol_matches params (JDict d) = Ok keep.
Proof.
  intros Hname. unfold symbol_matches. cbn [py_get].
  destruct (PyStr.eqb _ _); cbn [bind];
    [destruct (negb (eq_str _ (u "TRADING"))); [eauto|]|];
    (destruct (opt_set (search_base_asset params)); cbn [bind];
     [destruct (negb (eq_str _ _)); [eauto|]|]);
    (destruct (opt_set (search_quote_asset params)); cbn [bind];
     [destruct (negb (eq_str _ _)); [eauto|]|]);
    (destruct (search_term params) as [[|c term]|]; [eauto| |eauto];
     cbn [bind];
     destruct (assoc (u "symbol") d) as [v|];
     [destruct (Hname v eq_refl) as [name ->]|]; cbn [py_contains_key bind]; eauto).
Qed.

(** X14. The search keeps exactly the symbols that pass every filter that
    is set, in the order of the exchange information: what the loop appends
    is the [filter] of the provider's list, and a symbol object is kept if
    and only if its status is TRADING when the status filter is TRADING, its
    [baseAsset] and [quoteAsset] are the non-empty filters given, and the
    non-empty search term occurs in its [symbol] (an absent one counting as
    the empty string).  A filter that is the empty string filters nothing.
    The loop finishes whenever every entry is an object whose [symbol], if
    present, is a string. *)
Theorem X14_search_keeps_what_passes (params : SearchSymbolsInput) (items : list json) :
  (forall kept, filter_symbols params items = Ok kept ->
                kept = filter (kept_by params) items)
  /\ (forall d, kept_by params (JDict d) = true <-> passes_filters params d)
  /\ ((forall sym, In sym items ->
         exists d, sym = JDict d
                   /\ forall v, assoc (u "symbol") d = Some v -> exists name, v = JStr name) ->
      exists kept, filter_symbols params items = Ok kept).
Proof.
  split; [|split].
  - intros kept. apply filter_symbols_filter.
  - intros d. rewrite <- symbol_matches_dict. unfold kept_by.
    destruct (symbol_matches params (JDict d)) as [[|]|]; split; congruence.
  - induction items as [|sym items IH]; intros Hall; cbn [filter_symbols]; [eauto|].
    destruct (Hall sym (or_introl eq_refl)) as (d & -> & Hname).
    destruct (symbol_matches_returns params d Hname) as [keep ->].
    destruct IH as [kept ->]; [intros s Hs; apply Hall; now right|].
    cbn [bind]. eauto.
Qed.

(** *** Halving in the tools *)

Lemma mapM_firstn {A B} (f : A -> result B) (xs : list A) (ys : list B) (k : nat) :
  mapM f xs = Ok ys -> mapM f (firstn k xs) = Ok (firstn k ys).
Proof.
  revert ys k. induction xs as [|x xs IH]; cbn [mapM]; intros ys k H.
  - injection H as <-. now destruct k.
  - do 2 inv_bind H. injection H as <-. destruct k as [|k]; [reflexivity|].
    cbn [firstn mapM]. rewrite Ha. cbn [bind]. rewrite (IH _ k Ha0). reflexivity.
Qed.

Lemma join_prefix (sep : pystr) (a b : list pystr) :
  exists rest, join sep (a ++ b) = join sep a ++ rest.
Proof.
  induction a as [|p a IH].
  - exists (join sep b). reflexivity.
  - destruct a as [|q a].
    + destruct b as [|r b]; cbn [app join].
      * exists []. now rewrite app_nil_r.
      * eexists. reflexivity.
    + destruct IH as [rest IH]. exists rest.
      change (join sep ((p :: q :: a) ++ b)) with (p ++ sep ++ join sep ((q :: a) ++ b)).
      rewrite IH. change (join sep (p :: q :: a)) with (p ++ sep ++ join sep (q :: a)).
      now rewrite <- !app_assoc.
Qed.

Lemma half_positive {A} (l : list A) :
  exists k, Z.to_nat (Z.max 1 (len l / 2)) = S k.
Proof.
  destruct (Z.to_nat (Z.max 1 (len l / 2))) as [|k] eqn:E; [lia | eauto].
Qed.

Lemma item_limit_of_length {A} (t : A) (l : list A) :
  item_limit_set (Some (len (t :: l))) = true.
Proof.
  unfold item_limit_set, len. cbn [length].
  destruct (Z.of_nat (S (length l)) =? 0) eqn:E; [|reflexivity].
  apply Z.eqb_eq in E. lia.
Qed.

Lemma halved_tickers (l : list json) (full ticker_type : pystr) :
  CHARACTER_LIMIT < len full ->
  format_ticker_markdown (JList l) ticker_type = Ok full ->
  exists body rest,
    format_ticker_markdown (JList (firstn (Z.to_nat (Z.max 1 (len l / 2))) l)) ticker_type
    = Ok body
    /\ full = body ++ rest
    /\ truncate_response (JList l) (fun d => format_ticker_markdown d ticker_type)
         (Some (len l))
       = Ok (body ++ items_truncation_msg (Z.max 1 (len l / 2)) (len l), true,
             Some (items_truncation_msg (Z.max 1 (len l / 2)) (len l))).
Proof.
  intros Hlen Hf. set (kept := firstn (Z.to_nat (Z.max 1 (len l / 2))) l).
  destruct l as [|t l].
  { exfalso. unfold format_ticker_markdown in Hf. cbn [truthy negb] in Hf.
    injection Hf as <-. vm_compute in Hlen. discriminate Hlen. }
  pose proof Hf as Hfull.
  unfold format_ticker_markdown in Hf. cbn [truthy negb py_iter bind] in Hf.
  inv_bind Hf. injection Hf as <-. rename a into blocks.
  destruct (half_positive (t :: l)) as [k Ek].
  assert (Hbody : format_ticker_markdown (JList kept) ticker_type
                  = Ok (join nl ((u "# Binance Ticker Information" ++ nl)
                                   :: concat (firstn (S k) blocks)))).
  { subst kept. rewrite Ek. unfold format_ticker_markdown.
    cbn [firstn truthy negb py_iter bind].
    change (t :: firstn k l) with (firstn (S k) (t :: l)).
    rewrite (mapM_firstn _ _ _ (S k) Ha). reflexivity. }
  destruct (join_prefix nl
              ((u "# Binance Ticker Information" ++ nl) :: concat (firstn (S k) blocks))
              (concat (skipn (S k) blocks))) as [rest Hrest].
  eexists. exists rest. split; [exact Hbody|]. split.
  + rewrite <- Hrest. rewrite <- app_comm_cons, <- concat_app, firstn_skipn. reflexivity.
  + apply (truncate_items (t :: l) (fun d => format_ticker_markdown d ticker_type)
             (Some (len (t :: l))) _ _ Hfull Hlen (item_limit_of_length t l) Hbody).
Qed.

Lemma halved_symbols (l : list json) (full : pystr) :
  CHARACTER_LIMIT < len full ->
  format_symbols_markdown (JList l) = Ok full ->
  exists blocks,
    mapM symbol_lines (firstn (Z.to_nat (Z.max 1 (len l / 2))) l) = Ok blocks
    /\ truncate_response (JList l) format_symbols_markdown (Some (len l))
       = Ok (join nl ((u "# Found " ++ of_Z (Z.max 1 (len l / 2))
                         ++ u " Trading Pairs" ++ nl) :: concat blocks)
               ++ items_truncation_msg (Z.max 1 (len l / 2)) (len l), true,
             Some (items_truncation_msg (Z.max 1 (len l / 2)) (len l))).
Proof.
  intros Hlen Hf. set (kept := firstn (Z.to_nat (Z.max 1 (len l / 2))) l).
  destruct l as [|t l].
  { exfalso. unfold format_symbols_markdown in Hf. cbn [truthy negb] in Hf.
    injection Hf as <-. vm_compute in Hlen. discriminate Hlen. }
  pose proof Hf as Hfull.
  unfold format_symbols_markdown in Hf. cbn [truthy negb py_len py_iter bind] in Hf.
  inv_bind Hf. injection Hf as <-. rename a into blocks.
  destruct (half_positive (t :: l)) as [k Ek].
  assert (Hk : len kept = Z.max 1 (len (t :: l) / 2)).
  { subst kept. apply len_firstn.
    assert (1 <= len (t :: l)) by (unfold len; cbn [length]; lia).
    assert (len (t :: l) / 2 <= len (t :: l)) by (apply Z.div_le_upper_bound; lia).
    lia. }
  assert (Hbody : format_symbols_markdown (JList kept)
                  = Ok (join nl ((u "# Found " ++ of_Z (Z.max 1 (len (t :: l) / 2))
                                    ++ u " Trading Pairs" ++ nl)
                                   :: concat (firstn (S k) blocks)))).
  { unfold format_symbols_markdown. cbn [py_len py_iter]. rewrite Hk.
    subst kept. rewrite Ek. cbn [firstn truthy negb bind].
    change (t :: firstn k l) with (firstn (S k) (t :: l)).
    rewrite (mapM_firstn _ _ _ (S k) Ha). reflexivity. }
  exists (firstn (S k) blocks). split.
  + subst kept. rewrite Ek. apply mapM_firstn. exact Ha.
  + apply (truncate_items (t :: l) format_symbols_markdown
             (Some (len (t :: l))) _ _ Hfull Hlen (item_limit_of_length t l) Hbody).
Qed.

(** X15. Halving as the ticker tool and the symbol search do it, with the
    length of the list as item limit.  When the full rendering succeeds and
    is over the budget, the list is not empty, the second rendering, of the
    first [max(1, n // 2)] records, succeeds as well, and the answer is that
    rendering followed by the notice, whatever its own length: there is one
    halving, and no check of the result.  For tickers the halved rendering
    is the beginning of the full one.  For symbols it is not: its title
    counts the records kept (Found k Trading Pairs), not the matches. *)
Theorem X15_halved_answers (l : list json) (full : pystr) :
  CHARACTER_LIMIT < len full ->
  let kept := firstn (Z.to_nat (Z.max 1 (len l / 2))) l in
  let notice := items_truncation_msg (Z.max 1 (len l / 2)) (len l) in
  (forall ticker_type,
      format_ticker_markdown (JList l) ticker_type = Ok full ->
      exists body rest,
        format_ticker_markdown (JList kept) ticker_type = Ok body
        /\ full = body ++ rest
        /\ truncate_response (JList l) (fun d => format_ticker_markdown d ticker_type)
             (Some (len l))
           = Ok (body ++ notice, true, Some notice))
  /\ (format_symbols_markdown (JList l) = Ok full ->
      exists blocks,
        mapM symbol_lines kept = Ok blocks
        /\ truncate_response (JList l) format_symbols_markdown (Some (len l))
           = Ok (join nl ((u "# Found " ++ of_Z (Z.max 1 (len l / 2))
                             ++ u " Trading Pairs" ++ nl) :: concat blocks)
                   ++ notice, true, Some notice)).
Proof.
  intros Hlen kept notice. split.
  - intros ticker_type Hf. exact (halved_tickers l full ticker_type Hlen Hf).
  - intros Hf. exact (halved_symbols l full Hlen Hf).
Qed.

(** *** Records the tables do not show *)

Lemma firstn_exact {A} (n : nat) (a b : list A) :
  length a = n -> firstn n (a ++ b) = a.
Proof.
  intros <-. rewrite firstn_app, firstn_all, Nat.sub_diag, firstn_O. apply app_nil_r.
Qed.

Lemma py_last_app (a : list json) (x : json) : py_last (JList (a ++ [x])) = Ok x.
Proof. cbn [py_last]. rewrite rev_app_distr. reflexivity. Qed.

Lemma klines_summary_ends (first last : json) (between : list json) :
  klines_summary (JList (first :: between ++ [last])) = klines_summary (JList [first; last]).
Proof.
  unfold klines_summary.
  change (first :: between ++ [last]) with ((first :: between) ++ [last]).
  rewrite py_last_app. reflexivity.
Qed.

Lemma klines_lines_beyond (c last : json) (shown middle middle' : list json)
    (symbol interval : pystr) :
  length (c :: shown) = 50%nat -> length middle = length middle' ->
  klines_lines (JList ((c :: shown) ++ middle ++ [last])) symbol interval
  = klines_lines (JList ((c :: shown) ++ middle' ++ [last])) symbol interval.
Proof.
  intros Hs Hm. unfold klines_lines, kline_rows. cbn [py_slice_to py_iter py_len bind].
  rewrite !(firstn_exact 50 (c :: shown)) by exact Hs.
  assert (Hn : len ((c :: shown) ++ middle ++ [last])
               = len ((c :: shown) ++ middle' ++ [last])).
  { unfold len. rewrite !length_app, Hm. reflexivity. }
  rewrite Hn.
  change ((c :: shown) ++ middle ++ [last]) with (c :: shown ++ middle ++ [last]).
  change ((c :: shown) ++ middle' ++ [last]) with (c :: shown ++ middle' ++ [last]).
  rewrite !(app_assoc shown), !klines_summary_ends. reflexivity.
Qed.

Lemma order_book_rows_top (top more : list json) :
  length top = 10%nat -> order_book_rows (JList (top ++ more)) = mapM order_book_row top.
Proof.
  intros H. unfold order_book_rows. cbn [py_slice_to py_iter bind].
  now rewrite (firstn_exact 10 top).
Qed.

Lemma order_book_summary_top (tb mb mb' ta ma ma' : list json) :
  length tb = 10%nat -> length ta = 10%nat ->
  order_book_summary (JList (tb ++ mb)) (JList (ta ++ ma))
  = order_book_summary (JList (tb ++ mb')) (JList (ta ++ ma')).
Proof.
  intros Hb Ha. destruct tb as [|b tb]; [discriminate|]. destruct ta as [|a ta]; [discriminate|].
  reflexivity.
Qed.

(** X16. Records past the cap of a table reach the answer only through
    their number.  The candle renderer reads the first fifty candles and the
    last one: two answers that differ only in the candles between the
    fiftieth and the last, however malformed, render alike.  The order-book
    renderer reads the first ten levels of each side: two books with the
    same update id that differ only in deeper levels, as many on each side,
    render alike.  (The trade renderer is different: its summary reads the
    quantity of every trade.) *)
Theorem X16_beyond_the_cap :
  (forall (shown middle middle' : list json) (last : json) (symbol interval : pystr),
      length shown = 50%nat -> length middle = length middle' ->
      format_klines_markdown (JList (shown ++ middle ++ [last])) symbol interval
      = format_klines_markdown (JList (shown ++ middle' ++ [last])) symbol interval)
  /\ (forall (data data' : json) (tb mb mb' ta ma ma' : list json) (symbol : pystr),
        py_get data (u "bids") (JList []) = Ok (JList (tb ++ mb)) ->
        py_get data' (u "bids") (JList []) = Ok (JList (tb ++ mb')) ->
        py_get data (u "asks") (JList []) = Ok (JList (ta ++ ma)) ->
        py_get data' (u "asks") (JList []) = Ok (JList (ta ++ ma')) ->
        py_get data (u "lastUpdateId") (JStr (u "N/A"))
        = py_get data' (u "lastUpdateId") (JStr (u "N/A")) ->
        length tb = 10%nat -> length ta = 10%nat ->
        length mb = length mb' -> length ma = length ma' ->
        format_order_book_markdown data symbol = format_order_book_markdown data' symbol).
Proof.
  split.
  - intros shown middle middle' last symbol interval Hs Hm.
    destruct shown as [|c shown]; [discriminate|].
    unfold format_klines_markdown.
    change (truthy (JList ((c :: shown) ++ middle ++ [last]))) with true.
    change (truthy (JList ((c :: shown) ++ middle' ++ [last]))) with true.
    cbn [negb]. now rewrite (klines_lines_beyond c last shown middle middle').
  - intros data data' tb mb mb' ta ma ma' symbol Hb Hb' Ha Ha' Hid Htb Hta Hmb Hma.
    unfold format_order_book_markdown, order_book_lines.
    rewrite Hb, Hb', Ha, Ha', Hid.
    destruct (py_get data' (u "lastUpdateId") (JStr (u "N/A"))) as [update_id|e];
      cbn [bind]; [|reflexivity].
    rewrite !order_book_rows_top by assumption.
    rewrite (order_book_summary_top tb mb mb' ta ma ma' Htb Hta).
    cbn [py_len].
    replace (len (tb ++ mb)) with (len (tb ++ mb'))
      by (unfold len; rewrite !length_app, Hmb; reflexivity).
    replace (len (ta ++ ma)) with (len (ta ++ ma'))
      by (unfold len; rewrite !length_app, Hma; reflexivity).
    reflexivity.
Qed.

(** *** The short ticker *)

(** X20. A ticker rendered in a type other than FULL shows the symbol, the
    price and the time of the last update and nothing else: the rendering
    reads [symbol], [lastPrice], [price] and [closeTime] only, so two
    tickers that agree on these four render alike, whatever the statistics
    of the day hold, and the block is the heading, the price, the time of
    the update when there is one, and a blank line. *)
Theorem X20_short_ticker (ticker_type : pystr) (d d' : list (pystr * json)) :
  ticker_type <> u "FULL" ->
  assoc (u "symbol") d = assoc (u "symbol") d' ->
  assoc (u "lastPrice") d = assoc (u "lastPrice") d' ->
  assoc (u "price") d = assoc (u "price") d' ->
  assoc (u "closeTime") d = assoc (u "closeTime") d' ->
  ticker_lines ticker_type (JDict d) = ticker_lines ticker_type (JDict d')
  /\ forall lines, ticker_lines ticker_type (JDict d) = Ok lines ->
                   (3 <= length lines <= 4)%nat /\ last lines (u "x") = [].
Proof.
  intros Ht Hs Hl Hp Hc.
  assert (Et : PyStr.eqb ticker_type (u "FULL") = false).
  { destruct (PyStr.eqb ticker_type (u "FULL")) eqn:E; [|reflexivity].
    apply pystr_eqb_eq in E. contradiction. }
  unfold ticker_lines. cbn [py_get bind]. rewrite Et, Hs, Hl, Hp, Hc.
  split; [reflexivity|].
  intros lines H. cbn [bind] in H. do 2 inv_bind H. injection H as <-.
  match goal with
  | Htime : (if ?c then _ else _) = Ok ?l |- _ =>
      destruct c; [inv_bind Htime; injection Htime as <- | injection Htime as <-]
  end; cbn; split; try lia; reflexivity.
Qed.

End Rendering.

(** ** The character budget in the tools *)

Section Budget.

Context {RT : PyRuntime}.

(** A tool on a provider that answers every request with status 200 and
    the data [data]: what is left is the body of the tool on [data]. *)
Tactic Notation "tool_answer" reference(tool) reference(body) hyp(Hw) :=
  unfold tool, catch_all, body;
  match goal with
  | |- context [make_api_request ?ep ?ps ?w] =>
      let E := fresh "E" in
      pose proof (make_api_request_outcome ep ps w _ Hw) as E;
      destruct (make_api_request ep ps w) as [response w'];
      cbn [fst] in E; subst response;
      cbn [handle_response Z.eqb Pos.eqb fst snd bind]
  end.





End Budget.



(** *** Instances of the further properties *)

Lemma X4_witness :
  let w := Examples.ok_world Examples.book_zero_bid in
  let w' := snd (@invoke_get_order_book Examples.rt (Examples.book_input 5) w) in
  @invoke_get_order_book Examples.rt (Examples.book_input 5) w
  = (Returned (u "Error fetching order book: float division by zero"), w')
  /\ In 5 [5; 10; 20; 50; 100; 500; 1000; 5000]
  /\ sent w' = sent w ++ [Request (BINANCE_API_BASE ++ u "/api/v3/depth")
                           [(u "symbol", JStr (u "BTCUSDT")); (u "limit", JInt 5)]].
Proof.
  intros w w'.
  assert (H : @invoke_get_order_book Examples.rt (Examples.book_input 5) w
              = (Returned (u "Error fetching order book: float division by zero"), w'))
    by (vm_compute; reflexivity).
  split; [exact H|].
  exact (proj1 (@X4_requests_carry_validated_input Examples.rt w w' _)
           (Examples.book_input 5) H).
Defined.

Lemma X5_witness :
  let w := Examples.ok_world (JList []) in
  let w' := snd (@invoke_get_klines Examples.rt Examples.klines_input w) in
  @invoke_get_klines Examples.rt Examples.klines_input w
  = (Returned (u "No kline data found for BTCUSDT with interval 1h."), w')
  /\ exists r,
       sent w' = sent w ++ [r]
       /\ req_url r = BINANCE_API_BASE ++ u "/api/v3/klines"
       /\ assoc (u "interval") (req_params r) = Some (JStr (u "1h"))
       /\ assoc (u "startTime") (req_params r) = None.
Proof.
  intros w w'.
  assert (H : @invoke_get_klines Examples.rt Examples.klines_input w
              = (Returned (u "No kline data found for BTCUSDT with interval 1h."), w'))
    by (vm_compute; reflexivity).
  split; [exact H|].
  destruct (@X5_klines_request Examples.rt Examples.klines_input w w' _ H)
    as (r & Hs & Hu & _ & Hi & _ & _ & _ & Ht & _).
  exists r. repeat split; assumption.
Defined.

Lemma X6_witness :
  500 <= 503
  /\ @handle_response Examples.rt 503 (Ok JNull)
     = Raise (Exception (server_error_message 503)).
Proof.
  assert (H : 500 <= 503) by lia.
  split; [exact H|].
  exact (proj1 (proj1 (proj2 (@X6_only_200_returns_data Examples.rt 503 (Ok JNull))) H)).
Defined.

Lemma X8_witness :
  400 <= 400 < 500
  /\ 400 <> 429
  /\ @handle_response Examples.rt 400
       (Ok (JDict [(u "code", JInt (-1121)); (u "msg", JStr (u "Invalid symbol."))]))
     = Raise (Exception (@invalid_symbol_message Examples.rt (JStr (u "Invalid symbol.")))).
Proof.
  assert (H1 : 400 <= 400 < 500) by lia.
  assert (H2 : 400 <> 429) by lia.
  split; [exact H1|]. split; [exact H2|].
  exact (proj1 (@X8_client_errors Examples.rt 400
                  [(u "code", JInt (-1121)); (u "msg", JStr (u "Invalid symbol."))] H1 H2)
           (u "Invalid symbol.") eq_refl).
Defined.

Lemma X9_witness :
  (forall r, provider (Examples.world_of HttpTimeout) r = HttpTimeout)
  /\ @answer_result Examples.rt HttpTimeout = Raise (Exception timeout_message)
  /\ fst (@binance_get_klines Examples.rt Examples.klines_input
            (Examples.world_of HttpTimeout))
     = u "Error fetching klines: " ++ @str_exn Examples.rt (Exception timeout_message).
Proof.
  assert (H : forall r, provider (Examples.world_of HttpTimeout) r = HttpTimeout)
    by reflexivity.
  split; [exact H|]. split; [reflexivity|].
  exact (proj1 (proj2 (proj2 (proj2
           (@X9_tools_report_client_failures Examples.rt (Examples.world_of HttpTimeout)
              HttpTimeout (Exception timeout_message) H eq_refl))))
           Examples.klines_input).
Defined.

Lemma X10_witness :
  ~ In (u "2d") VALID_INTERVALS
  /\ validate_interval (u "2d")
     = Raise (ValueError
                (u "Invalid interval '" ++ u "2d"
                   ++ u "'. Valid intervals: 1s, 1m, 3m, 5m, 15m, 30m, 1h, 2h, 4h, 6h, 8h, 12h, 1d, 3d, 1w, 1M")).
Proof.
  assert (H : ~ In (u "2d") VALID_INTERVALS).
  { intros H. vm_compute in H. repeat destruct H as [H|H]; try discriminate H. exact H. }
  split; [exact H|].
  exact (proj1 (proj2 (@X10_interval_validation Examples.rt (u "2d")) H)).
Defined.

Lemma X12_witness :
  In (JDict [(u "time", JInt 1700000000000); (u "price", JStr (u "100.5"))])
    [Examples.trade_full; Examples.trade_no_qty]
  /\ assoc (u "qty") [(u "time", JInt 1700000000000); (u "price", JStr (u "100.5"))] = None
  /\ exists e, @format_trades_markdown Examples.rt
                 (JList [Examples.trade_full; Examples.trade_no_qty]) (u "BTCUSDT")
               = Raise e.
Proof.
  assert (H : In (JDict [(u "time", JInt 1700000000000); (u "price", JStr (u "100.5"))])
                [Examples.trade_full; Examples.trade_no_qty])
    by (right; left; reflexivity).
  split; [exact H|]. split; [reflexivity|].
  exact (proj2 (proj2 (@X12_trading_summary_reads_every_trade Examples.rt
                         [Examples.trade_full; Examples.trade_no_qty]))
           _ (u "BTCUSDT") H eq_refl).
Defined.

Lemma X13_witness :
  (length [JInt 1700000000000; JStr (u "100"); JStr (u "110"); JStr (u "90");
           JStr (u "105")] < 11)%nat
  /\ kline_dict Examples.candle_short = Raise (Builtin IndexError).
Proof.
  assert (H : (length [JInt 1700000000000; JStr (u "100"); JStr (u "110"); JStr (u "90");
                       JStr (u "105")] < 11)%nat) by (simpl; lia).
  split; [exact H|].
  exact (proj2 (X13_kline_dict_needs_eleven _) H).
Defined.

Lemma X14_witness :
  let params := {| search_response_format := u "markdown";
                   search_base_asset := Some (u "BTC");
                   search_quote_asset := None;
                   search_term := Some [];
                   search_status := u "TRADING" |} in
  let btc := JDict [(u "symbol", JStr (u "BTCUSDT")); (u "status", JStr (u "TRADING"));
                    (u "baseAsset", JStr (u "BTC")); (u "quoteAsset", JStr (u "USDT"))] in
  let eth := JDict [(u "symbol", JStr (u "ETHUSDT")); (u "status", JStr (u "TRADING"));
                    (u "baseAsset", JStr (u "ETH")); (u "quoteAsset", JStr (u "USDT"))] in
  filter_symbols params [eth; btc] = Ok [btc]
  /\ [btc] = filter (kept_by params) [eth; btc].
Proof.
  intros params btc eth.
  assert (H : filter_symbols params [eth; btc] = Ok [btc]) by reflexivity.
  split; [exact H|].
  exact (proj1 (X14_search_keeps_what_passes params [eth; btc]) [btc] H).
Defined.

Lemma X15_witness :
  let long := JDict [(u "symbol", JStr (repeat 65%N (Z.to_nat 13000)))] in
  let full := match @format_ticker_markdown Examples.rt (JList [long; long]) (u "MINI") with
              | Ok text => text
              | Raise _ => []
              end in
  CHARACTER_LIMIT < len full
  /\ @format_ticker_markdown Examples.rt (JList [long; long]) (u "MINI") = Ok full
  /\ exists body rest,
       @format_ticker_markdown Examples.rt (JList [long]) (u "MINI") = Ok body
       /\ full = body ++ rest
       /\ @truncate_response (JList [long; long])
            (fun d => @format_ticker_markdown Examples.rt d (u "MINI")) (Some 2)
          = Ok (body ++ items_truncation_msg 1 2, true, Some (items_truncation_msg 1 2)).
Proof.
  intros long full.
  assert (H1 : CHARACTER_LIMIT < len full) by (vm_compute; reflexivity).
  assert (H2 : @format_ticker_markdown Examples.rt (JList [long; long]) (u "MINI") = Ok full)
    by reflexivity.
  split; [exact H1|]. split; [exact H2|].
  exact (proj1 (@X15_halved_answers Examples.rt [long; long] full H1) (u "MINI") H2).
Defined.

Lemma X16_witness :
  let shown := repeat (Examples.candle "105") 50 in
  length shown = 50%nat
  /\ length [JNull] = length [Examples.candle "1"]
  /\ @format_klines_markdown Examples.rt
       (JList (shown ++ [JNull] ++ [Examples.candle "110"])) (u "BTCUSDT") (u "1h")
     = @format_klines_markdown Examples.rt
         (JList (shown ++ [Examples.candle "1"] ++ [Examples.candle "110"]))
         (u "BTCUSDT") (u "1h").
Proof.
  intros shown.
  assert (H1 : length shown = 50%nat) by reflexivity.
  assert (H2 : length [JNull] = length [Examples.candle "1"]) by reflexivity.
  split; [exact H1|]. split; [exact H2|].
  exact (proj1 (@X16_beyond_the_cap Examples.rt) shown [JNull] [Examples.candle "1"]
           (Examples.candle "110") (u "BTCUSDT") (u "1h") H1 H2).
Defined.

Lemma X17_witness :
  let raw := {| search_response_format := u "markdown";
                search_base_asset := Some (u "btc");
                search_quote_asset := None;
                search_term := None;
                search_status := u "TRADING" |} in
  let w := Examples.ok_world (JDict []) in
  let w' := snd (@invoke_search_symbols Examples.rt raw w) in
  @invoke_search_symbols Examples.rt raw w
  = (Returned (u "No symbols found matching your criteria."), w')
  /\ sent w' = sent w ++ [Request (BINANCE_API_BASE ++ u "/api/v3/exchangeInfo") []].
Proof.
  intros raw w w'.
  assert (H : @invoke_search_symbols Examples.rt raw w
              = (Returned (u "No symbols found matching your criteria."), w'))
    by (vm_compute; reflexivity).
  split; [exact H|].
  exact (proj1 (@X17_exchange_information_requests Examples.rt w w' _) raw H).
Defined.

Lemma X18_witness :
  let l := [u "BTCUSDT"; u "ETHUSDT"] in
  let l' := [u "BTC" ++ u "USDT"; u "ETH" ++ u "USDT"] in
  l <> [] /\ l' <> [] /\ Forall quote_free l /\ Forall quote_free l'
  /\ symbols_param l = symbols_param l' /\ l = l'.
Proof.
  intros l l'.
  assert (Hl : l <> []) by discriminate.
  assert (Hl' : l' <> []) by discriminate.
  assert (Hq : Forall quote_free l).
  { repeat constructor; intros H; vm_compute in H;
      repeat destruct H as [H|H]; try discriminate H; exact H. }
  assert (Hq' : Forall quote_free l').
  { repeat constructor; intros H; vm_compute in H;
      repeat destruct H as [H|H]; try discriminate H; exact H. }
  assert (He : symbols_param l = symbols_param l') by reflexivity.
  split; [exact Hl|]. split; [exact Hl'|]. split; [exact Hq|]. split; [exact Hq'|].
  split; [exact He|].
  exact (proj1 X18_symbols_parameter l l' Hl Hl' Hq Hq' He).
Defined.

Lemma X19_witness :
  let p := {| book_response_format := u "json"; book_symbol := u "BTCUSDT";
              book_limit := 5 |} in
  (forall r, provider (Examples.ok_world Examples.book_zero_bid) r
             = HttpResponse 200 (Ok Examples.book_zero_bid))
  /\ @answer_result Examples.rt (HttpResponse 200 (Ok Examples.book_zero_bid))
     = Ok Examples.book_zero_bid
  /\ book_response_format p = u "json"
  /\ fst (@binance_get_order_book Examples.rt p (Examples.ok_world Examples.book_zero_bid))
     = @json_dumps Examples.rt Examples.book_zero_bid.
Proof.
  intros p.
  assert (H : forall r, provider (Examples.ok_world Examples.book_zero_bid) r
                        = HttpResponse 200 (Ok Examples.book_zero_bid)) by reflexivity.
  split; [exact H|]. split; [reflexivity|]. split; [reflexivity|].
  exact (proj1 (@X19_json_answers Examples.rt (Examples.ok_world Examples.book_zero_bid)
                  (HttpResponse 200 (Ok Examples.book_zero_bid)) Examples.book_zero_bid
                  H eq_refl) p eq_refl).
Defined.

Lemma X20_witness :
  let d := [(u "symbol", JStr (u "BTCUSDT")); (u "price", JStr (u "50000.12"));
            (u "priceChange", JStr (u "not a number"))] in
  let d' := [(u "symbol", JStr (u "BTCUSDT")); (u "price", JStr (u "50000.12"))] in
  u "MINI" <> u "FULL"
  /\ assoc (u "symbol") d = assoc (u "symbol") d'
  /\ assoc (u "lastPrice") d = assoc (u "lastPrice") d'
  /\ assoc (u "price") d = assoc (u "price") d'
  /\ assoc (u "closeTime") d = assoc (u "closeTime") d'
  /\ @ticker_lines Examples.rt (u "MINI") (JDict d)
     = @ticker_lines Examples.rt (u "MINI") (JDict d').
Proof.
  intros d d'.
  assert (H : u "MINI" <> u "FULL") by (intros H; vm_compute in H; discriminate H).
  split; [exact H|]. repeat (split; [reflexivity|]).
  exact (proj1 (@X20_short_ticker Examples.rt (u "MINI") d d' H
                  eq_refl eq_refl eq_refl eq_refl)).
Defined.
